(** * bot.py: a Telegram video delivery bot

    A shallow embedding of [bot.py]: the SQLite layer ([get_db],
    [add_video], [delete_video], [fetch_video]), the helpers ([is_admin],
    [check_membership]) and the four handlers ([start], [handle_code],
    [upload], [delete]).

    Coroutines become computations in a state-and-exception monad [Py]
    over a [World] that holds the [videos] table, the framework's
    per-user [user_data] dictionaries and the trace of everything the
    process did to the outside (SQL statements, platform queries,
    replies).  Python exceptions are results of their own: a handler that
    raises keeps the effects it had until then. *)

From stdpp Require Import base option list gmap strings.
From Stdlib Require Import ZArith Ascii String.

Local Open Scope Z_scope.
Local Open Scope string_scope.

(** ** Python strings

    A [str] is a sequence of Unicode characters.  It is modelled by the
    [string] of its UTF-8 bytes, which is also what SQLite stores and
    compares; [upper] and [strip] decode the bytes, work on the characters
    as Python does, with the tables of Unicode 14.0.0 that CPython 3.11
    carries, and encode the result. *)

Module Str.

(** *** UTF-8

    A string holds the UTF-8 bytes of its text; the functions of [str]
    work on the characters, the code points these bytes encode. *)

Definition code (a : ascii) : N := N_of_ascii a.
Definition byte (n : N) : ascii := ascii_of_N n.

(** A continuation byte, [10xxxxxx]. *)
Definition is_cont (a : ascii) : bool := (128 <=? code a)%N && (code a <? 192)%N.

(** Reads the characters of [s]; [need] continuation bytes are still to
    come for the character begun in [acc].  [None] when the bytes are no
    UTF-8. *)
Fixpoint decode_from (need : nat) (acc : N) (s : string) : option (list N) :=
  match s with
  | EmptyString => match need with O => Some [] | S _ => None end
  | String a s' =>
      match need with
      | O =>
          let n := code a in
          if (n <? 128)%N then cons n <$> decode_from 0 0 s'
          else if (n <? 192)%N then None
          else if (n <? 224)%N then decode_from 1 (n - 192) s'
          else if (n <? 240)%N then decode_from 2 (n - 224) s'
          else if (n <? 248)%N then decode_from 3 (n - 240) s'
          else None
      | S k =>
          if is_cont a then
            let acc' := (acc * 64 + (code a - 128))%N in
            match k with
            | O => cons acc' <$> decode_from 0 0 s'
            | S _ => decode_from k acc' s'
            end
          else None
      end
  end.

Definition decode (s : string) : option (list N) := decode_from 0 0 s.

Definition encode_char (c : N) : string :=
  if (c <? 128)%N then String (byte c) EmptyString
  else if (c <? 2048)%N then
    String (byte (192 + c / 64))
      (String (byte (128 + c mod 64)) EmptyString)
  else if (c <? 65536)%N then
    String (byte (224 + c / 4096))
      (String (byte (128 + (c / 64) mod 64))
         (String (byte (128 + c mod 64)) EmptyString))
  else
    String (byte (240 + c / 262144))
      (String (byte (128 + (c / 4096) mod 64))
         (String (byte (128 + (c / 64) mod 64))
            (String (byte (128 + c mod 64)) EmptyString))).

Fixpoint encode (l : list N) : string :=
  match l with
  | [] => EmptyString
  | c :: l' => encode_char c +:+ encode l'
  end.

(** Applies [f] to the characters of [s]; bytes that are no UTF-8, which
    no [str] has, are left as they are. *)
Definition on_chars (f : list N -> list N) (s : string) : string :=
  match decode s with
  | Some l => encode (f l)
  | None => s
  end.

(** *** Case mapping and white space *)

(** The characters [str.upper] changes, each with what it becomes: the
    upper-case mapping of Unicode 14.0.0, as CPython 3.11 applies it. *)
Definition upper_table : list (N * list N) :=
  [(97, [65]); (98, [66]); (99, [67]); (100, [68]); (101, [69]); (102, [70]);
   (103, [71]); (104, [72]); (105, [73]); (106, [74]); (107, [75]);
   (108, [76]); (109, [77]); (110, [78]); (111, [79]); (112, [80]);
   (113, [81]); (114, [82]); (115, [83]); (116, [84]); (117, [85]);
   (118, [86]); (119, [87]); (120, [88]); (121, [89]); (122, [90]);
   (181, [924]); (223, [83; 83]); (224, [192]); (225, [193]); (226, [194]);
   (227, [195]); (228, [196]); (229, [197]); (230, [198]); (231, [199]);
   (232, [200]); (233, [201]); (234, [202]); (235, [203]); (236, [204]);
   (237, [205]); (238, [206]); (239, [207]); (240, [208]); (241, [209]);
   (242, [210]); (243, [211]); (244, [212]); (245, [213]); (246, [214]);
   (248, [216]); (249, [217]); (250, [218]); (251, [219]); (252, [220]);
   (253, [221]); (254, [222]); (255, [376]); (257, [256]); (259, [258]);
   (261, [260]); (263, [262]); (265, [264]); (267, [266]); (269, [268]);
   (271, [270]); (273, [272]); (275, [274]); (277, [276]); (279, [278]);
   (281, [280]); (283, [282]); (285, [284]); (287, [286]); (289, [288]);
   (291, [290]); (293, [292]); (295, [294]); (297, [296]); (299, [298]);
   (301, [300]); (303, [302]); (305, [73]); (307, [306]); (309, [308]);
   (311, [310]); (314, [313]); (316, [315]); (318, [317]); (320, [319]);
   (322, [321]); (324, [323]); (326, [325]); (328, [327]); (329, [700; 78]);
   (331, [330]); (333, [332]); (335, [334]); (337, [336]); (339, [338]);
   (341, [340]); (343, [342]); (345, [344]); (347, [346]); (349, [348]);
   (351, [350]); (353, [352]); (355, [354]); (357, [356]); (359, [358]);
   (361, [360]); (363, [362]); (365, [364]); (367, [366]); (369, [368]);
   (371, [370]); (373, [372]); (375, [374]); (378, [377]); (380, [379]);
   (382, [381]); (383, [83]); (384, [579]); (387, [386]); (389, [388]);
   (392, [391]); (396, [395]); (402, [401]); (405, [502]); (409, [408]);
   (410, [573]); (414, [544]); (417, [416]); (419, [418]); (421, [420]);
   (424, [423]); (429, [428]); (432, [431]); (436, [435]); (438, [437]);
   (441, [440]); (445, [444]); (447, [503]); (453, [452]); (454, [452]);
   (456, [455]); (457, [455]); (459, [458]); (460, [458]); (462, [461]);
   (464, [463]); (466, [465]); (468, [467]); (470, [469]); (472, [471]);
   (474, [473]); (476, [475]); (477, [398]); (479, [478]); (481, [480]);
   (483, [482]); (485, [484]); (487, [486]); (489, [488]); (491, [490]);
   (493, [492]); (495, [494]); (496, [74; 780]); (498, [497]); (499, [497]);
   (501, [500]); (505, [504]); (507, [506]); (509, [508]); (511, [510]);
   (513, [512]); (515, [514]); (517, [516]); (519, [518]); (521, [520]);
   (523, [522]); (525, [524]); (527, [526]); (529, [528]); (531, [530]);
   (533, [532]); (535, [534]); (537, [536]); (539, [538]); (541, [540]);
   (543, [542]); (547, [546]); (549, [548]); (551, [550]); (553, [552]);
   (555, [554]); (557, [556]); (559, [558]); (561, [560]); (563, [562]);
   (572, [571]); (575, [11390]); (576, [11391]); (578, [577]); (583, [582]);
   (585, [584]); (587, [586]); (589, [588]); (591, [590]); (592, [11375]);
   (593, [11373]); (594, [11376]); (595, [385]); (596, [390]); (598, [393]);
   (599, [394]); (601, [399]); (603, [400]); (604, [42923]); (608, [403]);
   (609, [42924]); (611, [404]); (613, [42893]); (614, [42922]);
   (616, [407]); (617, [406]); (618, [42926]); (619, [11362]);
   (620, [42925]); (623, [412]); (625, [11374]); (626, [413]); (629, [415]);
   (637, [11364]); (640, [422]); (642, [42949]); (643, [425]);
   (647, [42929]); (648, [430]); (649, [580]); (650, [433]); (651, [434]);
   (652, [581]); (658, [439]); (669, [42930]); (670, [42928]); (837, [921]);
   (881, [880]); (883, [882]); (887, [886]); (891, [1021]); (892, [1022]);
   (893, [1023]); (912, [921; 776; 769]); (940, [902]); (941, [904]);
   (942, [905]); (943, [906]); (944, [933; 776; 769]); (945, [913]);
   (946, [914]); (947, [915]); (948, [916]); (949, [917]); (950, [918]);
   (951, [919]); (952, [920]); (953, [921]); (954, [922]); (955, [923]);
   (956, [924]); (957, [925]); (958, [926]); (959, [927]); (960, [928]);
   (961, [929]); (962, [931]); (963, [931]); (964, [932]); (965, [933]);
   (966, [934]); (967, [935]); (968, [936]); (969, [937]); (970, [938]);
   (971, [939]); (972, [908]); (973, [910]); (974, [911]); (976, [914]);
   (977, [920]); (981, [934]); (982, [928]); (983, [975]); (985, [984]);
   (987, [986]); (989, [988]); (991, [990]); (993, [992]); (995, [994]);
   (997, [996]); (999, [998]); (1001, [1000]); (1003, [1002]);
   (1005, [1004]); (1007, [1006]); (1008, [922]); (1009, [929]);
   (1010, [1017]); (1011, [895]); (1013, [917]); (1016, [1015]);
   (1019, [1018]); (1072, [1040]); (1073, [1041]); (1074, [1042]);
   (1075, [1043]); (1076, [1044]); (1077, [1045]); (1078, [1046]);
   (1079, [1047]); (1080, [1048]); (1081, [1049]); (1082, [1050]);
   (1083, [1051]); (1084, [1052]); (1085, [1053]); (1086, [1054]);
   (1087, [1055]); (1088, [1056]); (1089, [1057]); (1090, [1058]);
   (1091, [1059]); (1092, [1060]); (1093, [1061]); (1094, [1062]);
   (1095, [1063]); (1096, [1064]); (1097, [1065]); (1098, [1066]);
   (1099, [1067]); (1100, [1068]); (1101, [1069]); (1102, [1070]);
   (1103, [1071]); (1104, [1024]); (1105, [1025]); (1106, [1026]);
   (1107, [1027]); (1108, [1028]); (1109, [1029]); (1110, [1030]);
   (1111, [1031]); (1112, [1032]); (1113, [1033]); (1114, [1034]);
   (1115, [1035]); (1116, [1036]); (1117, [1037]); (1118, [1038]);
   (1119, [1039]); (1121, [1120]); (1123, [1122]); (1125, [1124]);
   (1127, [1126]); (1129, [1128]); (1131, [1130]); (1133, [1132]);
   (1135, [1134]); (1137, [1136]); (1139, [1138]); (1141, [1140]);
   (1143, [1142]); (1145, [1144]); (1147, [1146]); (1149, [1148]);
   (1151, [1150]); (1153, [1152]); (1163, [1162]); (1165, [1164]);
   (1167, [1166]); (1169, [1168]); (1171, [1170]); (1173, [1172]);
   (1175, [1174]); (1177, [1176]); (1179, [1178]); (1181, [1180]);
   (1183, [1182]); (1185, [1184]); (1187, [1186]); (1189, [1188]);
   (1191, [1190]); (1193, [1192]); (1195, [1194]); (1197, [1196]);
   (1199, [1198]); (1201, [1200]); (1203, [1202]); (1205, [1204]);
   (1207, [1206]); (1209, [1208]); (1211, [1210]); (1213, [1212]);
   (1215, [1214]); (1218, [1217]); (1220, [1219]); (1222, [1221]);
   (1224, [1223]); (1226, [1225]); (1228, [1227]); (1230, [1229]);
   (1231, [1216]); (1233, [1232]); (1235, [1234]); (1237, [1236]);
   (1239, [1238]); (1241, [1240]); (1243, [1242]); (1245, [1244]);
   (1247, [1246]); (1249, [1248]); (1251, [1250]); (1253, [1252]);
   (1255, [1254]); (1257, [1256]); (1259, [1258]); (1261, [1260]);
   (1263, [1262]); (1265, [1264]); (1267, [1266]); (1269, [1268]);
   (1271, [1270]); (1273, [1272]); (1275, [1274]); (1277, [1276]);
   (1279, [1278]); (1281, [1280]); (1283, [1282]); (1285, [1284]);
   (1287, [1286]); (1289, [1288]); (1291, [1290]); (1293, [1292]);
   (1295, [1294]); (1297, [1296]); (1299, [1298]); (1301, [1300]);
   (1303, [1302]); (1305, [1304]); (1307, [1306]); (1309, [1308]);
   (1311, [1310]); (1313, [1312]); (1315, [1314]); (1317, [1316]);
   (1319, [1318]); (1321, [1320]); (1323, [1322]); (1325, [1324]);
   (1327, [1326]); (1377, [1329]); (1378, [1330]); (1379, [1331]);
   (1380, [1332]); (1381, [1333]); (1382, [1334]); (1383, [1335]);
   (1384, [1336]); (1385, [1337]); (1386, [1338]); (1387, [1339]);
   (1388, [1340]); (1389, [1341]); (1390, [1342]); (1391, [1343]);
   (1392, [1344]); (1393, [1345]); (1394, [1346]); (1395, [1347]);
   (1396, [1348]); (1397, [1349]); (1398, [1350]); (1399, [1351]);
   (1400, [1352]); (1401, [1353]); (1402, [1354]); (1403, [1355]);
   (1404, [1356]); (1405, [1357]); (1406, [1358]); (1407, [1359]);
   (1408, [1360]); (1409, [1361]); (1410, [1362]); (1411, [1363]);
   (1412, [1364]); (1413, [1365]); (1414, [1366]); (1415, [1333; 1362]);
   (4304, [7312]); (4305, [7313]); (4306, [7314]); (4307, [7315]);
   (4308, [7316]); (4309, [7317]); (4310, [7318]); (4311, [7319]);
   (4312, [7320]); (4313, [7321]); (4314, [7322]); (4315, [7323]);
   (4316, [7324]); (4317, [7325]); (4318, [7326]); (4319, [7327]);
   (4320, [7328]); (4321, [7329]); (4322, [7330]); (4323, [7331]);
   (4324, [7332]); (4325, [7333]); (4326, [7334]); (4327, [7335]);
   (4328, [7336]); (4329, [7337]); (4330, [7338]); (4331, [7339]);
   (4332, [7340]); (4333, [7341]); (4334, [7342]); (4335, [7343]);
   (4336, [7344]); (4337, [7345]); (4338, [7346]); (4339, [7347]);
   (4340, [7348]); (4341, [7349]); (4342, [7350]); (4343, [7351]);
   (4344, [7352]); (4345, [7353]); (4346, [7354]); (4349, [7357]);
   (4350, [7358]); (4351, [7359]); (5112, [5104]); (5113, [5105]);
   (5114, [5106]); (5115, [5107]); (5116, [5108]); (5117, [5109]);
   (7296, [1042]); (7297, [1044]); (7298, [1054]); (7299, [1057]);
   (7300, [1058]); (7301, [1058]); (7302, [1066]); (7303, [1122]);
   (7304, [42570]); (7545, [42877]); (7549, [11363]); (7566, [42950]);
   (7681, [7680]); (7683, [7682]); (7685, [7684]); (7687, [7686]);
   (7689, [7688]); (7691, [7690]); (7693, [7692]); (7695, [7694]);
   (7697, [7696]); (7699, [7698]); (7701, [7700]); (7703, [7702]);
   (7705, [7704]); (7707, [7706]); (7709, [7708]); (7711, [7710]);
   (7713, [7712]); (7715, [7714]); (7717, [7716]); (7719, [7718]);
   (7721, [7720]); (7723, [7722]); (7725, [7724]); (7727, [7726]);
   (7729, [7728]); (7731, [7730]); (7733, [7732]); (7735, [7734]);
   (7737, [7736]); (7739, [7738]); (7741, [7740]); (7743, [7742]);
   (7745, [7744]); (7747, [7746]); (7749, [7748]); (7751, [7750]);
   (7753, [7752]); (7755, [7754]); (7757, [7756]); (7759, [7758]);
   (7761, [7760]); (7763, [7762]); (7765, [7764]); (7767, [7766]);
   (7769, [7768]); (7771, [7770]); (7773, [7772]); (7775, [7774]);
   (7777, [7776]); (7779, [7778]); (7781, [7780]); (7783, [7782]);
   (7785, [7784]); (7787, [7786]); (7789, [7788]); (7791, [7790]);
   (7793, [7792]); (7795, [7794]); (7797, [7796]); (7799, [7798]);
   (7801, [7800]); (7803, [7802]); (7805, [7804]); (7807, [7806]);
   (7809, [7808]); (7811, [7810]); (7813, [7812]); (7815, [7814]);
   (7817, [7816]); (7819, [7818]); (7821, [7820]); (7823, [7822]);
   (7825, [7824]); (7827, [7826]); (7829, [7828]); (7830, [72; 817]);
   (7831, [84; 776]); (7832, [87; 778]); (7833, [89; 778]);
   (7834, [65; 702]); (7835, [7776]); (7841, [7840]); (7843, [7842]);
   (7845, [7844]); (7847, [7846]); (7849, [7848]); (7851, [7850]);
   (7853, [7852]); (7855, [7854]); (7857, [7856]); (7859, [7858]);
   (7861, [7860]); (7863, [7862]); (7865, [7864]); (7867, [7866]);
   (7869, [7868]); (7871, [7870]); (7873, [7872]); (7875, [7874]);
   (7877, [7876]); (7879, [7878]); (7881, [7880]); (7883, [7882]);
   (7885, [7884]); (7887, [7886]); (7889, [7888]); (7891, [7890]);
   (7893, [7892]); (7895, [7894]); (7897, [7896]); (7899, [7898]);
   (7901, [7900]); (7903, [7902]); (7905, [7904]); (7907, [7906]);
   (7909, [7908]); (7911, [7910]); (7913, [7912]); (7915, [7914]);
   (7917, [7916]); (7919, [7918]); (7921, [7920]); (7923, [7922]);
   (7925, [7924]); (7927, [7926]); (7929, [7928]); (7931, [7930]);
   (7933, [7932]); (7935, [7934]); (7936, [7944]); (7937, [7945]);
   (7938, [7946]); (7939, [7947]); (7940, [7948]); (7941, [7949]);
   (7942, [7950]); (7943, [7951]); (7952, [7960]); (7953, [7961]);
   (7954, [7962]); (7955, [7963]); (7956, [7964]); (7957, [7965]);
   (7968, [7976]); (7969, [7977]); (7970, [7978]); (7971, [7979]);
   (7972, [7980]); (7973, [7981]); (7974, [7982]); (7975, [7983]);
   (7984, [7992]); (7985, [7993]); (7986, [7994]); (7987, [7995]);
   (7988, [7996]); (7989, [7997]); (7990, [7998]); (7991, [7999]);
   (8000, [8008]); (8001, [8009]); (8002, [8010]); (8003, [8011]);
   (8004, [8012]); (8005, [8013]); (8016, [933; 787]); (8017, [8025]);
   (8018, [933; 787; 768]); (8019, [8027]); (8020, [933; 787; 769]);
   (8021, [8029]); (8022, [933; 787; 834]); (8023, [8031]); (8032, [8040]);
   (8033, [8041]); (8034, [8042]); (8035, [8043]); (8036, [8044]);
   (8037, [8045]); (8038, [8046]); (8039, [8047]); (8048, [8122]);
   (8049, [8123]); (8050, [8136]); (8051, [8137]); (8052, [8138]);
   (8053, [8139]); (8054, [8154]); (8055, [8155]); (8056, [8184]);
   (8057, [8185]); (8058, [8170]); (8059, [8171]); (8060, [8186]);
   (8061, [8187]); (8064, [7944; 921]); (8065, [7945; 921]);
   (8066, [7946; 921]); (8067, [7947; 921]); (8068, [7948; 921]);
   (8069, [7949; 921]); (8070, [7950; 921]); (8071, [7951; 921]);
   (8072, [7944; 921]); (8073, [7945; 921]); (8074, [7946; 921]);
   (8075, [7947; 921]); (8076, [7948; 921]); (8077, [7949; 921]);
   (8078, [7950; 921]); (8079, [7951; 921]); (8080, [7976; 921]);
   (8081, [7977; 921]); (8082, [7978; 921]); (8083, [7979; 921]);
   (8084, [7980; 921]); (8085, [7981; 921]); (8086, [7982; 921]);
   (8087, [7983; 921]); (8088, [7976; 921]); (8089, [7977; 921]);
   (8090, [7978; 921]); (8091, [7979; 921]); (8092, [7980; 921]);
   (8093, [7981; 921]); (8094, [7982; 921]); (8095, [7983; 921]);
   (8096, [8040; 921]); (8097, [8041; 921]); (8098, [8042; 921]);
   (8099, [8043; 921]); (8100, [8044; 921]); (8101, [8045; 921]);
   (8102, [8046; 921]); (8103, [8047; 921]); (8104, [8040; 921]);
   (8105, [8041; 921]); (8106, [8042; 921]); (8107, [8043; 921]);
   (8108, [8044; 921]); (8109, [8045; 921]); (8110, [8046; 921]);
   (8111, [8047; 921]); (8112, [8120]); (8113, [8121]); (8114, [8122; 921]);
   (8115, [913; 921]); (8116, [902; 921]); (8118, [913; 834]);
   (8119, [913; 834; 921]); (8124, [913; 921]); (8126, [921]);
   (8130, [8138; 921]); (8131, [919; 921]); (8132, [905; 921]);
   (8134, [919; 834]); (8135, [919; 834; 921]); (8140, [919; 921]);
   (8144, [8152]); (8145, [8153]); (8146, [921; 776; 768]);
   (8147, [921; 776; 769]); (8150, [921; 834]); (8151, [921; 776; 834]);
   (8160, [8168]); (8161, [8169]); (8162, [933; 776; 768]);
   (8163, [933; 776; 769]); (8164, [929; 787]); (8165, [8172]);
   (8166, [933; 834]); (8167, [933; 776; 834]); (8178, [8186; 921]);
   (8179, [937; 921]); (8180, [911; 921]); (8182, [937; 834]);
   (8183, [937; 834; 921]); (8188, [937; 921]); (8526, [8498]);
   (8560, [8544]); (8561, [8545]); (8562, [8546]); (8563, [8547]);
   (8564, [8548]); (8565, [8549]); (8566, [8550]); (8567, [8551]);
   (8568, [8552]); (8569, [8553]); (8570, [8554]); (8571, [8555]);
   (8572, [8556]); (8573, [8557]); (8574, [8558]); (8575, [8559]);
   (8580, [8579]); (9424, [9398]); (9425, [9399]); (9426, [9400]);
   (9427, [9401]); (9428, [9402]); (9429, [9403]); (9430, [9404]);
   (9431, [9405]); (9432, [9406]); (9433, [9407]); (9434, [9408]);
   (9435, [9409]); (9436, [9410]); (9437, [9411]); (9438, [9412]);
   (9439, [9413]); (9440, [9414]); (9441, [9415]); (9442, [9416]);
   (9443, [9417]); (9444, [9418]); (9445, [9419]); (9446, [9420]);
   (9447, [9421]); (9448, [9422]); (9449, [9423]); (11312, [11264]);
   (11313, [11265]); (11314, [11266]); (11315, [11267]); (11316, [11268]);
   (11317, [11269]); (11318, [11270]); (11319, [11271]); (11320, [11272]);
   (11321, [11273]); (11322, [11274]); (11323, [11275]); (11324, [11276]);
   (11325, [11277]); (11326, [11278]); (11327, [11279]); (11328, [11280]);
   (11329, [11281]); (11330, [11282]); (11331, [11283]); (11332, [11284]);
   (11333, [11285]); (11334, [11286]); (11335, [11287]); (11336, [11288]);
   (11337, [11289]); (11338, [11290]); (11339, [11291]); (11340, [11292]);
   (11341, [11293]); (11342, [11294]); (11343, [11295]); (11344, [11296]);
   (11345, [11297]); (11346, [11298]); (11347, [11299]); (11348, [11300]);
   (11349, [11301]); (11350, [11302]); (11351, [11303]); (11352, [11304]);
   (11353, [11305]); (11354, [11306]); (11355, [11307]); (11356, [11308]);
   (11357, [11309]); (11358, [11310]); (11359, [11311]); (11361, [11360]);
   (11365, [570]); (11366, [574]); (11368, [11367]); (11370, [11369]);
   (11372, [11371]); (11379, [11378]); (11382, [11381]); (11393, [11392]);
   (11395, [11394]); (11397, [11396]); (11399, [11398]); (11401, [11400]);
   (11403, [11402]); (11405, [11404]); (11407, [11406]); (11409, [11408]);
   (11411, [11410]); (11413, [11412]); (11415, [11414]); (11417, [11416]);
   (11419, [11418]); (11421, [11420]); (11423, [11422]); (11425, [11424]);
   (11427, [11426]); (11429, [11428]); (11431, [11430]); (11433, [11432]);
   (11435, [11434]); (11437, [11436]); (11439, [11438]); (11441, [11440]);
   (11443, [11442]); (11445, [11444]); (11447, [11446]); (11449, [11448]);
   (11451, [11450]); (11453, [11452]); (11455, [11454]); (11457, [11456]);
   (11459, [11458]); (11461, [11460]); (11463, [11462]); (11465, [11464]);
   (11467, [11466]); (11469, [11468]); (11471, [11470]); (11473, [11472]);
   (11475, [11474]); (11477, [11476]); (11479, [11478]); (11481, [11480]);
   (11483, [11482]); (11485, [11484]); (11487, [11486]); (11489, [11488]);
   (11491, [11490]); (11500, [11499]); (11502, [11501]); (11507, [11506]);
   (11520, [4256]); (11521, [4257]); (11522, [4258]); (11523, [4259]);
   (11524, [4260]); (11525, [4261]); (11526, [4262]); (11527, [4263]);
   (11528, [4264]); (11529, [4265]); (11530, [4266]); (11531, [4267]);
   (11532, [4268]); (11533, [4269]); (11534, [4270]); (11535, [4271]);
   (11536, [4272]); (11537, [4273]); (11538, [4274]); (11539, [4275]);
   (11540, [4276]); (11541, [4277]); (11542, [4278]); (11543, [4279]);
   (11544, [4280]); (11545, [4281]); (11546, [4282]); (11547, [4283]);
   (11548, [4284]); (11549, [4285]); (11550, [4286]); (11551, [4287]);
   (11552, [4288]); (11553, [4289]); (11554, [4290]); (11555, [4291]);
   (11556, [4292]); (11557, [4293]); (11559, [4295]); (11565, [4301]);
   (42561, [42560]); (42563, [42562]); (42565, [42564]); (42567, [42566]);
   (42569, [42568]); (42571, [42570]); (42573, [42572]); (42575, [42574]);
   (42577, [42576]); (42579, [42578]); (42581, [42580]); (42583, [42582]);
   (42585, [42584]); (42587, [42586]); (42589, [42588]); (42591, [42590]);
   (42593, [42592]); (42595, [42594]); (42597, [42596]); (42599, [42598]);
   (42601, [42600]); (42603, [42602]); (42605, [42604]); (42625, [42624]);
   (42627, [42626]); (42629, [42628]); (42631, [42630]); (42633, [42632]);
   (42635, [42634]); (42637, [42636]); (42639, [42638]); (42641, [42640]);
   (42643, [42642]); (42645, [42644]); (42647, [42646]); (42649, [42648]);
   (42651, [42650]); (42787, [42786]); (42789, [42788]); (42791, [42790]);
   (42793, [42792]); (42795, [42794]); (42797, [42796]); (42799, [42798]);
   (42803, [42802]); (42805, [42804]); (42807, [42806]); (42809, [42808]);
   (42811, [42810]); (42813, [42812]); (42815, [42814]); (42817, [42816]);
   (42819, [42818]); (42821, [42820]); (42823, [42822]); (42825, [42824]);
   (42827, [42826]); (42829, [42828]); (42831, [42830]); (42833, [42832]);
   (42835, [42834]); (42837, [42836]); (42839, [42838]); (42841, [42840]);
   (42843, [42842]); (42845, [42844]); (42847, [42846]); (42849, [42848]);
   (42851, [42850]); (42853, [42852]); (42855, [42854]); (42857, [42856]);
   (42859, [42858]); (42861, [42860]); (42863, [42862]); (42874, [42873]);
   (42876, [42875]); (42879, [42878]); (42881, [42880]); (42883, [42882]);
   (42885, [42884]); (42887, [42886]); (42892, [42891]); (42897, [42896]);
   (42899, [42898]); (42900, [42948]); (42903, [42902]); (42905, [42904]);
   (42907, [42906]); (42909, [42908]); (42911, [42910]); (42913, [42912]);
   (42915, [42914]); (42917, [42916]); (42919, [42918]); (42921, [42920]);
   (42933, [42932]); (42935, [42934]); (42937, [42936]); (42939, [42938]);
   (42941, [42940]); (42943, [42942]); (42945, [42944]); (42947, [42946]);
   (42952, [42951]); (42954, [42953]); (42961, [42960]); (42967, [42966]);
   (42969, [42968]); (42998, [42997]); (43859, [42931]); (43888, [5024]);
   (43889, [5025]); (43890, [5026]); (43891, [5027]); (43892, [5028]);
   (43893, [5029]); (43894, [5030]); (43895, [5031]); (43896, [5032]);
   (43897, [5033]); (43898, [5034]); (43899, [5035]); (43900, [5036]);
   (43901, [5037]); (43902, [5038]); (43903, [5039]); (43904, [5040]);
   (43905, [5041]); (43906, [5042]); (43907, [5043]); (43908, [5044]);
   (43909, [5045]); (43910, [5046]); (43911, [5047]); (43912, [5048]);
   (43913, [5049]); (43914, [5050]); (43915, [5051]); (43916, [5052]);
   (43917, [5053]); (43918, [5054]); (43919, [5055]); (43920, [5056]);
   (43921, [5057]); (43922, [5058]); (43923, [5059]); (43924, [5060]);
   (43925, [5061]); (43926, [5062]); (43927, [5063]); (43928, [5064]);
   (43929, [5065]); (43930, [5066]); (43931, [5067]); (43932, [5068]);
   (43933, [5069]); (43934, [5070]); (43935, [5071]); (43936, [5072]);
   (43937, [5073]); (43938, [5074]); (43939, [5075]); (43940, [5076]);
   (43941, [5077]); (43942, [5078]); (43943, [5079]); (43944, [5080]);
   (43945, [5081]); (43946, [5082]); (43947, [5083]); (43948, [5084]);
   (43949, [5085]); (43950, [5086]); (43951, [5087]); (43952, [5088]);
   (43953, [5089]); (43954, [5090]); (43955, [5091]); (43956, [5092]);
   (43957, [5093]); (43958, [5094]); (43959, [5095]); (43960, [5096]);
   (43961, [5097]); (43962, [5098]); (43963, [5099]); (43964, [5100]);
   (43965, [5101]); (43966, [5102]); (43967, [5103]); (64256, [70; 70]);
   (64257, [70; 73]); (64258, [70; 76]); (64259, [70; 70; 73]);
   (64260, [70; 70; 76]); (64261, [83; 84]); (64262, [83; 84]);
   (64275, [1348; 1350]); (64276, [1348; 1333]); (64277, [1348; 1339]);
   (64278, [1358; 1350]); (64279, [1348; 1341]); (65345, [65313]);
   (65346, [65314]); (65347, [65315]); (65348, [65316]); (65349, [65317]);
   (65350, [65318]); (65351, [65319]); (65352, [65320]); (65353, [65321]);
   (65354, [65322]); (65355, [65323]); (65356, [65324]); (65357, [65325]);
   (65358, [65326]); (65359, [65327]); (65360, [65328]); (65361, [65329]);
   (65362, [65330]); (65363, [65331]); (65364, [65332]); (65365, [65333]);
   (65366, [65334]); (65367, [65335]); (65368, [65336]); (65369, [65337]);
   (65370, [65338]); (66600, [66560]); (66601, [66561]); (66602, [66562]);
   (66603, [66563]); (66604, [66564]); (66605, [66565]); (66606, [66566]);
   (66607, [66567]); (66608, [66568]); (66609, [66569]); (66610, [66570]);
   (66611, [66571]); (66612, [66572]); (66613, [66573]); (66614, [66574]);
   (66615, [66575]); (66616, [66576]); (66617, [66577]); (66618, [66578]);
   (66619, [66579]); (66620, [66580]); (66621, [66581]); (66622, [66582]);
   (66623, [66583]); (66624, [66584]); (66625, [66585]); (66626, [66586]);
   (66627, [66587]); (66628, [66588]); (66629, [66589]); (66630, [66590]);
   (66631, [66591]); (66632, [66592]); (66633, [66593]); (66634, [66594]);
   (66635, [66595]); (66636, [66596]); (66637, [66597]); (66638, [66598]);
   (66639, [66599]); (66776, [66736]); (66777, [66737]); (66778, [66738]);
   (66779, [66739]); (66780, [66740]); (66781, [66741]); (66782, [66742]);
   (66783, [66743]); (66784, [66744]); (66785, [66745]); (66786, [66746]);
   (66787, [66747]); (66788, [66748]); (66789, [66749]); (66790, [66750]);
   (66791, [66751]); (66792, [66752]); (66793, [66753]); (66794, [66754]);
   (66795, [66755]); (66796, [66756]); (66797, [66757]); (66798, [66758]);
   (66799, [66759]); (66800, [66760]); (66801, [66761]); (66802, [66762]);
   (66803, [66763]); (66804, [66764]); (66805, [66765]); (66806, [66766]);
   (66807, [66767]); (66808, [66768]); (66809, [66769]); (66810, [66770]);
   (66811, [66771]); (66967, [66928]); (66968, [66929]); (66969, [66930]);
   (66970, [66931]); (66971, [66932]); (66972, [66933]); (66973, [66934]);
   (66974, [66935]); (66975, [66936]); (66976, [66937]); (66977, [66938]);
   (66979, [66940]); (66980, [66941]); (66981, [66942]); (66982, [66943]);
   (66983, [66944]); (66984, [66945]); (66985, [66946]); (66986, [66947]);
   (66987, [66948]); (66988, [66949]); (66989, [66950]); (66990, [66951]);
   (66991, [66952]); (66992, [66953]); (66993, [66954]); (66995, [66956]);
   (66996, [66957]); (66997, [66958]); (66998, [66959]); (66999, [66960]);
   (67000, [66961]); (67001, [66962]); (67003, [66964]); (67004, [66965]);
   (68800, [68736]); (68801, [68737]); (68802, [68738]); (68803, [68739]);
   (68804, [68740]); (68805, [68741]); (68806, [68742]); (68807, [68743]);
   (68808, [68744]); (68809, [68745]); (68810, [68746]); (68811, [68747]);
   (68812, [68748]); (68813, [68749]); (68814, [68750]); (68815, [68751]);
   (68816, [68752]); (68817, [68753]); (68818, [68754]); (68819, [68755]);
   (68820, [68756]); (68821, [68757]); (68822, [68758]); (68823, [68759]);
   (68824, [68760]); (68825, [68761]); (68826, [68762]); (68827, [68763]);
   (68828, [68764]); (68829, [68765]); (68830, [68766]); (68831, [68767]);
   (68832, [68768]); (68833, [68769]); (68834, [68770]); (68835, [68771]);
   (68836, [68772]); (68837, [68773]); (68838, [68774]); (68839, [68775]);
   (68840, [68776]); (68841, [68777]); (68842, [68778]); (68843, [68779]);
   (68844, [68780]); (68845, [68781]); (68846, [68782]); (68847, [68783]);
   (68848, [68784]); (68849, [68785]); (68850, [68786]); (71872, [71840]);
   (71873, [71841]); (71874, [71842]); (71875, [71843]); (71876, [71844]);
   (71877, [71845]); (71878, [71846]); (71879, [71847]); (71880, [71848]);
   (71881, [71849]); (71882, [71850]); (71883, [71851]); (71884, [71852]);
   (71885, [71853]); (71886, [71854]); (71887, [71855]); (71888, [71856]);
   (71889, [71857]); (71890, [71858]); (71891, [71859]); (71892, [71860]);
   (71893, [71861]); (71894, [71862]); (71895, [71863]); (71896, [71864]);
   (71897, [71865]); (71898, [71866]); (71899, [71867]); (71900, [71868]);
   (71901, [71869]); (71902, [71870]); (71903, [71871]); (93792, [93760]);
   (93793, [93761]); (93794, [93762]); (93795, [93763]); (93796, [93764]);
   (93797, [93765]); (93798, [93766]); (93799, [93767]); (93800, [93768]);
   (93801, [93769]); (93802, [93770]); (93803, [93771]); (93804, [93772]);
   (93805, [93773]); (93806, [93774]); (93807, [93775]); (93808, [93776]);
   (93809, [93777]); (93810, [93778]); (93811, [93779]); (93812, [93780]);
   (93813, [93781]); (93814, [93782]); (93815, [93783]); (93816, [93784]);
   (93817, [93785]); (93818, [93786]); (93819, [93787]); (93820, [93788]);
   (93821, [93789]); (93822, [93790]); (93823, [93791]); (125218, [125184]);
   (125219, [125185]); (125220, [125186]); (125221, [125187]);
   (125222, [125188]); (125223, [125189]); (125224, [125190]);
   (125225, [125191]); (125226, [125192]); (125227, [125193]);
   (125228, [125194]); (125229, [125195]); (125230, [125196]);
   (125231, [125197]); (125232, [125198]); (125233, [125199]);
   (125234, [125200]); (125235, [125201]); (125236, [125202]);
   (125237, [125203]); (125238, [125204]); (125239, [125205]);
   (125240, [125206]); (125241, [125207]); (125242, [125208]);
   (125243, [125209]); (125244, [125210]); (125245, [125211]);
   (125246, [125212]); (125247, [125213]); (125248, [125214]);
   (125249, [125215]); (125250, [125216]); (125251, [125217])]%N.

(** The characters that have another lower-case form, each with that
    form (Unicode 14.0.0). *)
Definition lower_table : list (N * list N) :=
  [(65, [97]); (66, [98]); (67, [99]); (68, [100]); (69, [101]); (70, [102]);
   (71, [103]); (72, [104]); (73, [105]); (74, [106]); (75, [107]);
   (76, [108]); (77, [109]); (78, [110]); (79, [111]); (80, [112]);
   (81, [113]); (82, [114]); (83, [115]); (84, [116]); (85, [117]);
   (86, [118]); (87, [119]); (88, [120]); (89, [121]); (90, [122]);
   (192, [224]); (193, [225]); (194, [226]); (195, [227]); (196, [228]);
   (197, [229]); (198, [230]); (199, [231]); (200, [232]); (201, [233]);
   (202, [234]); (203, [235]); (204, [236]); (205, [237]); (206, [238]);
   (207, [239]); (208, [240]); (209, [241]); (210, [242]); (211, [243]);
   (212, [244]); (213, [245]); (214, [246]); (216, [248]); (217, [249]);
   (218, [250]); (219, [251]); (220, [252]); (221, [253]); (222, [254]);
   (256, [257]); (258, [259]); (260, [261]); (262, [263]); (264, [265]);
   (266, [267]); (268, [269]); (270, [271]); (272, [273]); (274, [275]);
   (276, [277]); (278, [279]); (280, [281]); (282, [283]); (284, [285]);
   (286, [287]); (288, [289]); (290, [291]); (292, [293]); (294, [295]);
   (296, [297]); (298, [299]); (300, [301]); (302, [303]); (304, [105; 775]);
   (306, [307]); (308, [309]); (310, [311]); (313, [314]); (315, [316]);
   (317, [318]); (319, [320]); (321, [322]); (323, [324]); (325, [326]);
   (327, [328]); (330, [331]); (332, [333]); (334, [335]); (336, [337]);
   (338, [339]); (340, [341]); (342, [343]); (344, [345]); (346, [347]);
   (348, [349]); (350, [351]); (352, [353]); (354, [355]); (356, [357]);
   (358, [359]); (360, [361]); (362, [363]); (364, [365]); (366, [367]);
   (368, [369]); (370, [371]); (372, [373]); (374, [375]); (376, [255]);
   (377, [378]); (379, [380]); (381, [382]); (385, [595]); (386, [387]);
   (388, [389]); (390, [596]); (391, [392]); (393, [598]); (394, [599]);
   (395, [396]); (398, [477]); (399, [601]); (400, [603]); (401, [402]);
   (403, [608]); (404, [611]); (406, [617]); (407, [616]); (408, [409]);
   (412, [623]); (413, [626]); (415, [629]); (416, [417]); (418, [419]);
   (420, [421]); (422, [640]); (423, [424]); (425, [643]); (428, [429]);
   (430, [648]); (431, [432]); (433, [650]); (434, [651]); (435, [436]);
   (437, [438]); (439, [658]); (440, [441]); (444, [445]); (452, [454]);
   (453, [454]); (455, [457]); (456, [457]); (458, [460]); (459, [460]);
   (461, [462]); (463, [464]); (465, [466]); (467, [468]); (469, [470]);
   (471, [472]); (473, [474]); (475, [476]); (478, [479]); (480, [481]);
   (482, [483]); (484, [485]); (486, [487]); (488, [489]); (490, [491]);
   (492, [493]); (494, [495]); (497, [499]); (498, [499]); (500, [501]);
   (502, [405]); (503, [447]); (504, [505]); (506, [507]); (508, [509]);
   (510, [511]); (512, [513]); (514, [515]); (516, [517]); (518, [519]);
   (520, [521]); (522, [523]); (524, [525]); (526, [527]); (528, [529]);
   (530, [531]); (532, [533]); (534, [535]); (536, [537]); (538, [539]);
   (540, [541]); (542, [543]); (544, [414]); (546, [547]); (548, [549]);
   (550, [551]); (552, [553]); (554, [555]); (556, [557]); (558, [559]);
   (560, [561]); (562, [563]); (570, [11365]); (571, [572]); (573, [410]);
   (574, [11366]); (577, [578]); (579, [384]); (580, [649]); (581, [652]);
   (582, [583]); (584, [585]); (586, [587]); (588, [589]); (590, [591]);
   (880, [881]); (882, [883]); (886, [887]); (895, [1011]); (902, [940]);
   (904, [941]); (905, [942]); (906, [943]); (908, [972]); (910, [973]);
   (911, [974]); (913, [945]); (914, [946]); (915, [947]); (916, [948]);
   (917, [949]); (918, [950]); (919, [951]); (920, [952]); (921, [953]);
   (922, [954]); (923, [955]); (924, [956]); (925, [957]); (926, [958]);
   (927, [959]); (928, [960]); (929, [961]); (931, [963]); (932, [964]);
   (933, [965]); (934, [966]); (935, [967]); (936, [968]); (937, [969]);
   (938, [970]); (939, [971]); (975, [983]); (984, [985]); (986, [987]);
   (988, [989]); (990, [991]); (992, [993]); (994, [995]); (996, [997]);
   (998, [999]); (1000, [1001]); (1002, [1003]); (1004, [1005]);
   (1006, [1007]); (1012, [952]); (1015, [1016]); (1017, [1010]);
   (1018, [1019]); (1021, [891]); (1022, [892]); (1023, [893]);
   (1024, [1104]); (1025, [1105]); (1026, [1106]); (1027, [1107]);
   (1028, [1108]); (1029, [1109]); (1030, [1110]); (1031, [1111]);
   (1032, [1112]); (1033, [1113]); (1034, [1114]); (1035, [1115]);
   (1036, [1116]); (1037, [1117]); (1038, [1118]); (1039, [1119]);
   (1040, [1072]); (1041, [1073]); (1042, [1074]); (1043, [1075]);
   (1044, [1076]); (1045, [1077]); (1046, [1078]); (1047, [1079]);
   (1048, [1080]); (1049, [1081]); (1050, [1082]); (1051, [1083]);
   (1052, [1084]); (1053, [1085]); (1054, [1086]); (1055, [1087]);
   (1056, [1088]); (1057, [1089]); (1058, [1090]); (1059, [1091]);
   (1060, [1092]); (1061, [1093]); (1062, [1094]); (1063, [1095]);
   (1064, [1096]); (1065, [1097]); (1066, [1098]); (1067, [1099]);
   (1068, [1100]); (1069, [1101]); (1070, [1102]); (1071, [1103]);
   (1120, [1121]); (1122, [1123]); (1124, [1125]); (1126, [1127]);
   (1128, [1129]); (1130, [1131]); (1132, [1133]); (1134, [1135]);
   (1136, [1137]); (1138, [1139]); (1140, [1141]); (1142, [1143]);
   (1144, [1145]); (1146, [1147]); (1148, [1149]); (1150, [1151]);
   (1152, [1153]); (1162, [1163]); (1164, [1165]); (1166, [1167]);
   (1168, [1169]); (1170, [1171]); (1172, [1173]); (1174, [1175]);
   (1176, [1177]); (1178, [1179]); (1180, [1181]); (1182, [1183]);
   (1184, [1185]); (1186, [1187]); (1188, [1189]); (1190, [1191]);
   (1192, [1193]); (1194, [1195]); (1196, [1197]); (1198, [1199]);
   (1200, [1201]); (1202, [1203]); (1204, [1205]); (1206, [1207]);
   (1208, [1209]); (1210, [1211]); (1212, [1213]); (1214, [1215]);
   (1216, [1231]); (1217, [1218]); (1219, [1220]); (1221, [1222]);
   (1223, [1224]); (1225, [1226]); (1227, [1228]); (1229, [1230]);
   (1232, [1233]); (1234, [1235]); (1236, [1237]); (1238, [1239]);
   (1240, [1241]); (1242, [1243]); (1244, [1245]); (1246, [1247]);
   (1248, [1249]); (1250, [1251]); (1252, [1253]); (1254, [1255]);
   (1256, [1257]); (1258, [1259]); (1260, [1261]); (1262, [1263]);
   (1264, [1265]); (1266, [1267]); (1268, [1269]); (1270, [1271]);
   (1272, [1273]); (1274, [1275]); (1276, [1277]); (1278, [1279]);
   (1280, [1281]); (1282, [1283]); (1284, [1285]); (1286, [1287]);
   (1288, [1289]); (1290, [1291]); (1292, [1293]); (1294, [1295]);
   (1296, [1297]); (1298, [1299]); (1300, [1301]); (1302, [1303]);
   (1304, [1305]); (1306, [1307]); (1308, [1309]); (1310, [1311]);
   (1312, [1313]); (1314, [1315]); (1316, [1317]); (1318, [1319]);
   (1320, [1321]); (1322, [1323]); (1324, [1325]); (1326, [1327]);
   (1329, [1377]); (1330, [1378]); (1331, [1379]); (1332, [1380]);
   (1333, [1381]); (1334, [1382]); (1335, [1383]); (1336, [1384]);
   (1337, [1385]); (1338, [1386]); (1339, [1387]); (1340, [1388]);
   (1341, [1389]); (1342, [1390]); (1343, [1391]); (1344, [1392]);
   (1345, [1393]); (1346, [1394]); (1347, [1395]); (1348, [1396]);
   (1349, [1397]); (1350, [1398]); (1351, [1399]); (1352, [1400]);
   (1353, [1401]); (1354, [1402]); (1355, [1403]); (1356, [1404]);
   (1357, [1405]); (1358, [1406]); (1359, [1407]); (1360, [1408]);
   (1361, [1409]); (1362, [1410]); (1363, [1411]); (1364, [1412]);
   (1365, [1413]); (1366, [1414]); (4256, [11520]); (4257, [11521]);
   (4258, [11522]); (4259, [11523]); (4260, [11524]); (4261, [11525]);
   (4262, [11526]); (4263, [11527]); (4264, [11528]); (4265, [11529]);
   (4266, [11530]); (4267, [11531]); (4268, [11532]); (4269, [11533]);
   (4270, [11534]); (4271, [11535]); (4272, [11536]); (4273, [11537]);
   (4274, [11538]); (4275, [11539]); (4276, [11540]); (4277, [11541]);
   (4278, [11542]); (4279, [11543]); (4280, [11544]); (4281, [11545]);
   (4282, [11546]); (4283, [11547]); (4284, [11548]); (4285, [11549]);
   (4286, [11550]); (4287, [11551]); (4288, [11552]); (4289, [11553]);
   (4290, [11554]); (4291, [11555]); (4292, [11556]); (4293, [11557]);
   (4295, [11559]); (4301, [11565]); (5024, [43888]); (5025, [43889]);
   (5026, [43890]); (5027, [43891]); (5028, [43892]); (5029, [43893]);
   (5030, [43894]); (5031, [43895]); (5032, [43896]); (5033, [43897]);
   (5034, [43898]); (5035, [43899]); (5036, [43900]); (5037, [43901]);
   (5038, [43902]); (5039, [43903]); (5040, [43904]); (5041, [43905]);
   (5042, [43906]); (5043, [43907]); (5044, [43908]); (5045, [43909]);
   (5046, [43910]); (5047, [43911]); (5048, [43912]); (5049, [43913]);
   (5050, [43914]); (5051, [43915]); (5052, [43916]); (5053, [43917]);
   (5054, [43918]); (5055, [43919]); (5056, [43920]); (5057, [43921]);
   (5058, [43922]); (5059, [43923]); (5060, [43924]); (5061, [43925]);
   (5062, [43926]); (5063, [43927]); (5064, [43928]); (5065, [43929]);
   (5066, [43930]); (5067, [43931]); (5068, [43932]); (5069, [43933]);
   (5070, [43934]); (5071, [43935]); (5072, [43936]); (5073, [43937]);
   (5074, [43938]); (5075, [43939]); (5076, [43940]); (5077, [43941]);
   (5078, [43942]); (5079, [43943]); (5080, [43944]); (5081, [43945]);
   (5082, [43946]); (5083, [43947]); (5084, [43948]); (5085, [43949]);
   (5086, [43950]); (5087, [43951]); (5088, [43952]); (5089, [43953]);
   (5090, [43954]); (5091, [43955]); (5092, [43956]); (5093, [43957]);
   (5094, [43958]); (5095, [43959]); (5096, [43960]); (5097, [43961]);
   (5098, [43962]); (5099, [43963]); (5100, [43964]); (5101, [43965]);
   (5102, [43966]); (5103, [43967]); (5104, [5112]); (5105, [5113]);
   (5106, [5114]); (5107, [5115]); (5108, [5116]); (5109, [5117]);
   (7312, [4304]); (7313, [4305]); (7314, [4306]); (7315, [4307]);
   (7316, [4308]); (7317, [4309]); (7318, [4310]); (7319, [4311]);
   (7320, [4312]); (7321, [4313]); (7322, [4314]); (7323, [4315]);
   (7324, [4316]); (7325, [4317]); (7326, [4318]); (7327, [4319]);
   (7328, [4320]); (7329, [4321]); (7330, [4322]); (7331, [4323]);
   (7332, [4324]); (7333, [4325]); (7334, [4326]); (7335, [4327]);
   (7336, [4328]); (7337, [4329]); (7338, [4330]); (7339, [4331]);
   (7340, [4332]); (7341, [4333]); (7342, [4334]); (7343, [4335]);
   (7344, [4336]); (7345, [4337]); (7346, [4338]); (7347, [4339]);
   (7348, [4340]); (7349, [4341]); (7350, [4342]); (7351, [4343]);
   (7352, [4344]); (7353, [4345]); (7354, [4346]); (7357, [4349]);
   (7358, [4350]); (7359, [4351]); (7680, [7681]); (7682, [7683]);
   (7684, [7685]); (7686, [7687]); (7688, [7689]); (7690, [7691]);
   (7692, [7693]); (7694, [7695]); (7696, [7697]); (7698, [7699]);
   (7700, [7701]); (7702, [7703]); (7704, [7705]); (7706, [7707]);
   (7708, [7709]); (7710, [7711]); (7712, [7713]); (7714, [7715]);
   (7716, [7717]); (7718, [7719]); (7720, [7721]); (7722, [7723]);
   (7724, [7725]); (7726, [7727]); (7728, [7729]); (7730, [7731]);
   (7732, [7733]); (7734, [7735]); (7736, [7737]); (7738, [7739]);
   (7740, [7741]); (7742, [7743]); (7744, [7745]); (7746, [7747]);
   (7748, [7749]); (7750, [7751]); (7752, [7753]); (7754, [7755]);
   (7756, [7757]); (7758, [7759]); (7760, [7761]); (7762, [7763]);
   (7764, [7765]); (7766, [7767]); (7768, [7769]); (7770, [7771]);
   (7772, [7773]); (7774, [7775]); (7776, [7777]); (7778, [7779]);
   (7780, [7781]); (7782, [7783]); (7784, [7785]); (7786, [7787]);
   (7788, [7789]); (7790, [7791]); (7792, [7793]); (7794, [7795]);
   (7796, [7797]); (7798, [7799]); (7800, [7801]); (7802, [7803]);
   (7804, [7805]); (7806, [7807]); (7808, [7809]); (7810, [7811]);
   (7812, [7813]); (7814, [7815]); (7816, [7817]); (7818, [7819]);
   (7820, [7821]); (7822, [7823]); (7824, [7825]); (7826, [7827]);
   (7828, [7829]); (7838, [223]); (7840, [7841]); (7842, [7843]);
   (7844, [7845]); (7846, [7847]); (7848, [7849]); (7850, [7851]);
   (7852, [7853]); (7854, [7855]); (7856, [7857]); (7858, [7859]);
   (7860, [7861]); (7862, [7863]); (7864, [7865]); (7866, [7867]);
   (7868, [7869]); (7870, [7871]); (7872, [7873]); (7874, [7875]);
   (7876, [7877]); (7878, [7879]); (7880, [7881]); (7882, [7883]);
   (7884, [7885]); (7886, [7887]); (7888, [7889]); (7890, [7891]);
   (7892, [7893]); (7894, [7895]); (7896, [7897]); (7898, [7899]);
   (7900, [7901]); (7902, [7903]); (7904, [7905]); (7906, [7907]);
   (7908, [7909]); (7910, [7911]); (7912, [7913]); (7914, [7915]);
   (7916, [7917]); (7918, [7919]); (7920, [7921]); (7922, [7923]);
   (7924, [7925]); (7926, [7927]); (7928, [7929]); (7930, [7931]);
   (7932, [7933]); (7934, [7935]); (7944, [7936]); (7945, [7937]);
   (7946, [7938]); (7947, [7939]); (7948, [7940]); (7949, [7941]);
   (7950, [7942]); (7951, [7943]); (7960, [7952]); (7961, [7953]);
   (7962, [7954]); (7963, [7955]); (7964, [7956]); (7965, [7957]);
   (7976, [7968]); (7977, [7969]); (7978, [7970]); (7979, [7971]);
   (7980, [7972]); (7981, [7973]); (7982, [7974]); (7983, [7975]);
   (7992, [7984]); (7993, [7985]); (7994, [7986]); (7995, [7987]);
   (7996, [7988]); (7997, [7989]); (7998, [7990]); (7999, [7991]);
   (8008, [8000]); (8009, [8001]); (8010, [8002]); (8011, [8003]);
   (8012, [8004]); (8013, [8005]); (8025, [8017]); (8027, [8019]);
   (8029, [8021]); (8031, [8023]); (8040, [8032]); (8041, [8033]);
   (8042, [8034]); (8043, [8035]); (8044, [8036]); (8045, [8037]);
   (8046, [8038]); (8047, [8039]); (8072, [8064]); (8073, [8065]);
   (8074, [8066]); (8075, [8067]); (8076, [8068]); (8077, [8069]);
   (8078, [8070]); (8079, [8071]); (8088, [8080]); (8089, [8081]);
   (8090, [8082]); (8091, [8083]); (8092, [8084]); (8093, [8085]);
   (8094, [8086]); (8095, [8087]); (8104, [8096]); (8105, [8097]);
   (8106, [8098]); (8107, [8099]); (8108, [8100]); (8109, [8101]);
   (8110, [8102]); (8111, [8103]); (8120, [8112]); (8121, [8113]);
   (8122, [8048]); (8123, [8049]); (8124, [8115]); (8136, [8050]);
   (8137, [8051]); (8138, [8052]); (8139, [8053]); (8140, [8131]);
   (8152, [8144]); (8153, [8145]); (8154, [8054]); (8155, [8055]);
   (8168, [8160]); (8169, [8161]); (8170, [8058]); (8171, [8059]);
   (8172, [8165]); (8184, [8056]); (8185, [8057]); (8186, [8060]);
   (8187, [8061]); (8188, [8179]); (8486, [969]); (8490, [107]);
   (8491, [229]); (8498, [8526]); (8544, [8560]); (8545, [8561]);
   (8546, [8562]); (8547, [8563]); (8548, [8564]); (8549, [8565]);
   (8550, [8566]); (8551, [8567]); (8552, [8568]); (8553, [8569]);
   (8554, [8570]); (8555, [8571]); (8556, [8572]); (8557, [8573]);
   (8558, [8574]); (8559, [8575]); (8579, [8580]); (9398, [9424]);
   (9399, [9425]); (9400, [9426]); (9401, [9427]); (9402, [9428]);
   (9403, [9429]); (9404, [9430]); (9405, [9431]); (9406, [9432]);
   (9407, [9433]); (9408, [9434]); (9409, [9435]); (9410, [9436]);
   (9411, [9437]); (9412, [9438]); (9413, [9439]); (9414, [9440]);
   (9415, [9441]); (9416, [9442]); (9417, [9443]); (9418, [9444]);
   (9419, [9445]); (9420, [9446]); (9421, [9447]); (9422, [9448]);
   (9423, [9449]); (11264, [11312]); (11265, [11313]); (11266, [11314]);
   (11267, [11315]); (11268, [11316]); (11269, [11317]); (11270, [11318]);
   (11271, [11319]); (11272, [11320]); (11273, [11321]); (11274, [11322]);
   (11275, [11323]); (11276, [11324]); (11277, [11325]); (11278, [11326]);
   (11279, [11327]); (11280, [11328]); (11281, [11329]); (11282, [11330]);
   (11283, [11331]); (11284, [11332]); (11285, [11333]); (11286, [11334]);
   (11287, [11335]); (11288, [11336]); (11289, [11337]); (11290, [11338]);
   (11291, [11339]); (11292, [11340]); (11293, [11341]); (11294, [11342]);
   (11295, [11343]); (11296, [11344]); (11297, [11345]); (11298, [11346]);
   (11299, [11347]); (11300, [11348]); (11301, [11349]); (11302, [11350]);
   (11303, [11351]); (11304, [11352]); (11305, [11353]); (11306, [11354]);
   (11307, [11355]); (11308, [11356]); (11309, [11357]); (11310, [11358]);
   (11311, [11359]); (11360, [11361]); (11362, [619]); (11363, [7549]);
   (11364, [637]); (11367, [11368]); (11369, [11370]); (11371, [11372]);
   (11373, [593]); (11374, [625]); (11375, [592]); (11376, [594]);
   (11378, [11379]); (11381, [11382]); (11390, [575]); (11391, [576]);
   (11392, [11393]); (11394, [11395]); (11396, [11397]); (11398, [11399]);
   (11400, [11401]); (11402, [11403]); (11404, [11405]); (11406, [11407]);
   (11408, [11409]); (11410, [11411]); (11412, [11413]); (11414, [11415]);
   (11416, [11417]); (11418, [11419]); (11420, [11421]); (11422, [11423]);
   (11424, [11425]); (11426, [11427]); (11428, [11429]); (11430, [11431]);
   (11432, [11433]); (11434, [11435]); (11436, [11437]); (11438, [11439]);
   (11440, [11441]); (11442, [11443]); (11444, [11445]); (11446, [11447]);
   (11448, [11449]); (11450, [11451]); (11452, [11453]); (11454, [11455]);
   (11456, [11457]); (11458, [11459]); (11460, [11461]); (11462, [11463]);
   (11464, [11465]); (11466, [11467]); (11468, [11469]); (11470, [11471]);
   (11472, [11473]); (11474, [11475]); (11476, [11477]); (11478, [11479]);
   (11480, [11481]); (11482, [11483]); (11484, [11485]); (11486, [11487]);
   (11488, [11489]); (11490, [11491]); (11499, [11500]); (11501, [11502]);
   (11506, [11507]); (42560, [42561]); (42562, [42563]); (42564, [42565]);
   (42566, [42567]); (42568, [42569]); (42570, [42571]); (42572, [42573]);
   (42574, [42575]); (42576, [42577]); (42578, [42579]); (42580, [42581]);
   (42582, [42583]); (42584, [42585]); (42586, [42587]); (42588, [42589]);
   (42590, [42591]); (42592, [42593]); (42594, [42595]); (42596, [42597]);
   (42598, [42599]); (42600, [42601]); (42602, [42603]); (42604, [42605]);
   (42624, [42625]); (42626, [42627]); (42628, [42629]); (42630, [42631]);
   (42632, [42633]); (42634, [42635]); (42636, [42637]); (42638, [42639]);
   (42640, [42641]); (42642, [42643]); (42644, [42645]); (42646, [42647]);
   (42648, [42649]); (42650, [42651]); (42786, [42787]); (42788, [42789]);
   (42790, [42791]); (42792, [42793]); (42794, [42795]); (42796, [42797]);
   (42798, [42799]); (42802, [42803]); (42804, [42805]); (42806, [42807]);
   (42808, [42809]); (42810, [42811]); (42812, [42813]); (42814, [42815]);
   (42816, [42817]); (42818, [42819]); (42820, [42821]); (42822, [42823]);
   (42824, [42825]); (42826, [42827]); (42828, [42829]); (42830, [42831]);
   (42832, [42833]); (42834, [42835]); (42836, [42837]); (42838, [42839]);
   (42840, [42841]); (42842, [42843]); (42844, [42845]); (42846, [42847]);
   (42848, [42849]); (42850, [42851]); (42852, [42853]); (42854, [42855]);
   (42856, [42857]); (42858, [42859]); (42860, [42861]); (42862, [42863]);
   (42873, [42874]); (42875, [42876]); (42877, [7545]); (42878, [42879]);
   (42880, [42881]); (42882, [42883]); (42884, [42885]); (42886, [42887]);
   (42891, [42892]); (42893, [613]); (42896, [42897]); (42898, [42899]);
   (42902, [42903]); (42904, [42905]); (42906, [42907]); (42908, [42909]);
   (42910, [42911]); (42912, [42913]); (42914, [42915]); (42916, [42917]);
   (42918, [42919]); (42920, [42921]); (42922, [614]); (42923, [604]);
   (42924, [609]); (42925, [620]); (42926, [618]); (42928, [670]);
   (42929, [647]); (42930, [669]); (42931, [43859]); (42932, [42933]);
   (42934, [42935]); (42936, [42937]); (42938, [42939]); (42940, [42941]);
   (42942, [42943]); (42944, [42945]); (42946, [42947]); (42948, [42900]);
   (42949, [642]); (42950, [7566]); (42951, [42952]); (42953, [42954]);
   (42960, [42961]); (42966, [42967]); (42968, [42969]); (42997, [42998]);
   (65313, [65345]); (65314, [65346]); (65315, [65347]); (65316, [65348]);
   (65317, [65349]); (65318, [65350]); (65319, [65351]); (65320, [65352]);
   (65321, [65353]); (65322, [65354]); (65323, [65355]); (65324, [65356]);
   (65325, [65357]); (65326, [65358]); (65327, [65359]); (65328, [65360]);
   (65329, [65361]); (65330, [65362]); (65331, [65363]); (65332, [65364]);
   (65333, [65365]); (65334, [65366]); (65335, [65367]); (65336, [65368]);
   (65337, [65369]); (65338, [65370]); (66560, [66600]); (66561, [66601]);
   (66562, [66602]); (66563, [66603]); (66564, [66604]); (66565, [66605]);
   (66566, [66606]); (66567, [66607]); (66568, [66608]); (66569, [66609]);
   (66570, [66610]); (66571, [66611]); (66572, [66612]); (66573, [66613]);
   (66574, [66614]); (66575, [66615]); (66576, [66616]); (66577, [66617]);
   (66578, [66618]); (66579, [66619]); (66580, [66620]); (66581, [66621]);
   (66582, [66622]); (66583, [66623]); (66584, [66624]); (66585, [66625]);
   (66586, [66626]); (66587, [66627]); (66588, [66628]); (66589, [66629]);
   (66590, [66630]); (66591, [66631]); (66592, [66632]); (66593, [66633]);
   (66594, [66634]); (66595, [66635]); (66596, [66636]); (66597, [66637]);
   (66598, [66638]); (66599, [66639]); (66736, [66776]); (66737, [66777]);
   (66738, [66778]); (66739, [66779]); (66740, [66780]); (66741, [66781]);
   (66742, [66782]); (66743, [66783]); (66744, [66784]); (66745, [66785]);
   (66746, [66786]); (66747, [66787]); (66748, [66788]); (66749, [66789]);
   (66750, [66790]); (66751, [66791]); (66752, [66792]); (66753, [66793]);
   (66754, [66794]); (66755, [66795]); (66756, [66796]); (66757, [66797]);
   (66758, [66798]); (66759, [66799]); (66760, [66800]); (66761, [66801]);
   (66762, [66802]); (66763, [66803]); (66764, [66804]); (66765, [66805]);
   (66766, [66806]); (66767, [66807]); (66768, [66808]); (66769, [66809]);
   (66770, [66810]); (66771, [66811]); (66928, [66967]); (66929, [66968]);
   (66930, [66969]); (66931, [66970]); (66932, [66971]); (66933, [66972]);
   (66934, [66973]); (66935, [66974]); (66936, [66975]); (66937, [66976]);
   (66938, [66977]); (66940, [66979]); (66941, [66980]); (66942, [66981]);
   (66943, [66982]); (66944, [66983]); (66945, [66984]); (66946, [66985]);
   (66947, [66986]); (66948, [66987]); (66949, [66988]); (66950, [66989]);
   (66951, [66990]); (66952, [66991]); (66953, [66992]); (66954, [66993]);
   (66956, [66995]); (66957, [66996]); (66958, [66997]); (66959, [66998]);
   (66960, [66999]); (66961, [67000]); (66962, [67001]); (66964, [67003]);
   (66965, [67004]); (68736, [68800]); (68737, [68801]); (68738, [68802]);
   (68739, [68803]); (68740, [68804]); (68741, [68805]); (68742, [68806]);
   (68743, [68807]); (68744, [68808]); (68745, [68809]); (68746, [68810]);
   (68747, [68811]); (68748, [68812]); (68749, [68813]); (68750, [68814]);
   (68751, [68815]); (68752, [68816]); (68753, [68817]); (68754, [68818]);
   (68755, [68819]); (68756, [68820]); (68757, [68821]); (68758, [68822]);
   (68759, [68823]); (68760, [68824]); (68761, [68825]); (68762, [68826]);
   (68763, [68827]); (68764, [68828]); (68765, [68829]); (68766, [68830]);
   (68767, [68831]); (68768, [68832]); (68769, [68833]); (68770, [68834]);
   (68771, [68835]); (68772, [68836]); (68773, [68837]); (68774, [68838]);
   (68775, [68839]); (68776, [68840]); (68777, [68841]); (68778, [68842]);
   (68779, [68843]); (68780, [68844]); (68781, [68845]); (68782, [68846]);
   (68783, [68847]); (68784, [68848]); (68785, [68849]); (68786, [68850]);
   (71840, [71872]); (71841, [71873]); (71842, [71874]); (71843, [71875]);
   (71844, [71876]); (71845, [71877]); (71846, [71878]); (71847, [71879]);
   (71848, [71880]); (71849, [71881]); (71850, [71882]); (71851, [71883]);
   (71852, [71884]); (71853, [71885]); (71854, [71886]); (71855, [71887]);
   (71856, [71888]); (71857, [71889]); (71858, [71890]); (71859, [71891]);
   (71860, [71892]); (71861, [71893]); (71862, [71894]); (71863, [71895]);
   (71864, [71896]); (71865, [71897]); (71866, [71898]); (71867, [71899]);
   (71868, [71900]); (71869, [71901]); (71870, [71902]); (71871, [71903]);
   (93760, [93792]); (93761, [93793]); (93762, [93794]); (93763, [93795]);
   (93764, [93796]); (93765, [93797]); (93766, [93798]); (93767, [93799]);
   (93768, [93800]); (93769, [93801]); (93770, [93802]); (93771, [93803]);
   (93772, [93804]); (93773, [93805]); (93774, [93806]); (93775, [93807]);
   (93776, [93808]); (93777, [93809]); (93778, [93810]); (93779, [93811]);
   (93780, [93812]); (93781, [93813]); (93782, [93814]); (93783, [93815]);
   (93784, [93816]); (93785, [93817]); (93786, [93818]); (93787, [93819]);
   (93788, [93820]); (93789, [93821]); (93790, [93822]); (93791, [93823]);
   (125184, [125218]); (125185, [125219]); (125186, [125220]);
   (125187, [125221]); (125188, [125222]); (125189, [125223]);
   (125190, [125224]); (125191, [125225]); (125192, [125226]);
   (125193, [125227]); (125194, [125228]); (125195, [125229]);
   (125196, [125230]); (125197, [125231]); (125198, [125232]);
   (125199, [125233]); (125200, [125234]); (125201, [125235]);
   (125202, [125236]); (125203, [125237]); (125204, [125238]);
   (125205, [125239]); (125206, [125240]); (125207, [125241]);
   (125208, [125242]); (125209, [125243]); (125210, [125244]);
   (125211, [125245]); (125212, [125246]); (125213, [125247]);
   (125214, [125248]); (125215, [125249]); (125216, [125250]);
   (125217, [125251])]%N.

(** The characters [str.isspace] accepts. *)
Definition space_table : list N :=
  [9; 10; 11; 12; 13; 28; 29; 30; 31; 32; 133; 160; 5760; 8192; 8193; 8194; 8195; 8196; 8197; 8198; 8199; 8200; 8201; 8202; 8232; 8233; 8239; 8287; 12288]%N.

Definition lookup (table : list (N * list N)) (c : N) : list N :=
  match List.find (fun e => (fst e =? c)%N) table with
  | Some e => snd e
  | None => [c]
  end.

(** [str.upper] on one character; the result can be several characters. *)
Definition to_upper (c : N) : list N := lookup upper_table c.

(** The lower-case form of one character. *)
Definition to_lower (c : N) : list N := lookup lower_table c.

(** [str.upper()]. *)
Definition upper (s : string) : string := on_chars (flat_map to_upper) s.

(** [str.isspace] on one character. *)
Definition isspace (c : N) : bool := existsb (N.eqb c) space_table.

Fixpoint lstrip (l : list N) : list N :=
  match l with
  | c :: l' => if isspace c then lstrip l' else l
  | [] => []
  end.

Definition rstrip (l : list N) : list N := rev (lstrip (rev l)).

(** [str.strip()] with no argument. *)
Definition strip (s : string) : string := on_chars (fun l => rstrip (lstrip l)) s.

(** [sep.join(parts)]. *)
Definition join (sep : string) (parts : list string) : string :=
  String.concat sep parts.

(** [l] begins with [p]: what follows. *)
Fixpoint after_prefix (p l : list N) : option (list N) :=
  match p, l with
  | [], _ => Some l
  | a :: p', b :: l' => if (a =? b)%N then after_prefix p' l' else None
  | _ :: _, [] => None
  end.

(** The characters [t] are those of [s], where each may have been put in
    lower or in upper case. *)
Fixpoint chars_variant (s t : list N) : bool :=
  match s with
  | [] => match t with [] => true | _ :: _ => false end
  | a :: s' =>
      existsb (fun form => match after_prefix form t with
                           | Some t' => chars_variant s' t'
                           | None => false
                           end)
              [[a]; to_lower a; to_upper a]
  end.

(** [c'] is a case variant of [c]: the same text up to letter case. *)
Definition case_variant (c c' : string) : Prop :=
  match decode c, decode c' with
  | Some l, Some l' => chars_variant l l' = true
  | _, _ => False
  end.

(** A text of ASCII characters only. *)
Definition is_ascii (s : string) : Prop :=
  match decode s with
  | Some l => Forall (fun c => (c < 128)%N) l
  | None => False
  end.

(** A character that UTF-8 encodes in at most four bytes. *)
Definition valid (c : N) : Prop := (c < 2097152)%N.

(** What [decode_from] has read so far leaves room for the bytes to come. *)
Definition room (need : nat) (acc : N) : Prop :=
  match need with
  | 0%nat => True
  | 1%nat => (acc < 32768)%N
  | 2%nat => (acc < 512)%N
  | 3%nat => (acc < 8)%N
  | _ => False
  end.

(** Every entry of [upper_table] is in upper case already and can be
    encoded. *)
Definition upper_table_closed : bool :=
  forallb (fun e => bool_decide (flat_map to_upper (snd e) = snd e)
                    && forallb (fun c => (c <? 2097152)%N) (snd e))
          upper_table.

(** On ASCII, the lower-case form of a character has the upper-case form
    of the character. *)
Definition ascii_forms_agree : bool :=
  forallb (fun c => bool_decide (flat_map to_upper (to_lower c) = to_upper c))
          (map N.of_nat (seq 0 128)).

End Str.

Arguments Str.upper : simpl never.
Arguments Str.strip : simpl never.


(** ** The [videos] table

    [CREATE TABLE videos (code TEXT PRIMARY KEY, title TEXT, file_id TEXT)]:
    a table is the list of its rows, in insertion order. *)

Record Row := mkRow { col_code : string; col_title : string; col_file_id : string }.

Definition has_code (k : string) (r : Row) : bool := String.eqb (col_code r) k.

(** [REPLACE INTO videos (code, title, file_id) VALUES (k, t, f)]: the rows
    that conflict on the primary key are deleted, then the row is
    inserted. *)
Definition sql_replace (k t f : string) (tbl : list Row) : list Row :=
  List.filter (fun r => negb (has_code k r)) tbl ++ [mkRow k t f].

(** [DELETE FROM videos WHERE code=k], with the cursor's [rowcount]. *)
Definition sql_delete (k : string) (tbl : list Row) : list Row * nat :=
  (List.filter (fun r => negb (has_code k r)) tbl,
   List.length (List.filter (has_code k) tbl)).

(** [SELECT file_id, title FROM videos WHERE code=k], then [fetchone()]. *)
Definition sql_select (k : string) (tbl : list Row) : option (string * string) :=
  match List.find (has_code k) tbl with
  | Some r => Some (col_file_id r, col_title r)
  | None => None
  end.

(** The primary key constraint. *)
Definition primary_key (tbl : list Row) : Prop := NoDup (map col_code tbl).

(** ** Telegram objects *)

(** [telegram.constants.ChatMemberStatus], as python-telegram-bot 21
    declares it: the version the file asks for. *)
Inductive ChatMemberStatus :=
| ADMINISTRATOR | OWNER | BANNED | LEFT | MEMBER | RESTRICTED.

Definition ChatMemberStatus_eqb (a b : ChatMemberStatus) : bool :=
  match a, b with
  | ADMINISTRATOR, ADMINISTRATOR | OWNER, OWNER | BANNED, BANNED
  | LEFT, LEFT | MEMBER, MEMBER | RESTRICTED, RESTRICTED => true
  | _, _ => false
  end.

(** The members of the enumeration by name: what [ChatMemberStatus.<name>]
    finds.  The owner of a chat is [OWNER]; there is no [CREATOR]. *)
Definition ChatMemberStatus_member (name : string) : option ChatMemberStatus :=
  if String.eqb name "ADMINISTRATOR" then Some ADMINISTRATOR
  else if String.eqb name "OWNER" then Some OWNER
  else if String.eqb name "BANNED" then Some BANNED
  else if String.eqb name "LEFT" then Some LEFT
  else if String.eqb name "MEMBER" then Some MEMBER
  else if String.eqb name "RESTRICTED" then Some RESTRICTED
  else None.

Record ChatMember := { status : ChatMemberStatus }.

(** The exception classes of [telegram.error] a request can raise.
    [bot.py] names one of them, [BadRequest]. *)
Inductive TelegramError :=
| BadRequest | Forbidden | TimedOut | NetworkError | RetryAfter.

Inductive ParseMode := HTML.

Record InlineKeyboardButton := { btn_text : string; url : string }.

Record User := { id : Z }.
Record Video := { file_id : string }.
Record RepliedMessage := { video : option Video }.
Record Message := {
  chat_id : Z;
  text : string;
  reply_to_message : option RepliedMessage
}.
Record Update := { effective_user : option User; message : option Message }.

(** What the platform answers to [get_chat_member(chat_id, user_id)] at
    the time a handler runs. *)
Record Bot := { chat_member : Z -> Z -> ChatMember + TelegramError }.

(** ** The world and the monad *)

Inductive Sql :=
| CreateTableIfNotExists
| ReplaceInto (code title file_id : string)
| DeleteFrom (code : string)
| SelectFrom (code : string).

Inductive Effect :=
| Execute (stmt : Sql)
| GetChatMember (chat user : Z)
| ReplyText (chat : Z) (text : string)
    (reply_markup : option (list (list InlineKeyboardButton)))
| ReplyVideo (chat : Z) (video caption : string) (parse_mode : ParseMode).

Record World := mkWorld {
  videos_db : option (list Row);          (* videos.db; [None]: no table yet *)
  user_data : gmap Z (gmap string bool);  (* application.user_data *)
  trace : list Effect                     (* oldest first *)
}.

Inductive Exception :=
| NameError (name : string)
| AttributeError (attr : string)
| OperationalError (msg : string)
| Telegram (e : TelegramError).

Inductive Outcome (A : Type) :=
| Return (a : A)
| Raise (e : Exception).
Arguments Return {A} a.
Arguments Raise {A} e.

Definition Py (A : Type) : Type := World -> Outcome A * World.

Global Instance Py_ret : MRet Py := fun A a w => (Return a, w).

Global Instance Py_bind : MBind Py := fun A B k m w =>
  match m w with
  | (Return a, w') => k a w'
  | (Raise e, w') => (Raise e, w')
  end.

Definition raise {A} (e : Exception) : Py A := fun w => (Raise e, w).

(** [try: body / except <class>: handler]. *)
Definition try_except {A} (body : Py A) (catches : Exception -> bool)
    (handler : Py A) : Py A :=
  fun w =>
    match body w with
    | (Raise e, w') => if catches e then handler w' else (Raise e, w')
    | r => r
    end.

Definition emit (e : Effect) : Py unit :=
  fun w => (Return tt, mkWorld (videos_db w) (user_data w) (trace w ++ [e])).

Definition table (w : World) : list Row := default [] (videos_db w).

Definition set_table (tbl : list Row) : Py unit :=
  fun w => (Return tt, mkWorld (Some tbl) (user_data w) (trace w)).

(** A statement on a database file that has no [videos] table fails. *)
Definition the_table : Py (list Row) :=
  fun w =>
    match videos_db w with
    | Some tbl => (Return tbl, w)
    | None => (Raise (OperationalError "no such table: videos"), w)
    end.

(** ** Database layer *)

(** [get_db]: the statements run before the connection is yielded. *)
Definition create_table_if_not_exists : Py unit :=
  fun w => (Return tt, mkWorld (Some (table w)) (user_data w) (trace w)).

Definition get_db : Py unit :=
  emit (Execute CreateTableIfNotExists) ;;
  create_table_if_not_exists.

Definition add_video (code title file_id : string) : Py unit :=
  get_db ;;
  emit (Execute (ReplaceInto (Str.upper code) title file_id)) ;;
  tbl ← the_table;
  set_table (sql_replace (Str.upper code) title file_id tbl).

Definition delete_video (code : string) : Py bool :=
  get_db ;;
  emit (Execute (DeleteFrom (Str.upper code))) ;;
  tbl ← the_table;
  let cur := sql_delete (Str.upper code) tbl in
  set_table (fst cur) ;;
  mret (0 <? snd cur)%nat.

Definition fetch_video (code : string) : Py (option (string * string)) :=
  get_db ;;
  emit (Execute (SelectFrom (Str.upper code))) ;;
  tbl ← the_table;
  mret (sql_select (Str.upper code) tbl).

(** ** Configuration

    [MANDATORY_CHANNELS] and [ADMIN_IDS] are module constants the operator
    fills in; [source_config] holds the values the file ships with. *)

Record Config := { MANDATORY_CHANNELS : list Z; ADMIN_IDS : list Z }.

Definition source_config : Config :=
  {| MANDATORY_CHANNELS := [-1001234567890]; ADMIN_IDS := [1350513135] |}.

(** [KINOSPEEDS] is read by [start] and bound nowhere: not by an
    assignment of the module, not by an import, and it is no builtin. *)
Definition KINOSPEEDS : option string := None.

(** Reading a global name. *)
Definition load_global {A} (name : string) (binding : option A) : Py A :=
  match binding with
  | Some v => mret v
  | None => raise (NameError name)
  end.

(** ** Helpers *)

Definition is_admin (cfg : Config) (user_id : Z) : bool :=
  bool_decide (user_id ∈ ADMIN_IDS cfg).

Definition get_chat_member (bot : Bot) (chat user : Z) : Py ChatMember :=
  emit (GetChatMember chat user) ;;
  match chat_member bot chat user with
  | inl member => mret member
  | inr e => raise (Telegram e)
  end.

Definition is_BadRequest (e : Exception) : bool :=
  match e with
  | Telegram BadRequest => true
  | _ => false
  end.

Definition status_in (s : ChatMemberStatus) (l : list ChatMemberStatus) : bool :=
  existsb (ChatMemberStatus_eqb s) l.

(** [ChatMemberStatus.<name>]: a name the class does not have raises
    [AttributeError]. *)
Definition ChatMemberStatus_attr (name : string) : Py ChatMemberStatus :=
  match ChatMemberStatus_member name with
  | Some s => mret s
  | None => raise (AttributeError name)
  end.

(** One turn of the loop of [check_membership]: [Some b] when the body
    returns [b], [None] when it falls through to the next channel.  The
    tuple of the passing statuses is built, name by name, after the
    platform has answered. *)
Definition check_channel (bot : Bot) (user_id channel_id : Z) : Py (option bool) :=
  try_except
    (member ← get_chat_member bot channel_id user_id;
     passing ← (s1 ← ChatMemberStatus_attr "MEMBER";
                s2 ← ChatMemberStatus_attr "CREATOR";
                s3 ← ChatMemberStatus_attr "ADMINISTRATOR";
                mret [s1; s2; s3]);
     if negb (status_in (status member) passing)
     then mret (Some false)
     else mret None)
    is_BadRequest
    (mret (Some false)).

Fixpoint check_channels (bot : Bot) (user_id : Z) (channels : list Z) : Py bool :=
  match channels with
  | [] => mret true
  | channel_id :: rest =>
      r ← check_channel bot user_id channel_id;
      match r with
      | Some b => mret b
      | None => check_channels bot user_id rest
      end
  end.

Definition check_membership (cfg : Config) (bot : Bot) (user_id : Z) : Py bool :=
  check_channels bot user_id (MANDATORY_CHANNELS cfg).

(** ** Handlers *)

(** [update.message.<attr>]: [update.message] is [None] for an update that
    carries no new message. *)
Definition the_message (u : Update) (attr : string) : Py Message :=
  match message u with
  | Some m => mret m
  | None => raise (AttributeError attr)
  end.

(** Replies are taken to be delivered: a failure while sending is not
    modelled. *)
Definition reply_text (u : Update) (txt : string)
    (reply_markup : option (list (list InlineKeyboardButton))) : Py unit :=
  m ← the_message u "reply_text";
  emit (ReplyText (chat_id m) txt reply_markup).

Definition reply_video (u : Update) (video caption : string)
    (parse_mode : ParseMode) : Py unit :=
  m ← the_message u "reply_video";
  emit (ReplyVideo (chat_id m) video caption parse_mode).

(** [context.user_data] of a user: a dictionary, empty until written. *)
Definition user_dict (w : World) (uid : Z) : gmap string bool :=
  default ∅ (user_data w !! uid).

Definition get_user_data (uid : Z) : Py (gmap string bool) :=
  fun w => (Return (user_dict w uid), w).

(** [context.user_data[key] = v]. *)
Definition set_user_data (uid : Z) (key : string) (v : bool) : Py unit :=
  fun w =>
    (Return tt,
     mkWorld (videos_db w)
             (<[uid := <[key := v]> (user_dict w uid)]> (user_data w))
             (trace w)).

(** Truth value of [d.get(key)]. *)
Definition dict_get_truthy (d : gmap string bool) (key : string) : bool :=
  default false (d !! key).

Definition nl : string := String (ascii_of_nat 10) EmptyString.

(** The list comprehension of [start]: one row of one button per element
    of [MANDATORY_CHANNELS], the f-string evaluated at each turn. *)
Fixpoint join_buttons (channels : list Z) : Py (list (list InlineKeyboardButton)) :=
  match channels with
  | [] => mret []
  | channel :: rest =>
      k ← load_global "KINOSPEEDS" KINOSPEEDS;
      rows ← join_buttons rest;
      mret ([ {| btn_text := "➕ Kanalga qo'shiling";
                 url := "https://t.me/c/" +:+ k |} ] :: rows)
  end.

Definition start (cfg : Config) (bot : Bot) (update : Update) : Py unit :=
  match effective_user update with
  | None => mret tt
  | Some user =>
      ok ← check_membership cfg bot (id user);
      if ok : bool then
        reply_text update
          ("✅ Kanal(a)larga a'zolik tasdiqlandi!" +:+ nl +:+
           "Iltimos, videoni olish uchun kodni kiriting:") None ;;
        set_user_data (id user) "verified" true
      else
        buttons ← join_buttons (MANDATORY_CHANNELS cfg);
        reply_text update
          "Salom! Videoni olishdan oldin quyidagi kanal(lar)ga a'zo bo'ling:"
          (Some buttons)
  end.

Definition handle_code (update : Update) : Py unit :=
  match effective_user update with
  | None => raise (AttributeError "get")   (* [context.user_data] is [None] *)
  | Some user =>
      d ← get_user_data (id user);
      if negb (dict_get_truthy d "verified") then mret tt
      else
        m ← the_message update "text";
        let code := Str.strip (text m) in
        row ← fetch_video code;
        match row with
        | Some (file_id, title) =>
            reply_video update file_id
              ("📹 <b>" +:+ title +:+ "</b>" +:+ nl +:+
               "Kod: <code>" +:+ Str.upper code +:+ "</code>")
              HTML
        | None =>
            reply_text update
              "🚫 Bunday kod topilmadi. To'g'ri kiriting yoki /start buyrug'ini qayta bajaring."
              None
        end
  end.

(** ** Admin handlers *)

(** [user and is_admin(user.id)]. *)
Definition user_is_admin (cfg : Config) (update : Update) : bool :=
  match effective_user update with
  | Some user => is_admin cfg (id user)
  | None => false
  end.

Definition upload (cfg : Config) (update : Update) (args : list string) : Py unit :=
  if negb (user_is_admin cfg update) then mret tt
  else
    m ← the_message update "reply_to_message";
    match reply_to_message m ≫= video with
    | None =>
        reply_text update
          "⬆️ Videoni yuklash uchun avval videoga javob sifatida /upload <code> <nom> deb yozing."
          None
    | Some v =>
        match args with
        | code :: ((_ :: _) as title_words) =>
            let title := Str.join " " title_words in
            let file_id := file_id v in
            add_video code title file_id ;;
            reply_text update
              ("✅ Video saqlandi! Kod: " +:+ Str.upper code +:+ " -> " +:+ title)
              None
        | _ => reply_text update "Foydalanish: /upload <kod> <nom>" None
        end
    end.

Definition delete (cfg : Config) (update : Update) (args : list string) : Py unit :=
  if negb (user_is_admin cfg update) then mret tt
  else
    match args with
    | [code] =>
        success ← delete_video code;
        if success : bool then
          reply_text update
            ("🗑️ " +:+ Str.upper code +:+ " kodi bilan video o'chirildi.") None
        else reply_text update "🚫 Bunday kod topilmadi." None
    | _ => reply_text update "Foydalanish: /delete <kod>" None
    end.

(** ** The application

    [main] registers the four handlers; the framework picks the handler
    of an update, passes the command's arguments, and logs an exception a
    handler raises instead of stopping. *)

Inductive Handler := OnStart | OnText | OnUpload | OnDelete.

Record Event := {
  ev_bot : Bot;            (* the platform when the update is handled *)
  ev_handler : Handler;
  ev_update : Update;
  ev_args : list string    (* [context.args] *)
}.

Definition run_handler (cfg : Config) (ev : Event) : Py unit :=
  match ev_handler ev with
  | OnStart => start cfg (ev_bot ev) (ev_update ev)
  | OnText => handle_code (ev_update ev)
  | OnUpload => upload cfg (ev_update ev) (ev_args ev)
  | OnDelete => delete cfg (ev_update ev) (ev_args ev)
  end.

Definition process_update (cfg : Config) (w : World) (ev : Event) : World :=
  snd (run_handler cfg ev w).

Definition run_polling (cfg : Config) (evs : list Event) (w : World) : World :=
  fold_left (process_update cfg) evs w.

(** The replies among the effects. *)
Definition is_reply (e : Effect) : bool :=
  match e with
  | ReplyText _ _ _ | ReplyVideo _ _ _ _ => true
  | _ => false
  end.

Definition replies (w : World) : list Effect := List.filter is_reply (trace w).

Definition verified (w : World) (uid : Z) : bool :=
  dict_get_truthy (user_dict w uid) "verified".

Definition fresh : World := mkWorld None ∅ [].

(** ** Vocabulary of the properties *)

(** The platform reports a status of the user in the channel, and it is
    regular member, administrator or owner (creator). *)
Definition member_of (bot : Bot) (uid ch : Z) : Prop :=
  exists m, chat_member bot ch uid = inl m
            /\ (status m = MEMBER \/ status m = ADMINISTRATOR \/ status m = OWNER).

(** The round trip for every case variant, which is put to the test
    below. *)
Definition case_variants_round_trip : Prop :=
  forall c c' t m w,
    Str.case_variant c c' ->
    exists w1,
      add_video c t m w = (Return tt, w1)
      /\ fst (fetch_video c' w1) = Return (Some (m, t)).

(** The reading of "a failed query counts as a failed channel" that is
    put to the test below: whenever the query of a configured channel fails,
    [check_membership] returns [False]. *)
Definition failed_query_returns_false : Prop :=
  forall cfg bot uid w ch e,
    ch ∈ MANDATORY_CHANNELS cfg ->
    chat_member bot ch uid = inr e ->
    fst (check_membership cfg bot uid w) = Return false.

(** The world after [qs] more effects, the table and the sessions as they
    were. *)
Definition after (w : World) (qs : list Effect) : World :=
  mkWorld (videos_db w) (user_data w) (trace w ++ qs).

(** No session loses its [verified] flag in the course of [m]. *)
Definition keeps_verified {A} (m : Py A) : Prop :=
  forall w uid, verified w uid = true -> verified (snd (m w)) uid = true.

(** ** Sample data

    Concrete worlds, platforms and updates on which the properties below
    are run. *)

Definition one_video : World :=
  mkWorld (Some [mkRow "X42" "Demo Clip" "FILE1"]) ∅ [].

(** A platform where every user has the same status in every channel. *)
Definition bot_all (s : ChatMemberStatus) : Bot :=
  {| chat_member := fun _ _ => inl {| status := s |} |}.

(** A platform whose membership query fails with [e] for every channel. *)
Definition bot_failing (e : TelegramError) : Bot :=
  {| chat_member := fun _ _ => inr e |}.

Definition two_channels : Config :=
  {| MANDATORY_CHANNELS := [-100; -200]; ADMIN_IDS := [1350513135] |}.

Definition no_channels : Config :=
  {| MANDATORY_CHANNELS := []; ADMIN_IDS := [1350513135] |}.

(** User 5 writes [txt] in the private chat with the bot. *)
Definition text_from_5 (txt : string) : Update :=
  {| effective_user := Some {| id := 5 |};
     message := Some {| chat_id := 5; text := txt; reply_to_message := None |} |}.

(** User 5 sends a command as a reply to a video. *)
Definition reply_to_video_from_5 (txt : string) : Update :=
  {| effective_user := Some {| id := 5 |};
     message :=
       Some {| chat_id := 5; text := txt;
               reply_to_message := Some {| video := Some {| file_id := "FILE1" |} |} |} |}.

(** The administrator of [source_config] sends a command as a reply to a
    video. *)
Definition reply_to_video_from_admin (txt : string) : Update :=
  {| effective_user := Some {| id := 1350513135 |};
     message :=
       Some {| chat_id := 1350513135; text := txt;
               reply_to_message := Some {| video := Some {| file_id := "FILE1" |} |} |} |}.

(** An afternoon of the bot: the administrator registers a video, user 5
    asks for it too early, joins, asks again in lower case, and the
    administrator removes the video. *)
Definition afternoon : list Event :=
  [ {| ev_bot := bot_all LEFT; ev_handler := OnUpload;
       ev_update := reply_to_video_from_admin "/upload x42 Demo Clip";
       ev_args := ["x42"; "Demo"; "Clip"] |};
    {| ev_bot := bot_all LEFT; ev_handler := OnText;
       ev_update := text_from_5 "x42"; ev_args := [] |};
    {| ev_bot := bot_all MEMBER; ev_handler := OnStart;
       ev_update := text_from_5 "/start"; ev_args := [] |};
    {| ev_bot := bot_all MEMBER; ev_handler := OnText;
       ev_update := text_from_5 " x42 "; ev_args := [] |};
    {| ev_bot := bot_all MEMBER; ev_handler := OnDelete;
       ev_update := reply_to_video_from_admin "/delete X42";
       ev_args := ["X42"] |};
    {| ev_bot := bot_all MEMBER; ev_handler := OnText;
       ev_update := text_from_5 "x42"; ev_args := [] |} ].

(** A world where user 5 has passed [start]. *)
Definition verified_5 : World :=
  mkWorld (Some [mkRow "X42" "Demo Clip" "FILE1"])
          {[ 5 := {[ "verified" := true ]} ]} [].

(** ** Vocabulary of the further properties *)

(** Every run of [m] relates the world before to the world after. *)
Definition preserves (R : World -> World -> Prop) {A} (m : Py A) : Prop :=
  forall w, R w (snd (m w)).

Definition same_table (w w' : World) : Prop := table w' = table w.

Definition same_sessions (w w' : World) : Prop := user_data w' = user_data w.

(** The trace grew, and every new effect satisfies [P]. *)
Definition extends (P : Effect -> Prop) (w w' : World) : Prop :=
  exists new : list Effect, trace w' = (trace w ++ new)%list /\ Forall P new.

Definition same_replies (w w' : World) : Prop := replies w' = replies w.

(** At most one reply was sent. *)
Definition one_reply_at_most (w w' : World) : Prop :=
  replies w' = replies w \/ exists r : Effect, replies w' = (replies w ++ [r])%list.

(** A code in the form the table stores it. *)
Definition normal_code (k : string) : Prop := Str.upper k = k.

(** A table as the bot keeps it: one row per code, every code in upper
    case. *)
Definition normalized (tbl : list Row) : Prop :=
  primary_key tbl /\ Forall (fun r => normal_code (col_code r)) tbl.

Definition keeps_normalized (w w' : World) : Prop :=
  normalized (table w) -> normalized (table w').

(** The world once the session of [uid] is marked verified. *)
Definition verify (uid : Z) (w : World) : World :=
  mkWorld (videos_db w)
          (<[uid := <["verified" := true]> (user_dict w uid)]> (user_data w))
          (trace w).

Definition is_query (e : Effect) : bool :=
  match e with
  | GetChatMember _ _ => true
  | _ => false
  end.

Definition is_statement (e : Effect) : bool :=
  match e with
  | Execute _ => true
  | _ => false
  end.

(** The query [get_chat_member(ch, uid)]. *)
Definition ask (uid ch : Z) : Effect := GetChatMember ch uid.

(** The chat a reply goes to. *)
Definition chat_of (e : Effect) : option Z :=
  match e with
  | ReplyText c _ _ | ReplyVideo c _ _ _ => Some c
  | _ => None
  end.

(** The chat an update was written in. *)
Definition chat_of_update (u : Update) : option Z := chat_id <$> message u.

(** An [/upload] or [/delete] sent by an administrator. *)
Definition admin_command (cfg : Config) (ev : Event) : bool :=
  match ev_handler ev with
  | OnUpload | OnDelete => user_is_admin cfg (ev_update ev)
  | _ => false
  end.

(** A [/start] sent by [uid] while the platform reports a passing status
    in every mandatory channel. *)
Definition passing_start (cfg : Config) (uid : Z) (ev : Event) : Prop :=
  ev_handler ev = OnStart
  /\ (exists user, effective_user (ev_update ev) = Some user /\ id user = uid)
  /\ Forall (member_of (ev_bot ev) uid) (MANDATORY_CHANNELS cfg).

(** The user an update comes from. *)
Definition sender (ev : Event) : option Z := id <$> effective_user (ev_update ev).

(** What handling [ev] in the world [w] may do to the outside: ask the
    platform about the sender and a mandatory channel, for [/start]; read
    the table for the text of a verified sender; write to it for the
    command of an administrator, under a code in upper case; reply in the
    chat the update was written in. *)
Definition allowed (cfg : Config) (ev : Event) (w : World) (e : Effect) : Prop :=
  match e with
  | GetChatMember ch uid =>
      ev_handler ev = OnStart /\ ch ∈ MANDATORY_CHANNELS cfg /\ sender ev = Some uid
  | Execute CreateTableIfNotExists => ev_handler ev <> OnStart
  | Execute (SelectFrom k) =>
      ev_handler ev = OnText
      /\ exists uid, sender ev = Some uid /\ verified w uid = true
  | Execute (ReplaceInto k _ _) =>
      ev_handler ev = OnUpload /\ user_is_admin cfg (ev_update ev) = true
      /\ normal_code k
  | Execute (DeleteFrom k) =>
      ev_handler ev = OnDelete /\ user_is_admin cfg (ev_update ev) = true
  | ReplyText c _ _ | ReplyVideo c _ _ _ =>
      chat_of_update (ev_update ev) = Some c
  end.

(** The texts of [delete]. *)
Definition deleted_text (code : string) : string :=
  "🗑️ " +:+ Str.upper code +:+ " kodi bilan video o'chirildi.".

Definition not_found_text : string := "🚫 Bunday kod topilmadi.".

(** The caption of [handle_code]. *)
Definition caption_of (title code : string) : string :=
  "📹 <b>" +:+ title +:+ "</b>" +:+ nl +:+ "Kod: <code>" +:+ code +:+ "</code>".

(** The reply of [handle_code] to the chat [chat], for the normalized code
    [k] and what [fetch_video] returned. *)
Definition lookup_reply (chat : Z) (k : string) (row : option (string * string)) : Effect :=
  match row with
  | Some (f, t) => ReplyVideo chat f (caption_of t k) HTML
  | None =>
      ReplyText chat
        "🚫 Bunday kod topilmadi. To'g'ri kiriting yoki /start buyrug'ini qayta bajaring."
        None
  end.

(** The confirmation of [start]. *)
Definition welcome_text : string :=
  "✅ Kanal(a)larga a'zolik tasdiqlandi!" +:+ nl +:+
  "Iltimos, videoni olish uchun kodni kiriting:".

(** The usage texts of [upload] and of [delete]. *)
Definition reply_to_video_text : string :=
  "⬆️ Videoni yuklash uchun avval videoga javob sifatida /upload <code> <nom> deb yozing.".

Definition upload_usage_text : string := "Foydalanish: /upload <kod> <nom>".

Definition delete_usage_text : string := "Foydalanish: /delete <kod>".

(** The confirmation of [upload]. *)
Definition saved_text (code title : string) : string :=
  "✅ Video saqlandi! Kod: " +:+ Str.upper code +:+ " -> " +:+ title.

(** What user 5, who is no administrator, can send: [/start], texts, and
    the two commands. *)
Definition visitor : list Event :=
  [ {| ev_bot := bot_all MEMBER; ev_handler := OnStart;
       ev_update := text_from_5 "/start"; ev_args := [] |};
    {| ev_bot := bot_all MEMBER; ev_handler := OnText;
       ev_update := text_from_5 "x42"; ev_args := [] |};
    {| ev_bot := bot_all MEMBER; ev_handler := OnUpload;
       ev_update := reply_to_video_from_5 "/upload x42 Mine";
       ev_args := ["x42"; "Mine"] |};
    {| ev_bot := bot_all MEMBER; ev_handler := OnDelete;
       ev_update := text_from_5 "/delete x42"; ev_args := ["x42"] |} ].

(** A table of two videos, and no table at all. *)
Definition two_videos : World :=
  mkWorld (Some [mkRow "X42" "Demo Clip" "FILE1"; mkRow "Y7" "Other" "FILE2"]) ∅ [].

Definition no_table : World := mkWorld None ∅ [].

(** * Properties *)

(** ** The model at work *)

Example strip_upper : Str.upper (Str.strip "  x42 ") = "X42".
Proof. reflexivity. Qed.

(** With no mandatory channel, [/start] lets user 5 in. *)
Example afternoon_replies :
  exists confirmation caption not_found,
    replies (run_polling no_channels afternoon fresh)
    = [ ReplyText 1350513135 "✅ Video saqlandi! Kod: X42 -> Demo Clip" None;
        ReplyText 5 confirmation None;
        ReplyVideo 5 "FILE1" caption HTML;
        ReplyText 1350513135 "🗑️ X42 kodi bilan video o'chirildi." None;
        ReplyText 5 not_found None ]
    /\ table (run_polling no_channels afternoon fresh) = [].
Proof. do 3 eexists. split; vm_compute; reflexivity. Qed.

(** With the channel the file ships with, [/start] fails although user 5
    is a member, and the texts of user 5 stay unanswered. *)
Example afternoon_with_a_channel :
  replies (run_polling source_config afternoon fresh)
  = [ ReplyText 1350513135 "✅ Video saqlandi! Kod: X42 -> Demo Clip" None;
      ReplyText 1350513135 "🗑️ X42 kodi bilan video o'chirildi." None ]
  /\ verified (run_polling source_config afternoon fresh) 5 = false.
Proof. split; vm_compute; reflexivity. Qed.

(** ** UTF-8 *)

Section Utf8.
Import Str.
Local Open Scope N_scope.

Ltac arith := zify; Z.to_euclidean_division_equations; lia.

Lemma code_byte n : n < 256 -> code (byte n) = n.
Proof. intros H. unfold code, byte. by apply N_ascii_embedding. Qed.

Lemma append_String a s r : (String a s +:+ r)%string = String a (s +:+ r).
Proof. reflexivity. Qed.

Lemma append_empty r : (EmptyString +:+ r)%string = r.
Proof. reflexivity. Qed.

Lemma decode_lead acc a s :
  decode_from 0 acc (String a s)
  = if code a <? 128 then cons (code a) <$> decode_from 0 0 s
    else if code a <? 192 then None
    else if code a <? 224 then decode_from 1 (code a - 192) s
    else if code a <? 240 then decode_from 2 (code a - 224) s
    else if code a <? 248 then decode_from 3 (code a - 240) s
    else None.
Proof. reflexivity. Qed.

Lemma decode_cont k acc a s :
  decode_from (S k) acc (String a s)
  = if is_cont a then
      match k with
      | O => cons (acc * 64 + (code a - 128)) <$> decode_from 0 0 s
      | S _ => decode_from k (acc * 64 + (code a - 128)) s
      end
    else None.
Proof. reflexivity. Qed.

(** Settles the comparisons of a goal by arithmetic. *)
Ltac compare :=
  repeat match goal with
         | |- context [?a <? ?b] =>
             first [ rewrite (proj2 (N.ltb_lt a b)) by arith
                   | rewrite (proj2 (N.ltb_ge a b)) by arith ]
         | |- context [?a <=? ?b] =>
             first [ rewrite (proj2 (N.leb_le a b)) by arith
                   | rewrite (proj2 (N.leb_gt a b)) by arith ]
         end.

Lemma decode_encode_char c r :
  c < 2097152 ->
  decode_from 0 0 (encode_char c +:+ r) = cons c <$> decode_from 0 0 r.
Proof.
  intros Hc. unfold encode_char.
  destruct (N.ltb_spec c 128); [|destruct (N.ltb_spec c 2048); [|destruct (N.ltb_spec c 65536)]];
    rewrite ?append_String, ?append_empty, decode_lead, ?decode_cont;
    unfold is_cont; rewrite !code_byte by arith; compare; cbn [andb];
    rewrite ?decode_cont; unfold is_cont; rewrite ?code_byte by arith; compare;
    cbn [andb];
    rewrite ?decode_cont; unfold is_cont; rewrite ?code_byte by arith; compare;
    cbn [andb];
    do 2 f_equal; arith.
Qed.

Lemma decode_encode l : Forall valid l -> decode (encode l) = Some l.
Proof.
  unfold decode. induction 1 as [|c l Hc _ IH]; [done|].
  cbn [encode]. by rewrite decode_encode_char, IH.
Qed.

Lemma decode_from_valid s : forall need acc l,
  room need acc -> decode_from need acc s = Some l -> Forall valid l.
Proof.
  induction s as [|a s IH]; intros need acc l Hroom.
  - destruct need; [|discriminate]. intros [= <-]. constructor.
  - destruct need as [|k].
    + rewrite decode_lead.
      destruct (N.ltb_spec (code a) 128).
      { destruct (decode_from 0 0 s) as [l'|] eqn:E; [|discriminate].
        intros [= <-]. constructor; [unfold valid; arith|]. by apply (IH 0%nat 0). }
      destruct (N.ltb_spec (code a) 192); [discriminate|].
      destruct (N.ltb_spec (code a) 224); [apply IH; simpl; arith|].
      destruct (N.ltb_spec (code a) 240); [apply IH; simpl; arith|].
      destruct (N.ltb_spec (code a) 248); [apply IH; simpl; arith|discriminate].
    + rewrite decode_cont. unfold is_cont.
      destruct (N.leb_spec 128 (code a)); [|discriminate].
      destruct (N.ltb_spec (code a) 192); [|discriminate]. cbn [andb].
      destruct k as [|[|[|k]]]; simpl in Hroom; try done.
      * destruct (decode_from 0 0 s) as [l'|] eqn:E; [|discriminate].
        intros [= <-]. constructor; [unfold valid; arith|]. by apply (IH 0%nat 0).
      * apply IH. simpl. arith.
      * apply IH. simpl. arith.
Qed.

Lemma decode_valid s l : decode s = Some l -> Forall valid l.
Proof. exact (decode_from_valid s 0%nat 0 l I). Qed.

Lemma on_chars_twice (f : list N -> list N) s :
  (forall l, Forall valid l -> Forall valid (f l)) ->
  (forall l, f (f l) = f l) ->
  on_chars f (on_chars f s) = on_chars f s.
Proof.
  intros Hvalid Hidem. unfold on_chars at 2 3.
  destruct (decode s) as [l|] eqn:E.
  - unfold on_chars.
    rewrite decode_encode by (apply Hvalid; exact (decode_valid s l E)).
    by rewrite Hidem.
  - unfold on_chars. by rewrite E.
Qed.
End Utf8.

(** ** Case mapping *)

Section CaseMapping.
Import Str.
Local Open Scope N_scope.

Lemma lookup_in table c :
  lookup table c = [c] \/ In (c, lookup table c) table.
Proof.
  unfold lookup. destruct (List.find _ table) as [[c' u]|] eqn:E; [right|by left].
  apply List.find_some in E as [Hin Hc]. simpl in *.
  apply N.eqb_eq in Hc. by subst.
Qed.

Lemma upper_table_is_closed : upper_table_closed = true.
Proof. vm_compute. reflexivity. Qed.

Lemma to_upper_entry c :
  to_upper c = [c]
  \/ (flat_map to_upper (to_upper c) = to_upper c /\ Forall valid (to_upper c)).
Proof.
  unfold to_upper. destruct (lookup_in upper_table c) as [?|Hin]; [by left|right].
  pose proof upper_table_is_closed as Hclosed. unfold upper_table_closed in Hclosed.
  rewrite forallb_forall in Hclosed. specialize (Hclosed _ Hin).
  apply andb_true_iff in Hclosed as [Hfix Hval]. simpl in *.
  split; [by apply bool_decide_eq_true in Hfix|].
  apply Forall_forall. intros x Hx. apply list_elem_of_In in Hx.
  rewrite forallb_forall in Hval. by apply N.ltb_lt, Hval.
Qed.

Lemma to_upper_idemp c : flat_map to_upper (to_upper c) = to_upper c.
Proof.
  destruct (to_upper_entry c) as [Hc|[? _]]; [|done].
  rewrite Hc. simpl. by rewrite Hc.
Qed.

Lemma to_upper_valid c : valid c -> Forall valid (to_upper c).
Proof.
  intros Hc. destruct (to_upper_entry c) as [->|[_ ?]]; [by constructor|done].
Qed.

Lemma upper_chars_idemp l :
  flat_map to_upper (flat_map to_upper l) = flat_map to_upper l.
Proof.
  induction l as [|c l IH]; [done|]. cbn [flat_map].
  by rewrite List.flat_map_app, to_upper_idemp, IH.
Qed.

Lemma upper_chars_valid l : Forall valid l -> Forall valid (flat_map to_upper l).
Proof.
  induction 1 as [|c l Hc _ IH]; [constructor|]. cbn [flat_map].
  apply Forall_app. split; [by apply to_upper_valid|done].
Qed.

Lemma upper_idemp s : upper (upper s) = upper s.
Proof. apply on_chars_twice; [apply upper_chars_valid|apply upper_chars_idemp]. Qed.

(** The two codes have one upper-case form when their characters have. *)
Lemma upper_of_chars c c' l l' :
  decode c = Some l -> decode c' = Some l' ->
  flat_map to_upper l = flat_map to_upper l' -> upper c = upper c'.
Proof. intros Hl Hl' Heq. unfold upper, on_chars. by rewrite Hl, Hl', Heq. Qed.

Lemma ascii_forms_do_agree : ascii_forms_agree = true.
Proof. vm_compute. reflexivity. Qed.

Lemma to_upper_lower_ascii c :
  c < 128 -> flat_map to_upper (to_lower c) = to_upper c.
Proof.
  intros Hc. pose proof ascii_forms_do_agree as H. unfold ascii_forms_agree in H.
  rewrite forallb_forall in H. apply (bool_decide_eq_true_1 _), H.
  apply List.in_map_iff. exists (N.to_nat c). split; [lia|].
  apply List.in_seq. lia.
Qed.

Lemma after_prefix_app p l t : after_prefix p l = Some t -> l = (p ++ t)%list.
Proof.
  revert l. induction p as [|a p IH]; intros l; simpl.
  - by intros [= <-].
  - destruct l as [|b l]; [discriminate|].
    destruct (N.eqb_spec a b); [|discriminate]. intros H%IH. by subst.
Qed.

(** Case variants of an ASCII text have the upper-case form of the text. *)
Lemma chars_variant_upper s : forall t,
  Forall (fun c => c < 128) s -> chars_variant s t = true ->
  flat_map to_upper t = flat_map to_upper s.
Proof.
  induction s as [|a s IH]; intros t Hs Hv.
  - destruct t; [done|discriminate].
  - apply Forall_cons in Hs as [Ha Hs]. cbn [chars_variant] in Hv.
    apply existsb_exists in Hv as (form & Hform & Hv).
    destruct (after_prefix form t) as [t'|] eqn:E; [|discriminate].
    apply after_prefix_app in E as ->. rewrite List.flat_map_app, (IH _ Hs Hv).
    cbn [flat_map]. f_equal.
    destruct Hform as [<-|[<-|[<-|[]]]].
    + simpl. by rewrite app_nil_r.
    + by apply to_upper_lower_ascii.
    + apply to_upper_idemp.
Qed.

Lemma case_variant_upper c c' :
  case_variant c c' -> is_ascii c -> upper c = upper c'.
Proof.
  unfold case_variant, is_ascii.
  destruct (decode c) as [l|] eqn:Hl; [|done].
  destruct (decode c') as [l'|] eqn:Hl'; [|done].
  intros Hv Hascii. apply (upper_of_chars c c' l l' Hl Hl').
  symmetry. by apply chars_variant_upper.
Qed.
End CaseMapping.


(** ** SQL statements on a table *)

Section Table.
Implicit Types (k t f : string) (tbl : list Row).

Lemma has_code_true k r : has_code k r = true <-> col_code r = k.
Proof. unfold has_code. apply String.eqb_eq. Qed.

Lemma find_deleted k tbl :
  List.find (has_code k) (List.filter (fun r => negb (has_code k r)) tbl) = None.
Proof.
  induction tbl as [|r tbl IH]; simpl; [done|].
  destruct (has_code k r) eqn:E; simpl; [done|]. by rewrite E.
Qed.

Lemma filter_deleted k tbl :
  List.filter (has_code k) (List.filter (fun r => negb (has_code k r)) tbl) = [].
Proof.
  induction tbl as [|r tbl IH]; simpl; [done|].
  destruct (has_code k r) eqn:E; simpl; [done|]. by rewrite E.
Qed.

Lemma find_app_None {A} (p : A -> bool) (l l' : list A) :
  List.find p l = None -> List.find p (l ++ l') = List.find p l'.
Proof.
  induction l as [|x l IH]; simpl; [done|]. destruct (p x); [done|]. exact IH.
Qed.

Lemma select_replace k t f tbl :
  sql_select k (sql_replace k t f tbl) = Some (f, t).
Proof.
  unfold sql_select, sql_replace.
  rewrite find_app_None by apply find_deleted. simpl.
  unfold has_code. simpl. by rewrite String.eqb_refl.
Qed.

(** After a [REPLACE] exactly one row carries the code. *)
Lemma rows_replace k t f tbl :
  List.filter (has_code k) (sql_replace k t f tbl) = [mkRow k t f].
Proof.
  unfold sql_replace. rewrite List.filter_app, filter_deleted. simpl.
  unfold has_code. simpl. by rewrite String.eqb_refl.
Qed.

Lemma filter_absent k tbl :
  k ∉ map col_code tbl ->
  List.filter (fun r => negb (has_code k r)) tbl = tbl
  /\ List.filter (has_code k) tbl = [].
Proof.
  induction tbl as [|r tbl IH]; simpl; [done|].
  intros Hk. apply not_elem_of_cons in Hk as [Hr Hk].
  destruct (IH Hk) as [IH1 IH2].
  destruct (has_code k r) eqn:E.
  - apply has_code_true in E. congruence.
  - simpl. by rewrite IH1, IH2.
Qed.

Lemma codes_deleted k tbl x :
  x ∈ map col_code (List.filter (fun r => negb (has_code k r)) tbl) ->
  x ∈ map col_code tbl /\ x <> k.
Proof.
  induction tbl as [|r tbl IH]; simpl; [by intros ?%elem_of_nil|].
  destruct (has_code k r) eqn:E; simpl.
  - intros [? ?]%IH. split; [by right|done].
  - intros [->|Hx]%elem_of_cons.
    + split; [by left|]. intros Heq. apply has_code_true in Heq. congruence.
    + destruct (IH Hx). split; [by right|done].
Qed.

Lemma primary_key_deleted k tbl :
  primary_key tbl -> primary_key (List.filter (fun r => negb (has_code k r)) tbl).
Proof.
  unfold primary_key. induction tbl as [|r tbl IH]; simpl; [done|].
  intros [Hr Htbl]%NoDup_cons. destruct (has_code k r); simpl; [by apply IH|].
  apply NoDup_cons. split; [|by apply IH].
  intros Hin. by apply codes_deleted in Hin as [? _].
Qed.

(** [REPLACE] keeps the primary key unique. *)
Lemma primary_key_replace k t f tbl :
  primary_key tbl -> primary_key (sql_replace k t f tbl).
Proof.
  intros Hpk. unfold primary_key, sql_replace. rewrite map_app. simpl.
  apply NoDup_app. split; [by apply primary_key_deleted|]. split.
  - intros x Hx [->|[]%elem_of_nil]%elem_of_cons.
    by apply codes_deleted in Hx as [_ ?].
  - apply NoDup_singleton.
Qed.
End Table.

(** ** The database layer, run *)

Section Database.
Implicit Types (w : World).

Lemma add_video_run code title file_id w :
  add_video code title file_id w =
  (Return tt,
   mkWorld (Some (sql_replace (Str.upper code) title file_id (table w)))
           (user_data w)
           (trace w ++ [Execute CreateTableIfNotExists;
                        Execute (ReplaceInto (Str.upper code) title file_id)])).
Proof.
  unfold add_video, get_db, mbind, Py_bind, emit, create_table_if_not_exists,
    the_table, set_table. simpl. by rewrite <- app_assoc.
Qed.

Lemma delete_video_run code w :
  delete_video code w =
  (Return (0 <? snd (sql_delete (Str.upper code) (table w)))%nat,
   mkWorld (Some (fst (sql_delete (Str.upper code) (table w))))
           (user_data w)
           (trace w ++ [Execute CreateTableIfNotExists;
                        Execute (DeleteFrom (Str.upper code))])).
Proof.
  unfold delete_video, get_db, mbind, Py_bind, emit, create_table_if_not_exists,
    the_table, set_table. simpl. by rewrite <- app_assoc.
Qed.

Lemma fetch_video_run code w :
  fetch_video code w =
  (Return (sql_select (Str.upper code) (table w)),
   mkWorld (Some (table w)) (user_data w)
           (trace w ++ [Execute CreateTableIfNotExists;
                        Execute (SelectFrom (Str.upper code))])).
Proof.
  unfold fetch_video, get_db, mbind, Py_bind, emit, create_table_if_not_exists,
    the_table. simpl. by rewrite <- app_assoc.
Qed.
End Database.

(** C4 as stated does not hold: the capital sharp s is a letter of its own
    in upper case, its lower-case form goes to [SS], and the row written
    under the one spelling is not found under the other. *)
Lemma case_variant_may_lose_the_row :
  Str.case_variant "ẞ1" "ß1"
  /\ Str.upper "ẞ1" = "ẞ1" /\ Str.upper "ß1" = "SS1"
  /\ fst (fetch_video "ß1" (snd (add_video "ẞ1" "Demo Clip" "FILE1" fresh)))
     = Return None
  /\ ~ case_variants_round_trip.
Proof.
  assert (Hcv : Str.case_variant "ẞ1" "ß1") by (vm_compute; reflexivity).
  assert (Hlost : fst (fetch_video "ß1" (snd (add_video "ẞ1" "Demo Clip" "FILE1" fresh)))
                  = Return None) by (vm_compute; reflexivity).
  repeat split; try (vm_compute; reflexivity); try done.
  intros Hclaim.
  destruct (Hclaim "ẞ1" "ß1" "Demo Clip" "FILE1" fresh Hcv) as (w1 & Hadd & Hget).
  rewrite Hadd in Hlost. cbn [snd] in Hlost. congruence.
Qed.

(** C4, amended. [add_video c t m] followed by [fetch_video c'] returns
    [(m, t)] whenever [c] and [c'] have the same upper-case form, which is
    the case for every case variant of a code of ASCII characters: both
    calls put the code in upper case before they touch the table. *)
Theorem add_then_fetch_case_variant (c c' t m : string) (w : World) :
  Str.upper c = Str.upper c' \/ (Str.is_ascii c /\ Str.case_variant c c') ->
  exists w1,
    add_video c t m w = (Return tt, w1)
    /\ fst (fetch_video c' w1) = Return (Some (m, t)).
Proof.
  intros Hsame.
  assert (Heq : Str.upper c = Str.upper c').
  { destruct Hsame as [?|[Hascii Hcv]]; [done|by apply case_variant_upper]. }
  eexists. split; [apply add_video_run|].
  rewrite fetch_video_run. simpl. unfold table. simpl.
  rewrite <- Heq. by rewrite select_replace.
Qed.

Lemma add_then_fetch_case_variant_witness :
  (Str.is_ascii "x42Ab" /\ Str.case_variant "x42Ab" "X42aB")
  /\ exists w1,
       add_video "x42Ab" "Demo Clip" "FILE1" fresh = (Return tt, w1)
       /\ fst (fetch_video "X42aB" w1) = Return (Some ("FILE1", "Demo Clip")).
Proof.
  assert (H : Str.is_ascii "x42Ab" /\ Str.case_variant "x42Ab" "X42aB").
  { split; [vm_compute; repeat constructor|vm_compute; reflexivity]. }
  split; [exact H|].
  exact (add_then_fetch_case_variant "x42Ab" "X42aB" "Demo Clip" "FILE1" fresh
           (or_intror H)).
Defined.

(** C5. [add_video c t1 m1], then [add_video c t2 m2], then
    [fetch_video c] returns [(m2, t2)], and the table holds exactly one
    row under the normalized code: the second write replaced the first. *)
Theorem add_twice_last_write_wins (c t1 m1 t2 m2 : string) (w : World) :
  exists w1 w2,
    add_video c t1 m1 w = (Return tt, w1)
    /\ add_video c t2 m2 w1 = (Return tt, w2)
    /\ fst (fetch_video c w2) = Return (Some (m2, t2))
    /\ List.filter (has_code (Str.upper c)) (table w2) = [mkRow (Str.upper c) t2 m2].
Proof.
  do 2 eexists. split; [apply add_video_run|]. split; [apply add_video_run|].
  rewrite fetch_video_run. unfold table. simpl.
  by rewrite select_replace, rows_replace.
Qed.

(** C6. [delete_video c], when no row carries the normalized code,
    returns [False] as a normal result and leaves the rows of the table
    as they were. *)
Theorem delete_absent_code (c : string) (w : World) :
  Str.upper c ∉ map col_code (table w) ->
  exists w',
    delete_video c w = (Return false, w')
    /\ table w' = table w
    /\ user_data w' = user_data w.
Proof.
  intros Habs. destruct (filter_absent _ _ Habs) as [Hkeep Hnone].
  eexists. split; [|split].
  - rewrite delete_video_run. unfold sql_delete. simpl.
    rewrite Hnone. simpl. reflexivity.
  - unfold table at 1. simpl. exact Hkeep.
  - reflexivity.
Qed.

Lemma delete_absent_code_witness :
  (Str.upper "y7" ∉ map col_code (table one_video))
  /\ exists w',
       delete_video "y7" one_video = (Return false, w')
       /\ table w' = table one_video
       /\ user_data w' = user_data one_video.
Proof.
  assert (H : Str.upper "y7" ∉ map col_code (table one_video)).
  { intros [Heq|[]%elem_of_nil]%elem_of_cons. discriminate Heq. }
  split; [exact H|]. exact (delete_absent_code "y7" one_video H).
Defined.

(** ** Membership check *)

Section Membership.
Variable bot : Bot.
Variable uid : Z.

(** One turn of the loop, by the answer of the platform: once the
    platform has answered, the tuple of passing statuses is built, and
    [ChatMemberStatus.CREATOR] is no member of the class. *)
Lemma check_channels_cons ch rest w :
  check_channels bot uid (ch :: rest) w =
  match chat_member bot ch uid with
  | inl m => (Raise (AttributeError "CREATOR"), after w [GetChatMember ch uid])
  | inr BadRequest => (Return false, after w [GetChatMember ch uid])
  | inr e => (Raise (Telegram e), after w [GetChatMember ch uid])
  end.
Proof.
  cbn [check_channels]. unfold check_channel, try_except, get_chat_member,
    mbind, Py_bind, emit, after.
  destruct (chat_member bot ch uid) as [m|e]; [reflexivity|].
  destruct e; reflexivity.
Qed.

Lemma not_member_of_inr ch e :
  chat_member bot ch uid = inr e -> ~ member_of bot uid ch.
Proof. intros Hq (m & Hm & _). congruence. Qed.

(** The check says yes only when there is no channel to ask about. *)
Lemma check_channels_true chs w :
  fst (check_channels bot uid chs w) = Return true <-> chs = [].
Proof.
  destruct chs as [|ch rest]; [done|]. rewrite check_channels_cons.
  destruct (chat_member bot ch uid) as [m|[]]; by split.
Qed.

Lemma check_channels_false chs w :
  fst (check_channels bot uid chs w) = Return false
  <-> exists ch rest, chs = ch :: rest /\ chat_member bot ch uid = inr BadRequest.
Proof.
  destruct chs as [|ch rest].
  - split; [discriminate|]. by intros (? & ? & ? & _).
  - rewrite check_channels_cons. split.
    + destruct (chat_member bot ch uid) as [m|[]] eqn:Hq; try discriminate.
      intros _. exists ch, rest. by split.
    + intros (ch' & rest' & [= <- <-] & ->). reflexivity.
Qed.

(** The queries go out in the order of the list and stop at the first
    channel that does not pass; nothing else is done. *)
Lemma check_channels_world chs w :
  exists n, snd (check_channels bot uid chs w)
            = after w (map (fun ch => GetChatMember ch uid) (take n chs)).
Proof.
  destruct chs as [|ch rest].
  - exists 0%nat. unfold after. simpl. by rewrite app_nil_r; destruct w.
  - exists 1%nat. rewrite check_channels_cons.
    destruct (chat_member bot ch uid) as [m|[]]; reflexivity.
Qed.

Lemma check_channels_asks_first chs w :
  snd (check_channels bot uid chs w)
  = after w (map (fun ch => GetChatMember ch uid) (take 1 chs)).
Proof.
  destruct chs as [|ch rest].
  - unfold after. simpl. by rewrite app_nil_r; destruct w.
  - rewrite check_channels_cons.
    destruct (chat_member bot ch uid) as [m|[]]; reflexivity.
Qed.
End Membership.

(** C2. [check_membership] should return [True] exactly when the user's
    status in every configured channel is member, administrator or owner.
    It does not: a user who is a member of the one configured channel, or
    an administrator of both of two, passes everywhere, and the check
    raises [AttributeError] on [ChatMemberStatus.CREATOR] after the first
    answer instead of returning [True]. *)
Theorem check_membership_of_a_member_raises :
  Forall (member_of (bot_all MEMBER) 5) (MANDATORY_CHANNELS source_config)
  /\ check_membership source_config (bot_all MEMBER) 5 fresh
     = (Raise (AttributeError "CREATOR"),
        after fresh [GetChatMember (-1001234567890) 5])
  /\ Forall (member_of (bot_all ADMINISTRATOR) 5) (MANDATORY_CHANNELS two_channels)
  /\ check_membership two_channels (bot_all ADMINISTRATOR) 5 fresh
     = (Raise (AttributeError "CREATOR"), after fresh [GetChatMember (-100) 5]).
Proof.
  repeat split; try reflexivity.
  - repeat constructor. exists {| status := MEMBER |}. split; [reflexivity|by left].
  - repeat constructor;
      (exists {| status := ADMINISTRATOR |}; split; [reflexivity|by right; left]).
Qed.

(** C3 as stated does not hold: [except BadRequest] lets a time-out
    through, and [check_membership] raises instead of returning. *)
Lemma failed_query_may_raise :
  fst (check_membership source_config (bot_failing TimedOut) 5 fresh)
  = Raise (Telegram TimedOut)
  /\ ~ failed_query_returns_false.
Proof.
  split; [reflexivity|].
  intros H.
  specialize (H source_config (bot_failing TimedOut) 5 fresh (-1001234567890) TimedOut).
  discriminate H; [by left|reflexivity].
Qed.

(** C3, amended. When the query of a configured channel fails,
    [check_membership] never returns [True].  When the failing query is
    that of the first channel, it returns [False] if the error is
    [BadRequest], and raises the error to the caller if it is another. *)
Theorem check_membership_fails_closed
    (cfg : Config) (bot : Bot) (uid : Z) (w : World) (ch : Z) (e : TelegramError) :
  ch ∈ MANDATORY_CHANNELS cfg ->
  chat_member bot ch uid = inr e ->
  fst (check_membership cfg bot uid w) <> Return true
  /\ (head (MANDATORY_CHANNELS cfg) = Some ch ->
      check_membership cfg bot uid w
      = (if is_BadRequest (Telegram e) then Return false else Raise (Telegram e),
         after w [GetChatMember ch uid])).
Proof.
  intros Hin Hq. unfold check_membership. split.
  - rewrite check_channels_true. intros Hnil. rewrite Hnil in Hin.
    by apply elem_of_nil in Hin.
  - destruct (MANDATORY_CHANNELS cfg) as [|ch' rest]; [discriminate|].
    intros [= ->]. rewrite check_channels_cons, Hq. by destruct e.
Qed.

Lemma check_membership_fails_closed_witness :
  fst (check_membership source_config (bot_failing BadRequest) 5 fresh) <> Return true
  /\ check_membership source_config (bot_failing BadRequest) 5 fresh
     = (Return false, after fresh [GetChatMember (-1001234567890) 5]).
Proof.
  assert (Hin : -1001234567890 ∈ MANDATORY_CHANNELS source_config) by (by left).
  assert (Hq : chat_member (bot_failing BadRequest) (-1001234567890) 5 = inr BadRequest)
    by reflexivity.
  destruct (check_membership_fails_closed source_config (bot_failing BadRequest) 5
              fresh (-1001234567890) BadRequest Hin Hq) as (Hnever & Hfirst).
  split; [exact Hnever|]. exact (Hfirst eq_refl).
Defined.

(** C10. With no mandatory channel configured, [check_membership] returns
    [True] for every user and leaves the world as it was: no query goes
    out. *)
Theorem check_membership_no_channels (cfg : Config) (bot : Bot) (uid : Z) (w : World) :
  MANDATORY_CHANNELS cfg = [] ->
  check_membership cfg bot uid w = (Return true, w).
Proof. intros Hnone. unfold check_membership. rewrite Hnone. reflexivity. Qed.

Lemma check_membership_no_channels_witness :
  check_membership no_channels (bot_all LEFT) 5 fresh = (Return true, fresh).
Proof.
  exact (check_membership_no_channels no_channels (bot_all LEFT) 5 fresh eq_refl).
Defined.

(** ** Sessions are never unverified *)

Section KeepsVerified.

Lemma verified_after w qs uid : verified (after w qs) uid = verified w uid.
Proof. reflexivity. Qed.

Lemma kv_ret {A} (a : A) : keeps_verified (mret a).
Proof. by intros w uid H. Qed.

Lemma kv_raise {A} e : keeps_verified (@raise A e).
Proof. by intros w uid H. Qed.

Lemma kv_emit e : keeps_verified (emit e).
Proof. by intros w uid H. Qed.

Lemma kv_the_table : keeps_verified the_table.
Proof. intros w uid H. unfold the_table. by destruct (videos_db w). Qed.

Lemma kv_set_table tbl : keeps_verified (set_table tbl).
Proof. by intros w uid H. Qed.

Lemma kv_create_table : keeps_verified create_table_if_not_exists.
Proof. by intros w uid H. Qed.

Lemma kv_get_user_data u : keeps_verified (get_user_data u).
Proof. by intros w uid H. Qed.

Lemma kv_bind {A B} (m : Py A) (k : A -> Py B) :
  keeps_verified m -> (forall a, keeps_verified (k a)) -> keeps_verified (m ≫= k).
Proof.
  intros Hm Hk w uid H. unfold mbind, Py_bind.
  specialize (Hm w uid H). destruct (m w) as [[a|e] w']; simpl in *.
  - by apply Hk.
  - exact Hm.
Qed.

Lemma kv_try_except {A} (body handler : Py A) catches :
  keeps_verified body -> keeps_verified handler ->
  keeps_verified (try_except body catches handler).
Proof.
  intros Hb Hh w uid H. unfold try_except.
  specialize (Hb w uid H). destruct (body w) as [[a|e] w']; simpl in *; [done|].
  destruct (catches e); [by apply Hh|done].
Qed.

(** The one write to a session: [user_data["verified"] = True]. *)
Lemma kv_set_verified u : keeps_verified (set_user_data u "verified" true).
Proof.
  intros w uid H. unfold verified, user_dict, set_user_data in *. simpl.
  destruct (decide (u = uid)) as [->|Hne].
  - rewrite lookup_insert_eq. simpl. unfold dict_get_truthy.
    by rewrite lookup_insert_eq.
  - by rewrite lookup_insert_ne.
Qed.

Lemma kv_load_global {A} name (binding : option A) :
  keeps_verified (load_global name binding).
Proof. destruct binding; [apply kv_ret|apply kv_raise]. Qed.

Lemma kv_the_message u attr : keeps_verified (the_message u attr).
Proof. unfold the_message. destruct (message u); [apply kv_ret|apply kv_raise]. Qed.

End KeepsVerified.

Create HintDb kv discriminated.
#[local] Hint Resolve kv_ret kv_raise kv_emit kv_the_table kv_set_table
  kv_create_table kv_get_user_data kv_set_verified kv_load_global
  kv_the_message : kv.

(** Takes a computation apart along its binds and case distinctions. *)
Ltac kv_step :=
  match goal with
  | |- keeps_verified (_ ≫= _) => apply kv_bind; [|intros ?]
  | |- keeps_verified (try_except _ _ _) => apply kv_try_except
  | |- keeps_verified (match ?x with _ => _ end) => destruct x
  | |- keeps_verified (let _ := _ in _) => cbv zeta
  | |- keeps_verified _ => solve [auto with kv]
  end.

Section HandlersKeepVerified.
Variable cfg : Config.

Lemma kv_reply_text u txt markup : keeps_verified (reply_text u txt markup).
Proof. unfold reply_text. repeat kv_step. Qed.

Lemma kv_reply_video u v c pm : keeps_verified (reply_video u v c pm).
Proof. unfold reply_video. repeat kv_step. Qed.

Lemma kv_get_db : keeps_verified get_db.
Proof. unfold get_db. repeat kv_step. Qed.

Hint Resolve kv_reply_text kv_reply_video kv_get_db : kv.

Lemma kv_add_video c t f : keeps_verified (add_video c t f).
Proof. unfold add_video. repeat kv_step. Qed.

Lemma kv_delete_video c : keeps_verified (delete_video c).
Proof. unfold delete_video. repeat kv_step. Qed.

Lemma kv_fetch_video c : keeps_verified (fetch_video c).
Proof. unfold fetch_video. repeat kv_step. Qed.

Lemma kv_check_channels bot u chs : keeps_verified (check_channels bot u chs).
Proof.
  intros w uid H. destruct (check_channels_world bot u chs w) as [n ->].
  by rewrite verified_after.
Qed.

Lemma kv_join_buttons chs : keeps_verified (join_buttons chs).
Proof. induction chs as [|ch rest IH]; simpl; repeat kv_step. Qed.

Hint Resolve kv_add_video kv_delete_video kv_fetch_video kv_check_channels
  kv_join_buttons : kv.

Lemma kv_start bot u : keeps_verified (start cfg bot u).
Proof. unfold start, check_membership. repeat kv_step. Qed.

Lemma kv_handle_code u : keeps_verified (handle_code u).
Proof. unfold handle_code. repeat kv_step. Qed.

Lemma kv_upload u args : keeps_verified (upload cfg u args).
Proof. unfold upload. repeat kv_step. Qed.

Lemma kv_delete u args : keeps_verified (delete cfg u args).
Proof. unfold delete. repeat kv_step. Qed.

Lemma kv_run_handler ev : keeps_verified (run_handler cfg ev).
Proof.
  unfold run_handler.
  destruct (ev_handler ev);
    [apply kv_start|apply kv_handle_code|apply kv_upload|apply kv_delete].
Qed.

Lemma verified_run_polling evs w uid :
  verified w uid = true -> verified (run_polling cfg evs w) uid = true.
Proof.
  revert w. induction evs as [|ev evs IH]; intros w H; [exact H|].
  simpl. apply IH. by apply kv_run_handler.
Qed.
End HandlersKeepVerified.

(** ** The handlers, run *)

Section Handlers.
Variable cfg : Config.

Lemma bind_return {A B} (m : Py A) (k : A -> Py B) w a w1 :
  m w = (Return a, w1) -> (m ≫= k) w = k a w1.
Proof. intros H. unfold mbind, Py_bind. by rewrite H. Qed.

Lemma bind_raise {A B} (m : Py A) (k : A -> Py B) w e w1 :
  m w = (Raise e, w1) -> (m ≫= k) w = (Raise e, w1).
Proof. intros H. unfold mbind, Py_bind. by rewrite H. Qed.

Lemma replies_after_queries w uid (chs : list Z) :
  replies (after w (map (fun ch => GetChatMember ch uid) chs)) = replies w.
Proof.
  unfold replies, after. simpl. rewrite List.filter_app.
  induction chs as [|ch rest IH]; simpl; [by rewrite app_nil_r|exact IH].
Qed.

Lemma join_buttons_raises ch rest w :
  join_buttons (ch :: rest) w = (Raise (NameError "KINOSPEEDS"), w).
Proof. reflexivity. Qed.

(** Whenever the check says no, [start] stops at the unbound name: it
    raises before the reply is built, and nothing is sent. *)
Lemma start_rejected bot update user w :
  effective_user update = Some user ->
  fst (check_membership cfg bot (id user) w) = Return false ->
  fst (start cfg bot update w) = Raise (NameError "KINOSPEEDS")
  /\ replies (snd (start cfg bot update w)) = replies w
  /\ user_data (snd (start cfg bot update w)) = user_data w.
Proof.
  intros Hu Hno. unfold start. rewrite Hu.
  destruct (check_channels_world bot (id user) (MANDATORY_CHANNELS cfg) w) as [n Hw].
  unfold check_membership in *.
  destruct (check_channels bot (id user) (MANDATORY_CHANNELS cfg) w)
    as [[ok|e] w1] eqn:E; simpl in Hno, Hw; [|discriminate].
  injection Hno as ->. subst w1.
  rewrite (bind_return _ _ _ _ _ E).
  destruct (MANDATORY_CHANNELS cfg) as [|ch rest]; [discriminate E|].
  rewrite (bind_raise _ _ _ _ _ (join_buttons_raises ch rest _)). simpl.
  split; [reflexivity|]. split; [apply replies_after_queries|reflexivity].
Qed.

Lemma handle_code_verified update user m w :
  effective_user update = Some user ->
  verified w (id user) = true ->
  message update = Some m ->
  exists reply,
    handle_code update w
    = (Return tt,
       mkWorld (Some (table w)) (user_data w)
         (trace w ++ [Execute CreateTableIfNotExists;
                      Execute (SelectFrom (Str.upper (Str.strip (text m))));
                      reply]))
    /\ match sql_select (Str.upper (Str.strip (text m))) (table w) with
       | Some (f, _) => exists caption, reply = ReplyVideo (chat_id m) f caption HTML
       | None => exists txt, reply = ReplyText (chat_id m) txt None
       end.
Proof.
  intros Hu Hv Hm. unfold handle_code. rewrite Hu.
  unfold mbind at 1, Py_bind at 1, get_user_data. unfold verified in Hv.
  rewrite Hv. cbn [negb]. unfold the_message. rewrite Hm.
  unfold mbind at 1, Py_bind at 1, mret, Py_ret. cbv zeta.
  unfold mbind at 1, Py_bind at 1. rewrite fetch_video_run.
  destruct (sql_select _ (table w)) as [[f t]|].
  - eexists. split; [|by eexists].
    unfold reply_video, the_message. rewrite Hm.
    unfold mbind, Py_bind, mret, Py_ret, emit. simpl.
    by rewrite <- app_assoc.
  - eexists. split; [|by eexists].
    unfold reply_text, the_message. rewrite Hm.
    unfold mbind, Py_bind, mret, Py_ret, emit. simpl.
    by rewrite <- app_assoc.
Qed.
End Handlers.

(** C1. The platform refuses the membership query with [BadRequest], so
    the check fails, and the user sends [/start]: the reply should carry
    one join button per mandatory channel, each linking to its channel.
    [start] raises [NameError] on [KINOSPEEDS] instead, and no reply is
    sent at all. *)
Theorem start_rejected_sends_no_join_button :
  fst (check_membership source_config (bot_failing BadRequest) 5 fresh) = Return false
  /\ start source_config (bot_failing BadRequest) (text_from_5 "/start") fresh
     = (Raise (NameError "KINOSPEEDS"),
        after fresh [GetChatMember (-1001234567890) 5])
  /\ replies (snd (start source_config (bot_failing BadRequest)
                     (text_from_5 "/start") fresh))
     = [].
Proof. repeat split; reflexivity. Qed.

(** C7. A plain-text message from a user whose session is not verified
    makes [handle_code] return at once: no reply, no statement on the
    table, no change of any session; the world is as it was. *)
Theorem handle_code_unverified_silent (update : Update) (user : User) (w : World) :
  effective_user update = Some user ->
  verified w (id user) = false ->
  handle_code update w = (Return tt, w).
Proof.
  intros Hu Hv. unfold handle_code. rewrite Hu.
  unfold mbind, Py_bind, get_user_data. unfold verified in Hv.
  rewrite Hv. reflexivity.
Qed.

Lemma handle_code_unverified_silent_witness :
  handle_code (text_from_5 "x42") one_video = (Return tt, one_video).
Proof.
  exact (handle_code_unverified_silent (text_from_5 "x42") {| id := 5 |} one_video
           eq_refl eq_refl).
Defined.

(** C8. [/upload] and [/delete] from a user who is not in [ADMIN_IDS]
    return at once, whatever the arguments and the message replied to: no
    reply, no statement on the table; the world is as it was. *)
Theorem non_admin_commands_silent
    (cfg : Config) (update : Update) (user : User) (args : list string) (w : World) :
  effective_user update = Some user ->
  id user ∉ ADMIN_IDS cfg ->
  upload cfg update args w = (Return tt, w)
  /\ delete cfg update args w = (Return tt, w).
Proof.
  intros Hu Hna.
  assert (Hgate : user_is_admin cfg update = false).
  { unfold user_is_admin, is_admin. rewrite Hu. by apply bool_decide_eq_false. }
  unfold upload, delete. rewrite Hgate. split; reflexivity.
Qed.

Lemma non_admin_commands_silent_witness :
  upload source_config (reply_to_video_from_5 "/upload X42 Demo Clip")
    ["X42"; "Demo"; "Clip"] one_video = (Return tt, one_video)
  /\ delete source_config (reply_to_video_from_5 "/upload X42 Demo Clip")
       ["X42"; "Demo"; "Clip"] one_video = (Return tt, one_video).
Proof.
  apply (non_admin_commands_silent source_config
           (reply_to_video_from_5 "/upload X42 Demo Clip") {| id := 5 |}
           ["X42"; "Demo"; "Clip"] one_video eq_refl).
  intros [Heq|[]%elem_of_nil]%elem_of_cons. discriminate Heq.
Defined.

(** C9. The [verified] flag of a session is never taken back: it
    survives every sequence of updates, whatever the handlers and the
    platform's answers.  So a verified user who sends [/start] again and
    fails the check is still verified afterwards, and the next plain-text
    message is looked up in the table and answered. *)
Theorem verified_never_reset (cfg : Config) :
  (forall evs w uid,
     verified w uid = true -> verified (run_polling cfg evs w) uid = true)
  /\ (forall bot update user w,
        effective_user update = Some user ->
        verified w (id user) = true ->
        fst (check_membership cfg bot (id user) w) = Return false ->
        let w' := process_update cfg w
                    {| ev_bot := bot; ev_handler := OnStart;
                       ev_update := update; ev_args := [] |} in
        verified w' (id user) = true
        /\ forall update' m,
             effective_user update' = Some user ->
             message update' = Some m ->
             exists reply,
               is_reply reply = true
               /\ handle_code update' w'
                  = (Return tt,
                     mkWorld (Some (table w')) (user_data w')
                       (trace w' ++
                          [Execute CreateTableIfNotExists;
                           Execute (SelectFrom (Str.upper (Str.strip (text m))));
                           reply]))).
Proof.
  split; [apply verified_run_polling|].
  intros bot update user w Hu Hv Hno w'.
  assert (Hv' : verified w' (id user) = true).
  { subst w'. unfold process_update, run_handler. simpl. by apply kv_start. }
  split; [exact Hv'|].
  intros update' m Hu' Hm.
  destruct (handle_code_verified update' user m w' Hu' Hv' Hm) as (reply & Hrun & Hshape).
  exists reply. split; [|exact Hrun].
  destruct (sql_select _ (table w')) as [[f t]|]; destruct Hshape as [? ->]; reflexivity.
Qed.

Lemma verified_never_reset_witness :
  let w' := process_update source_config verified_5
              {| ev_bot := bot_failing BadRequest; ev_handler := OnStart;
                 ev_update := text_from_5 "/start"; ev_args := [] |} in
  verified w' 5 = true
  /\ exists reply,
       is_reply reply = true
       /\ handle_code (text_from_5 " x42 ") w'
          = (Return tt,
             mkWorld (Some (table w')) (user_data w')
               (trace w' ++ [Execute CreateTableIfNotExists;
                             Execute (SelectFrom "X42"); reply])).
Proof.
  destruct (verified_never_reset source_config) as [_ H].
  destruct (H (bot_failing BadRequest) (text_from_5 "/start") {| id := 5 |} verified_5
              eq_refl eq_refl eq_refl) as [Hv Hlookup].
  split; [exact Hv|].
  exact (Hlookup (text_from_5 " x42 ")
           {| chat_id := 5; text := " x42 "; reply_to_message := None |}
           eq_refl eq_refl).
Defined.

(** * Further properties *)

(** ** More on the table *)

Section TableMore.
Implicit Types (k t f : string) (tbl : list Row).

Lemma has_code_false k r : has_code k r = false <-> col_code r <> k.
Proof. unfold has_code. apply String.eqb_neq. Qed.

Lemma find_app {A} (p : A -> bool) (l l' : list A) :
  List.find p (l ++ l') = match List.find p l with
                          | Some x => Some x
                          | None => List.find p l'
                          end.
Proof. induction l as [|x l IH]; simpl; [done|]. by destruct (p x). Qed.

Lemma find_deleted_other k k' tbl :
  k' <> k ->
  List.find (has_code k') (List.filter (fun r => negb (has_code k r)) tbl)
  = List.find (has_code k') tbl.
Proof.
  intros Hne. induction tbl as [|r tbl IH]; simpl; [done|].
  destruct (has_code k r) eqn:Ek; simpl.
  - destruct (has_code k' r) eqn:Ek'; [|exact IH].
    apply has_code_true in Ek, Ek'. congruence.
  - by rewrite IH.
Qed.

Lemma find_absent k tbl :
  List.find (has_code k) tbl = None <-> k ∉ map col_code tbl.
Proof.
  induction tbl as [|r tbl IH]; simpl.
  - split; [intros _; apply not_elem_of_nil|done].
  - rewrite not_elem_of_cons. destruct (has_code k r) eqn:E.
    + apply has_code_true in E. split; [discriminate|]. intros [Hne _]. congruence.
    + apply has_code_false in E. rewrite IH. split; [by split|tauto].
Qed.

Lemma select_replace_other k k' t f tbl :
  k' <> k -> sql_select k' (sql_replace k t f tbl) = sql_select k' tbl.
Proof.
  intros Hne. unfold sql_select, sql_replace.
  rewrite find_app, find_deleted_other by done.
  destruct (List.find (has_code k') tbl); [done|]. simpl.
  assert (E : has_code k' (mkRow k t f) = false) by (apply has_code_false; simpl; congruence).
  by rewrite E.
Qed.

Lemma select_delete k tbl : sql_select k (fst (sql_delete k tbl)) = None.
Proof. unfold sql_select, sql_delete. simpl. by rewrite find_deleted. Qed.

Lemma select_delete_other k k' tbl :
  k' <> k -> sql_select k' (fst (sql_delete k tbl)) = sql_select k' tbl.
Proof.
  intros Hne. unfold sql_select, sql_delete. simpl.
  by rewrite find_deleted_other.
Qed.

Lemma present_rows k tbl :
  k ∈ map col_code tbl -> (0 < List.length (List.filter (has_code k) tbl))%nat.
Proof.
  induction tbl as [|r tbl IH]; [by intros ?%elem_of_nil|].
  cbn [map List.filter]. intros [Heq|Hin]%elem_of_cons.
  - assert (E : has_code k r = true) by by apply has_code_true.
    rewrite E. simpl. apply Nat.lt_0_succ.
  - destruct (has_code k r); [simpl; apply Nat.lt_0_succ|by apply IH].
Qed.

Lemma rowcount_positive k tbl :
  (0 <? snd (sql_delete k tbl))%nat = bool_decide (k ∈ map col_code tbl).
Proof.
  unfold sql_delete. cbn [snd].
  destruct (decide (k ∈ map col_code tbl)) as [Hin|Hnin].
  - rewrite bool_decide_eq_true_2 by done. by apply Nat.ltb_lt, present_rows.
  - rewrite bool_decide_eq_false_2 by done.
    destruct (filter_absent _ _ Hnin) as [_ ->]. reflexivity.
Qed.

Lemma find_row_of_key k t f tbl :
  primary_key tbl ->
  List.find (has_code k) tbl = Some (mkRow k t f) <-> mkRow k t f ∈ tbl.
Proof.
  unfold primary_key. induction tbl as [|r tbl IH]; simpl.
  - intros _. split; [discriminate|by intros ?%elem_of_nil].
  - intros [Hr Htbl]%NoDup_cons. rewrite elem_of_cons.
    destruct (has_code k r) eqn:E.
    + apply has_code_true in E. split; [intros [= ->]; by left|].
      intros [<-|Hin]; [done|]. exfalso. apply Hr. rewrite E.
      apply list_elem_of_In. apply list_elem_of_In in Hin.
      exact (List.in_map col_code _ _ Hin).
    + apply has_code_false in E. rewrite (IH Htbl). split; [by right|].
      intros [<-|?]; [by simpl in E|done].
Qed.

Lemma deleted_twice k tbl :
  List.filter (fun r => negb (has_code k r))
    (List.filter (fun r => negb (has_code k r)) tbl)
  = List.filter (fun r => negb (has_code k r)) tbl.
Proof.
  induction tbl as [|r tbl IH]; simpl; [done|].
  destruct (has_code k r) eqn:E; simpl; [done|]. by rewrite E, IH.
Qed.

Lemma replace_twice k t f tbl :
  sql_replace k t f (sql_replace k t f tbl) = sql_replace k t f tbl.
Proof.
  unfold sql_replace at 1. unfold sql_replace at 1.
  rewrite List.filter_app, deleted_twice. simpl.
  assert (E : has_code k (mkRow k t f) = true) by by apply has_code_true.
  rewrite E. simpl. by rewrite app_nil_r.
Qed.

Lemma delete_replace_absent k t f tbl :
  k ∉ map col_code tbl -> fst (sql_delete k (sql_replace k t f tbl)) = tbl.
Proof.
  intros Habs. unfold sql_delete, sql_replace. simpl.
  rewrite List.filter_app, deleted_twice. simpl.
  assert (E : has_code k (mkRow k t f) = true) by by apply has_code_true.
  rewrite E. simpl. rewrite app_nil_r. by apply filter_absent.
Qed.

Lemma normal_upper c : normal_code (Str.upper c).
Proof. apply upper_idemp. Qed.

Lemma normalized_replace c t f tbl :
  normalized tbl -> normalized (sql_replace (Str.upper c) t f tbl).
Proof.
  intros [Hpk Hn]. split; [by apply primary_key_replace|].
  unfold sql_replace. apply Forall_app. split.
  - rewrite Forall_forall in *. intros r Hr. apply Hn.
    apply list_elem_of_In in Hr. apply List.filter_In in Hr as [Hr _].
    by apply list_elem_of_In.
  - repeat constructor. apply normal_upper.
Qed.

Lemma normalized_delete k tbl :
  normalized tbl -> normalized (fst (sql_delete k tbl)).
Proof.
  intros [Hpk Hn]. split; [by apply primary_key_deleted|].
  unfold sql_delete. simpl. rewrite Forall_forall in *. intros r Hr. apply Hn.
  apply list_elem_of_In in Hr. apply List.filter_In in Hr as [Hr _].
  by apply list_elem_of_In.
Qed.
End TableMore.

(** ** More on the database layer *)

Lemma table_mk tbl ud tr : table (mkWorld (Some tbl) ud tr) = tbl.
Proof. reflexivity. Qed.

(** X1. [add_video c] changes what [fetch_video] finds under the code of
    [c] only: a code with another upper-case form is found as before. *)
Theorem add_video_keeps_other_codes (c c' t m : string) (w : World) :
  Str.upper c' <> Str.upper c ->
  fst (fetch_video c' (snd (add_video c t m w))) = fst (fetch_video c' w).
Proof.
  intros Hne. rewrite add_video_run, !fetch_video_run. cbn [fst snd].
  by rewrite table_mk, select_replace_other.
Qed.

Lemma add_video_keeps_other_codes_witness :
  fst (fetch_video "x42" (snd (add_video "y7" "Other" "FILE2" one_video)))
  = fst (fetch_video "x42" one_video).
Proof.
  apply (add_video_keeps_other_codes "y7" "x42" "Other" "FILE2" one_video).
  discriminate.
Defined.

(** X2. [delete_video c] returns whether a row carried the normalized
    code, and afterwards [fetch_video] finds nothing under any code that
    has the upper-case form of [c]. *)
Theorem delete_video_reports_and_removes (c c' : string) (w : World) :
  Str.upper c' = Str.upper c ->
  exists w',
    delete_video c w
    = (Return (bool_decide (Str.upper c ∈ map col_code (table w))), w')
    /\ fst (fetch_video c' w') = Return None.
Proof.
  intros Hsame. eexists. split.
  - rewrite delete_video_run, rowcount_positive. reflexivity.
  - rewrite fetch_video_run. cbn [fst]. rewrite table_mk.
    by rewrite Hsame, select_delete.
Qed.

Lemma delete_video_reports_and_removes_witness :
  exists w',
    delete_video "x42" one_video = (Return true, w')
    /\ fst (fetch_video "X42" w') = Return None.
Proof.
  assert (Hsame : Str.upper "X42" = Str.upper "x42") by (vm_compute; reflexivity).
  destruct (delete_video_reports_and_removes "x42" "X42" one_video Hsame)
    as (w' & Hdel & Hget).
  exists w'. split; [|exact Hget]. rewrite Hdel. reflexivity.
Defined.

(** X3. [delete_video c] leaves every code with another upper-case form
    as it was. *)
Theorem delete_video_keeps_other_codes (c c' : string) (w : World) :
  Str.upper c' <> Str.upper c ->
  fst (fetch_video c' (snd (delete_video c w))) = fst (fetch_video c' w).
Proof.
  intros Hne. rewrite delete_video_run, !fetch_video_run. cbn [fst snd].
  by rewrite table_mk, select_delete_other.
Qed.

Lemma delete_video_keeps_other_codes_witness :
  fst (fetch_video "y7" (snd (delete_video "x42" two_videos)))
  = fst (fetch_video "y7" two_videos).
Proof.
  apply (delete_video_keeps_other_codes "x42" "y7" two_videos). discriminate.
Defined.

(** X4. On a table with unique codes, [fetch_video c] returns
    [(file_id, title)] exactly when the table holds the row of that title
    and file under the normalized code; it returns [None] exactly when no
    row carries the code; and it leaves the rows as they are. *)
Theorem fetch_video_finds_row (c t f : string) (w : World) :
  primary_key (table w) ->
  (fst (fetch_video c w) = Return (Some (f, t))
   <-> mkRow (Str.upper c) t f ∈ table w)
  /\ (fst (fetch_video c w) = Return None
      <-> Str.upper c ∉ map col_code (table w))
  /\ table (snd (fetch_video c w)) = table w.
Proof.
  intros Hpk. rewrite fetch_video_run. cbn [fst snd]. split; [|split].
  - rewrite <- (find_row_of_key _ _ _ _ Hpk). unfold sql_select.
    destruct (List.find _ (table w)) as [r|] eqn:E; [|split; discriminate].
    assert (Hr : col_code r = Str.upper c).
    { apply List.find_some in E as [_ E]. by apply has_code_true. }
    destruct r as [k' t' f']. simpl in *. subst k'.
    split; intros [= -> ->]; reflexivity.
  - rewrite <- find_absent. unfold sql_select.
    destruct (List.find _ (table w)); split; (discriminate || reflexivity).
  - reflexivity.
Qed.

Lemma fetch_video_finds_row_witness :
  fst (fetch_video "y7" two_videos) = Return (Some ("FILE2", "Other")).
Proof.
  assert (Hpk : primary_key (table two_videos)).
  { repeat constructor; rewrite ?elem_of_cons, ?elem_of_nil; intros H;
      repeat destruct H as [H|H]; discriminate || done. }
  destruct (fetch_video_finds_row "y7" "Other" "FILE2" two_videos Hpk) as ([_ Hfind] & _).
  apply Hfind. right. left.
Defined.

(** X5. Registering the same title and file again, under any code that
    has the same upper-case form, changes no row: a repeated [add_video]
    is harmless. *)
Theorem add_video_again (c c' t m : string) (w : World) :
  Str.upper c' = Str.upper c ->
  table (snd (add_video c' t m (snd (add_video c t m w))))
  = table (snd (add_video c t m w)).
Proof.
  intros Hsame. rewrite !add_video_run. cbn [snd]. rewrite !table_mk.
  rewrite Hsame. apply replace_twice.
Qed.

Lemma add_video_again_witness :
  table (snd (add_video "X42" "Demo Clip" "FILE1"
                (snd (add_video "x42" "Demo Clip" "FILE1" no_table))))
  = table (snd (add_video "x42" "Demo Clip" "FILE1" no_table)).
Proof.
  apply (add_video_again "x42" "X42" "Demo Clip" "FILE1" no_table).
  vm_compute. reflexivity.
Defined.

(** X6. When no row carries the code, [add_video c] followed by
    [delete_video] of a code with the same upper-case form removes what was
    added: [delete_video] returns [True] and the rows are those from
    before. *)
Theorem add_then_delete_restores (c c' t m : string) (w : World) :
  Str.upper c' = Str.upper c ->
  Str.upper c ∉ map col_code (table w) ->
  fst (delete_video c' (snd (add_video c t m w))) = Return true
  /\ table (snd (delete_video c' (snd (add_video c t m w)))) = table w.
Proof.
  intros Hsame Habs. rewrite add_video_run, delete_video_run. cbn [fst snd].
  rewrite !table_mk.
  rewrite Hsame. split.
  - rewrite rowcount_positive. f_equal. apply bool_decide_eq_true.
    unfold sql_replace. rewrite map_app. apply elem_of_app. right. by left.
  - by apply delete_replace_absent.
Qed.

Lemma add_then_delete_restores_witness :
  fst (delete_video "Y7" (snd (add_video "y7" "Other" "FILE2" one_video)))
  = Return true
  /\ table (snd (delete_video "Y7" (snd (add_video "y7" "Other" "FILE2" one_video))))
     = table one_video.
Proof.
  apply (add_then_delete_restores "y7" "Y7" "Other" "FILE2" one_video).
  - vm_compute. reflexivity.
  - intros [Heq|[]%elem_of_nil]%elem_of_cons. vm_compute in Heq. discriminate Heq.
Defined.

(** X7. On a database file that has no [videos] table yet, no function
    of the layer fails: [get_db] creates the table first, so [fetch_video]
    returns [None], [delete_video] returns [False], [add_video] stores its
    row as the only one, and the table exists afterwards. *)
Theorem first_access_creates_table (c t m : string) (w : World) :
  videos_db w = None ->
  fst (fetch_video c w) = Return None
  /\ videos_db (snd (fetch_video c w)) = Some []
  /\ fst (delete_video c w) = Return false
  /\ videos_db (snd (delete_video c w)) = Some []
  /\ add_video c t m w
     = (Return tt,
        mkWorld (Some [mkRow (Str.upper c) t m]) (user_data w)
          (trace w ++ [Execute CreateTableIfNotExists;
                       Execute (ReplaceInto (Str.upper c) t m)])).
Proof.
  intros Hnone. rewrite fetch_video_run, delete_video_run, add_video_run.
  unfold table. rewrite Hnone. repeat split; reflexivity.
Qed.

Lemma first_access_creates_table_witness :
  fst (fetch_video "x42" no_table) = Return None
  /\ videos_db (snd (fetch_video "x42" no_table)) = Some []
  /\ fst (delete_video "x42" no_table) = Return false
  /\ videos_db (snd (delete_video "x42" no_table)) = Some []
  /\ add_video "x42" "Demo Clip" "FILE1" no_table
     = (Return tt,
        mkWorld (Some [mkRow "X42" "Demo Clip" "FILE1"]) ∅
          [Execute CreateTableIfNotExists;
           Execute (ReplaceInto "X42" "Demo Clip" "FILE1")]).
Proof.
  exact (first_access_creates_table "x42" "Demo Clip" "FILE1" no_table eq_refl).
Defined.

(** ** More on the membership check *)

Section MembershipMore.

Lemma after_after w qs qs' : after (after w qs) qs' = after w (qs ++ qs').
Proof. unfold after. simpl. by rewrite <- app_assoc. Qed.

Lemma after_nil w : after w [] = w.
Proof. unfold after. rewrite app_nil_r. by destruct w. Qed.
End MembershipMore.

(** X8. [check_membership] asks the platform about the first mandatory
    channel and about no other.  It returns [True] exactly when no channel
    is configured, and [False] exactly when the query about the first
    channel is refused with [BadRequest]; in every other case it raises.
    It does nothing else: the table, the sessions and the replies are
    untouched. *)
Theorem check_membership_asks_first_channel_only
    (cfg : Config) (bot : Bot) (uid : Z) (w : World) :
  snd (check_membership cfg bot uid w)
  = after w (map (ask uid) (take 1 (MANDATORY_CHANNELS cfg)))
  /\ (fst (check_membership cfg bot uid w) = Return true
      <-> MANDATORY_CHANNELS cfg = [])
  /\ (fst (check_membership cfg bot uid w) = Return false
      <-> exists ch rest,
            MANDATORY_CHANNELS cfg = ch :: rest
            /\ chat_member bot ch uid = inr BadRequest).
Proof.
  unfold check_membership. split; [apply check_channels_asks_first|].
  split; [apply check_channels_true|apply check_channels_false].
Qed.

(** ** The handlers, case by case *)

Lemma bind_run {A B} (m : Py A) (k : A -> Py B) w :
  (m ≫= k) w = match m w with
               | (Return a, w') => k a w'
               | (Raise e, w') => (Raise e, w')
               end.
Proof. reflexivity. Qed.

(** Runs a handler symbolically, the database layer by its equations. *)
Ltac run :=
  unfold reply_text, reply_video, the_message, get_user_data, set_user_data;
  repeat (rewrite ?bind_run, ?add_video_run, ?delete_video_run, ?fetch_video_run;
          unfold mret, Py_ret, raise, emit;
          cbn beta iota zeta delta [fst snd videos_db user_data trace]).

Section Cases.
Variable cfg : Config.

Lemma join_buttons_world chs w : snd (join_buttons chs w) = w.
Proof. by destruct chs. Qed.

Lemma start_cases bot u w :
  (effective_user u = None /\ start cfg bot u w = (Return tt, w))
  \/ exists user, effective_user u = Some user
     /\ ((exists m,
            message u = Some m
            /\ MANDATORY_CHANNELS cfg = []
            /\ start cfg bot u w
               = (Return tt,
                  verify (id user) (after w [ReplyText (chat_id m) welcome_text None])))
         \/ (message u = None
             /\ MANDATORY_CHANNELS cfg = []
             /\ start cfg bot u w = (Raise (AttributeError "reply_text"), w))
         \/ (exists ch rest e,
               MANDATORY_CHANNELS cfg = ch :: rest
               /\ start cfg bot u w = (Raise e, after w [ask (id user) ch]))).
Proof.
  unfold start. destruct (effective_user u) as [user|]; [right|by left].
  exists user. split; [done|]. unfold check_membership.
  destruct (MANDATORY_CHANNELS cfg) as [|ch rest] eqn:Hchs.
  - destruct (message u) as [m|] eqn:Hm; [left|right; left].
    + exists m. split; [done|]. split; [done|].
      run. rewrite Hm. run. unfold verify, after, user_dict. reflexivity.
    + split; [done|]. split; [done|]. run. by rewrite Hm.
  - right; right. exists ch, rest.
    rewrite bind_run, check_channels_cons.
    destruct (chat_member bot ch (id user)) as [m|[]]; by eexists.
Qed.

Lemma handle_code_cases u w :
  (effective_user u = None
   /\ handle_code u w = (Raise (AttributeError "get"), w))
  \/ exists user, effective_user u = Some user
     /\ ((verified w (id user) = false /\ handle_code u w = (Return tt, w))
         \/ (verified w (id user) = true /\ message u = None
             /\ handle_code u w = (Raise (AttributeError "text"), w))
         \/ (exists m reply,
               verified w (id user) = true /\ message u = Some m
               /\ chat_of reply = Some (chat_id m)
               /\ handle_code u w
                  = (Return tt,
                     mkWorld (Some (table w)) (user_data w)
                       (trace w ++
                          [Execute CreateTableIfNotExists;
                           Execute (SelectFrom (Str.upper (Str.strip (text m))));
                           reply])))).
Proof.
  destruct (effective_user u) as [user|] eqn:Hu.
  2: { left. split; [done|]. unfold handle_code. by rewrite Hu. }
  right. exists user. split; [done|].
  destruct (verified w (id user)) eqn:Hv.
  - destruct (message u) as [m|] eqn:Hm; [right; right|right; left].
    + destruct (handle_code_verified u user m w Hu Hv Hm) as (reply & Hrun & Hshape).
      exists m, reply. repeat split; try done.
      destruct (sql_select _ (table w)) as [[f t]|]; destruct Hshape as [? ->];
        reflexivity.
    + repeat split; try done. unfold handle_code. rewrite Hu. run.
      unfold verified in Hv. rewrite Hv. cbn [negb]. by rewrite Hm.
  - left. split; [done|]. unfold handle_code. rewrite Hu. run.
    unfold verified in Hv. by rewrite Hv.
Qed.

Lemma upload_cases u args w :
  (user_is_admin cfg u = false /\ upload cfg u args w = (Return tt, w))
  \/ (user_is_admin cfg u = true
      /\ ((message u = None
           /\ upload cfg u args w = (Raise (AttributeError "reply_to_message"), w))
          \/ (exists m txt,
                message u = Some m
                /\ (reply_to_message m ≫= video = None \/ (List.length args < 2)%nat)
                /\ upload cfg u args w
                   = (Return tt, after w [ReplyText (chat_id m) txt None]))
          \/ (exists m v code word words txt,
                message u = Some m
                /\ reply_to_message m ≫= video = Some v
                /\ args = code :: word :: words
                /\ upload cfg u args w
                   = (Return tt,
                      mkWorld
                        (Some (sql_replace (Str.upper code)
                                 (Str.join " " (word :: words)) (file_id v) (table w)))
                        (user_data w)
                        (trace w ++
                           [Execute CreateTableIfNotExists;
                            Execute (ReplaceInto (Str.upper code)
                                       (Str.join " " (word :: words)) (file_id v));
                            ReplyText (chat_id m) txt None]))))).
Proof.
  unfold upload. destruct (user_is_admin cfg u); [right|by left].
  split; [done|]. cbn [negb].
  destruct (message u) as [m|] eqn:Hm.
  2: { left. split; [done|]. run. by rewrite Hm. }
  right.
  assert (Hstep : forall k : Message -> Py unit,
             (the_message u "reply_to_message" ≫= k) w = k m w).
  { intros k. run. by rewrite Hm. }
  rewrite Hstep. clear Hstep.
  assert (Hsay : forall txt w0,
             reply_text u txt None w0 = (Return tt, after w0 [ReplyText (chat_id m) txt None])).
  { intros txt w0. run. by rewrite Hm. }
  destruct (reply_to_message m ≫= video) as [v|] eqn:Hv.
  - destruct args as [|code [|word words]].
    + left. exists m. eexists. split; [done|]. split; [right; simpl; lia|apply Hsay].
    + left. exists m. eexists. split; [done|]. split; [right; simpl; lia|apply Hsay].
    + right. exists m, v, code, word, words. eexists.
      split; [done|]. split; [done|]. split; [done|].
      rewrite bind_run, add_video_run, Hsay. unfold after. simpl.
      by rewrite <- app_assoc.
  - left. exists m. eexists. split; [done|]. split; [by left|apply Hsay].
Qed.

Lemma delete_cases u args w :
  (user_is_admin cfg u = false /\ delete cfg u args w = (Return tt, w))
  \/ (user_is_admin cfg u = true
      /\ ((List.length args <> 1%nat
           /\ ((message u = None
                /\ delete cfg u args w = (Raise (AttributeError "reply_text"), w))
               \/ exists m txt,
                    message u = Some m
                    /\ delete cfg u args w
                       = (Return tt, after w [ReplyText (chat_id m) txt None])))
          \/ (exists code,
                args = [code]
                /\ ((message u = None
                     /\ delete cfg u args w
                        = (Raise (AttributeError "reply_text"),
                           snd (delete_video code w)))
                    \/ exists m txt,
                         message u = Some m
                         /\ delete cfg u args w
                            = (Return tt,
                               after (snd (delete_video code w))
                                 [ReplyText (chat_id m) txt None]))))).
Proof.
  unfold delete. destruct (user_is_admin cfg u); [right|by left].
  split; [done|]. cbn [negb].
  assert (Hsay : forall txt w0,
             reply_text u txt None w0
             = match message u with
               | Some m => (Return tt, after w0 [ReplyText (chat_id m) txt None])
               | None => (Raise (AttributeError "reply_text"), w0)
               end).
  { intros txt w0. run. by destruct (message u). }
  destruct args as [|code [|word words]].
  - left. split; [simpl; lia|]. rewrite Hsay.
    destruct (message u) as [m|]; [right; exists m; eexists|left]; by split.
  - right. exists code. split; [done|].
    rewrite bind_run. destruct (delete_video code w) as [[[]|e] w1] eqn:E;
      [| |by rewrite delete_video_run in E]; cbn [snd]; rewrite Hsay;
      (destruct (message u) as [m|]; [right; exists m; eexists|left]; by split).
  - left. split; [simpl; lia|]. rewrite Hsay.
    destruct (message u) as [m|]; [right; exists m; eexists|left]; by split.
Qed.
End Cases.

(** ** What one update can do *)

(** Splits a statement about each element of a list written out. *)
Ltac each :=
  repeat match goal with
         | |- Forall _ (_ :: _) => apply List.Forall_cons
         | |- Forall _ [] => apply List.Forall_nil
         end.

Section OneUpdate.
Variable cfg : Config.

Lemma replies_mk db ud (w : World) (l : list Effect) :
  replies (mkWorld db ud (trace w ++ l)) = (replies w ++ List.filter is_reply l)%list.
Proof. unfold replies. simpl. apply List.filter_app. Qed.

Lemma replies_after w l : replies (after w l) = (replies w ++ List.filter is_reply l)%list.
Proof. apply replies_mk. Qed.

Lemma replies_verify uid w : replies (verify uid w) = replies w.
Proof. reflexivity. Qed.

Lemma no_reply_in_asks uid chs : List.filter is_reply (map (ask uid) chs) = [].
Proof. induction chs as [|ch rest IH]; simpl; done. Qed.

Lemma replies_delete_video code w : replies (snd (delete_video code w)) = replies w.
Proof. rewrite delete_video_run. cbn [snd]. rewrite replies_mk. simpl. apply app_nil_r. Qed.

Lemma extends_intro P w db ud (l : list Effect) :
  Forall P l -> extends P w (mkWorld db ud (trace w ++ l)).
Proof. intros Hl. by exists l. Qed.

Lemma extends_refl P w : extends P w w.
Proof. exists []. split; [by rewrite app_nil_r|constructor]. Qed.

Lemma extends_impl (P Q : Effect -> Prop) w w' :
  (forall e, P e -> Q e) -> extends P w w' -> extends Q w w'.
Proof.
  intros HPQ (new & Htr & Hnew). exists new. split; [done|].
  by apply (Forall_impl _ _ _ Hnew).
Qed.

(** Every effect of handling an update is one the update allows. *)
Lemma process_update_allowed ev w :
  extends (allowed cfg ev w) w (process_update cfg w ev).
Proof.
  unfold process_update, run_handler. destruct (ev_handler ev) eqn:Hh.
  - destruct (start_cases cfg (ev_bot ev) (ev_update ev) w)
      as [[Hu ->]|(user & Hu & [(m & Hm & Hnone & ->)
                               |[(Hm & Hnone & ->)
                                |(ch & rest & e & Hchs & ->)]])];
      cbn [snd]; [apply extends_refl| |apply extends_refl|];
      apply extends_intro; each.
    + unfold allowed, chat_of_update. by rewrite Hm.
    + unfold allowed, ask, sender. rewrite Hu, Hchs.
      split; [done|]. split; [by left|done].
  - destruct (handle_code_cases (ev_update ev) w)
      as [[Hu ->]|(user & Hu & [[Hv ->]|[(Hv & Hm & ->)
                                        |(m & reply & Hv & Hm & Hchat & ->)]])];
      cbn [snd]; try apply extends_refl. apply extends_intro.
    each.
    + unfold allowed. by rewrite Hh.
    + unfold allowed, sender. rewrite Hu. split; [done|]. by exists (id user).
    + unfold allowed, chat_of_update. rewrite Hm.
      destruct reply; simpl in Hchat; try discriminate; by injection Hchat as ->.
  - destruct (upload_cases cfg (ev_update ev) (ev_args ev) w)
      as [[Ha ->]|[Ha [[Hm ->]|[(m & txt & Hm & _ & ->)
                               |(m & v & code & word & words & txt & Hm & Hv & Hargs & ->)]]]];
      cbn [snd]; try apply extends_refl; apply extends_intro; each.
    + unfold allowed, chat_of_update. by rewrite Hm.
    + unfold allowed. by rewrite Hh.
    + unfold allowed. split; [done|]. split; [done|apply upper_idemp].
    + unfold allowed, chat_of_update. by rewrite Hm.
  - destruct (delete_cases cfg (ev_update ev) (ev_args ev) w)
      as [[Ha ->]|[Ha [[Hn [[Hm ->]|(m & txt & Hm & ->)]]
                      |(code & Hargs & [[Hm ->]|(m & txt & Hm & ->)])]]];
      cbn [snd]; try apply extends_refl; rewrite ?delete_video_run; cbn [snd];
      unfold after; cbn [trace videos_db user_data]; rewrite <- ?app_assoc;
      apply extends_intro; cbn [app]; each;
      unfold allowed, chat_of_update; rewrite ?Hm, ?Hh; done.
Qed.

(** The replies of one update: none, or one in the chat of the update. *)
Lemma process_update_replies ev w :
  replies (process_update cfg w ev) = replies w
  \/ exists r m,
       message (ev_update ev) = Some m
       /\ chat_of r = Some (chat_id m)
       /\ replies (process_update cfg w ev) = (replies w ++ [r])%list.
Proof.
  unfold process_update, run_handler. destruct (ev_handler ev) eqn:Hh.
  - destruct (start_cases cfg (ev_bot ev) (ev_update ev) w)
      as [[Hu ->]|(user & Hu & [(m & Hm & Hnone & ->)
                               |[(Hm & Hnone & ->)
                                |(ch & rest & e & Hchs & ->)]])];
      cbn [snd]; rewrite ?replies_verify, ?replies_after; cbn [List.filter is_reply ask];
      rewrite ?app_nil_r; try (by left).
    right. exists (ReplyText (chat_id m) welcome_text None), m. by repeat split.
  - destruct (handle_code_cases (ev_update ev) w)
      as [[Hu ->]|(user & Hu & [[Hv ->]|[(Hv & Hm & ->)
                                        |(m & reply & Hv & Hm & Hchat & ->)]])];
      cbn [snd]; try (by left).
    right. exists reply, m. rewrite replies_mk. repeat split; try done.
    destruct reply; try discriminate; reflexivity.
  - destruct (upload_cases cfg (ev_update ev) (ev_args ev) w)
      as [[Ha ->]|[Ha [[Hm ->]|[(m & txt & Hm & _ & ->)
                               |(m & v & code & word & words & txt & Hm & Hv & Hargs & ->)]]]];
      cbn [snd]; try (by left); right;
      exists (ReplyText (chat_id m) txt None), m;
      rewrite ?replies_after, ?replies_mk; by repeat split.
  - destruct (delete_cases cfg (ev_update ev) (ev_args ev) w)
      as [[Ha ->]|[Ha [[Hn [[Hm ->]|(m & txt & Hm & ->)]]
                      |(code & Hargs & [[Hm ->]|(m & txt & Hm & ->)])]]];
      cbn [snd]; rewrite ?replies_after, ?replies_delete_video; try (by left);
      right; exists (ReplyText (chat_id m) txt None), m; by repeat split.
Qed.
End OneUpdate.

(** Splits the run of a handler into the cases of the lemmas above. *)
Ltac handler_cases cfg ev w :=
  unfold process_update, run_handler; destruct (ev_handler ev) eqn:Hh;
  [ destruct (start_cases cfg (ev_bot ev) (ev_update ev) w)
      as [[Hu ->]|(user & Hu & [(m & Hm & Hnone & ->)
                               |[(Hm & Hnone & ->)
                                |(ch & rest & e & Hchs & ->)]])]
  | destruct (handle_code_cases (ev_update ev) w)
      as [[Hu ->]|(user & Hu & [[Hv ->]|[(Hv & Hm & ->)
                                        |(m & reply & Hv & Hm & Hchat & ->)]])]
  | destruct (upload_cases cfg (ev_update ev) (ev_args ev) w)
      as [[Ha ->]|[Ha [[Hm ->]|[(m & txt & Hm & Hbad & ->)
                               |(m & v & code & word & words & txt & Hm & Hv & Hargs & ->)]]]]
  | destruct (delete_cases cfg (ev_update ev) (ev_args ev) w)
      as [[Ha ->]|[Ha [[Hn [[Hm ->]|(m & txt & Hm & ->)]]
                      |(code & Hargs & [[Hm ->]|(m & txt & Hm & ->)])]]] ];
  cbn [fst snd].

Section OneUpdateState.
Variable cfg : Config.

Lemma table_after w l : table (after w l) = table w.
Proof. reflexivity. Qed.

Lemma table_verify uid w : table (verify uid w) = table w.
Proof. reflexivity. Qed.

Lemma table_same db ud tr w : db = Some (table w) -> table (mkWorld db ud tr) = table w.
Proof. by intros ->. Qed.

Lemma verified_verify uid w : verified (verify uid w) uid = true.
Proof.
  unfold verified, verify, user_dict, dict_get_truthy. simpl.
  by rewrite lookup_insert_eq; simpl; rewrite lookup_insert_eq.
Qed.

Lemma user_dict_verify_other uid uid' w :
  uid' <> uid -> user_dict (verify uid w) uid' = user_dict w uid'.
Proof. intros Hne. unfold user_dict, verify. simpl. by rewrite lookup_insert_ne. Qed.

(** One update changes the rows only if it is an administrator's
    command. *)
Lemma process_update_table ev w :
  table (process_update cfg w ev) = table w \/ admin_command cfg ev = true.
Proof.
  handler_cases cfg ev w; try (by left);
    try (right; unfold admin_command; by rewrite Hh).
Qed.

Lemma process_update_normalized ev w :
  normalized (table w) -> normalized (table (process_update cfg w ev)).
Proof.
  intros Hnorm. handler_cases cfg ev w; try done.
  - rewrite table_mk. by apply normalized_replace.
  - rewrite delete_video_run. cbn [snd]. rewrite table_mk. by apply normalized_delete.
  - rewrite table_after, delete_video_run. cbn [snd]. rewrite table_mk.
    by apply normalized_delete.
Qed.

(** One update changes the sessions only by verifying the sender of a
    passing [/start]. *)
Lemma process_update_sessions ev w :
  user_data (process_update cfg w ev) = user_data w
  \/ exists user,
       passing_start cfg (id user) ev
       /\ user_data (process_update cfg w ev) = user_data (verify (id user) w).
Proof.
  handler_cases cfg ev w; try (by left); try (left; by rewrite delete_video_run).
  right. exists user. split; [|reflexivity].
  split; [done|]. split; [by exists user|]. rewrite Hnone. constructor.
Qed.

Lemma process_update_verified ev w uid :
  verified (process_update cfg w ev) uid = true ->
  verified w uid = true \/ passing_start cfg uid ev.
Proof.
  unfold verified, user_dict.
  destruct (process_update_sessions ev w) as [->|(user & Hpass & ->)]; [by left|].
  destruct (decide (uid = id user)) as [->|Hne]; [by right|].
  intros Hv. left. unfold verify in Hv. simpl in Hv.
  by rewrite lookup_insert_ne in Hv.
Qed.

Lemma process_update_completes ev w :
  ev_handler ev <> OnStart ->
  effective_user (ev_update ev) <> None ->
  message (ev_update ev) <> None ->
  fst (run_handler cfg ev w) = Return tt.
Proof.
  intros Hns Hu' Hm'. handler_cases cfg ev w; done.
Qed.
End OneUpdateState.

(** ** Each handler on its own *)

Section EachHandler.
Variable cfg : Config.

Lemma handle_code_lookup u user m w :
  effective_user u = Some user ->
  verified w (id user) = true ->
  message u = Some m ->
  handle_code u w
  = (Return tt,
     mkWorld (Some (table w)) (user_data w)
       (trace w ++
          [Execute CreateTableIfNotExists;
           Execute (SelectFrom (Str.upper (Str.strip (text m))));
           lookup_reply (chat_id m) (Str.upper (Str.strip (text m)))
             (sql_select (Str.upper (Str.strip (text m))) (table w))])).
Proof.
  intros Hu Hv Hm. unfold handle_code. rewrite Hu. run.
  unfold verified in Hv. rewrite Hv. cbn [negb]. rewrite Hm. run.
  destruct (sql_select _ (table w)) as [[f t]|]; run; rewrite ?Hm; run;
    by rewrite <- app_assoc.
Qed.

Lemma say u m txt w :
  message u = Some m ->
  reply_text u txt None w = (Return tt, after w [ReplyText (chat_id m) txt None]).
Proof. intros Hm. run. by rewrite Hm. Qed.

Lemma delete_run u m code w :
  user_is_admin cfg u = true ->
  message u = Some m ->
  delete cfg u [code] w
  = (Return tt,
     after (snd (delete_video code w))
       [ReplyText (chat_id m)
          (if bool_decide (Str.upper code ∈ map col_code (table w))
           then deleted_text code else not_found_text)
          None]).
Proof.
  intros Ha Hm. unfold delete. rewrite Ha. cbn [negb].
  rewrite bind_run, delete_video_run, rowcount_positive.
  destruct (bool_decide _); by rewrite (say u m).
Qed.
End EachHandler.

(** X9. A [/start] whose membership check returns [True], in an update
    that has a message: the confirmation, without keyboard, goes to the
    chat of the message, and the session of the sender, and of no other
    user, is marked verified; the table is left alone.  The check returns
    [True] only when no mandatory channel is configured. *)
Theorem start_verifies_sender
    (cfg : Config) (bot : Bot) (u : Update) (user : User) (m : Message) (w : World) :
  effective_user u = Some user ->
  message u = Some m ->
  fst (check_membership cfg bot (id user) w) = Return true ->
  start cfg bot u w
  = (Return tt,
     verify (id user)
       (after (snd (check_membership cfg bot (id user) w))
          [ReplyText (chat_id m) welcome_text None]))
  /\ verified (snd (start cfg bot u w)) (id user) = true
  /\ (forall uid, uid <> id user ->
        user_dict (snd (start cfg bot u w)) uid = user_dict w uid)
  /\ table (snd (start cfg bot u w)) = table w
  /\ MANDATORY_CHANNELS cfg = [].
Proof.
  intros Hu Hm Hpass.
  assert (Hnone : MANDATORY_CHANNELS cfg = [])
    by (by apply (check_channels_true bot (id user) _ w)).
  destruct (start_cases cfg bot u w)
    as [[Hu' _]|(user' & Hu' & [(m' & Hm' & _ & Hrun)
                               |[(Hm' & _)|(ch & rest & e & Hchs & _)]])];
    try congruence.
  assert (user' = user) as -> by congruence.
  assert (m' = m) as -> by congruence.
  rewrite Hrun. unfold check_membership. rewrite Hnone. cbn [snd check_channels].
  split; [done|]. split; [apply verified_verify|]. split; [|done].
  intros uid Hne. by rewrite user_dict_verify_other.
Qed.

Lemma start_verifies_sender_witness :
  start no_channels (bot_all LEFT) (text_from_5 "/start") one_video
  = (Return tt, verify 5 (after one_video [ReplyText 5 welcome_text None]))
  /\ verified (snd (start no_channels (bot_all LEFT) (text_from_5 "/start")
                     one_video)) 5 = true
  /\ (forall uid, uid <> 5 ->
        user_dict (snd (start no_channels (bot_all LEFT) (text_from_5 "/start")
                          one_video)) uid
        = user_dict one_video uid)
  /\ table (snd (start no_channels (bot_all LEFT) (text_from_5 "/start")
                   one_video)) = table one_video
  /\ MANDATORY_CHANNELS no_channels = [].
Proof.
  exact (start_verifies_sender no_channels (bot_all LEFT) (text_from_5 "/start")
           {| id := 5 |} {| chat_id := 5; text := "/start"; reply_to_message := None |}
           one_video eq_refl eq_refl eq_refl).
Defined.

(** X10. A [/start] in an update without a message verifies nobody and
    sends nothing, whatever the platform answers: the confirmation is
    sent before the session is written, and without a message to reply to
    the handler stops there. *)
Theorem start_without_message_verifies_nobody
    (cfg : Config) (bot : Bot) (u : Update) (w : World) :
  message u = None ->
  user_data (snd (start cfg bot u w)) = user_data w
  /\ replies (snd (start cfg bot u w)) = replies w
  /\ table (snd (start cfg bot u w)) = table w.
Proof.
  intros Hm.
  destruct (start_cases cfg bot u w)
    as [[_ ->]|(user & _ & [(m' & Hm' & _)
                           |[(_ & _ & ->)|(ch & rest & e & _ & ->)]])];
    try congruence; cbn [snd];
    rewrite ?replies_after; cbn [List.filter is_reply ask]; rewrite ?app_nil_r; done.
Qed.

Lemma start_without_message_verifies_nobody_witness :
  user_data (snd (start source_config (bot_all MEMBER)
                    {| effective_user := Some {| id := 5 |}; message := None |}
                    one_video)) = user_data one_video
  /\ replies (snd (start source_config (bot_all MEMBER)
                     {| effective_user := Some {| id := 5 |}; message := None |}
                     one_video)) = replies one_video
  /\ table (snd (start source_config (bot_all MEMBER)
                   {| effective_user := Some {| id := 5 |}; message := None |}
                   one_video)) = table one_video.
Proof.
  exact (start_without_message_verifies_nobody source_config (bot_all MEMBER)
           {| effective_user := Some {| id := 5 |}; message := None |}
           one_video eq_refl).
Defined.

(** X11. A text from a verified user is stripped and put in upper case,
    and that code is looked up: on a table with unique codes, the row under
    the code makes the reply a video, the file of the row with a caption of
    its title and the code; when no row carries the code the reply is a
    text.  The reply goes to the chat of the message, and the rows and the
    sessions stay as they are. *)
Theorem handle_code_replies_by_table
    (u : Update) (user : User) (m : Message) (w : World) :
  effective_user u = Some user ->
  verified w (id user) = true ->
  message u = Some m ->
  primary_key (table w) ->
  let k := Str.upper (Str.strip (text m)) in
  (forall t f,
     mkRow k t f ∈ table w ->
     replies (snd (handle_code u w))
     = (replies w ++ [ReplyVideo (chat_id m) f (caption_of t k) HTML])%list)
  /\ (k ∉ map col_code (table w) ->
      exists txt,
        replies (snd (handle_code u w))
        = (replies w ++ [ReplyText (chat_id m) txt None])%list)
  /\ fst (handle_code u w) = Return tt
  /\ table (snd (handle_code u w)) = table w
  /\ user_data (snd (handle_code u w)) = user_data w.
Proof.
  intros Hu Hv Hm Hpk k. rewrite (handle_code_lookup u user m w Hu Hv Hm).
  cbn [fst snd]. fold k. rewrite replies_mk. split; [|split; [|done]].
  - intros t f Hrow. apply (find_row_of_key _ _ _ _ Hpk) in Hrow.
    unfold sql_select. rewrite Hrow. reflexivity.
  - intros Habs. apply find_absent in Habs. unfold sql_select. rewrite Habs.
    by eexists.
Qed.

Lemma handle_code_replies_by_table_witness :
  replies (snd (handle_code (text_from_5 " x42 ") verified_5))
  = [ReplyVideo 5 "FILE1" (caption_of "Demo Clip" "X42") HTML].
Proof.
  assert (Hpk : primary_key (table verified_5)).
  { repeat constructor. by intros ?%elem_of_nil. }
  destruct (handle_code_replies_by_table (text_from_5 " x42 ") {| id := 5 |}
              {| chat_id := 5; text := " x42 "; reply_to_message := None |}
              verified_5 eq_refl eq_refl eq_refl Hpk) as [Hfound _].
  apply (Hfound "Demo Clip" "FILE1"). by left.
Defined.

Section AdminHandlers.
Variable cfg : Config.

Lemma upload_run u m v code word words w :
  user_is_admin cfg u = true ->
  message u = Some m ->
  reply_to_message m ≫= video = Some v ->
  upload cfg u (code :: word :: words) w
  = (Return tt,
     mkWorld
       (Some (sql_replace (Str.upper code) (Str.join " " (word :: words))
                (file_id v) (table w)))
       (user_data w)
       (trace w ++
          [Execute CreateTableIfNotExists;
           Execute (ReplaceInto (Str.upper code) (Str.join " " (word :: words))
                      (file_id v));
           ReplyText (chat_id m)
             (saved_text code (Str.join " " (word :: words))) None])).
Proof.
  intros Ha Hm Hv. unfold upload. rewrite Ha. cbn [negb].
  assert (Hstep : forall k : Message -> Py unit,
             (the_message u "reply_to_message" ≫= k) w = k m w).
  { intros k. run. by rewrite Hm. }
  rewrite Hstep, Hv, bind_run, add_video_run, (say u m) by done.
  unfold after, saved_text. simpl. by rewrite <- app_assoc.
Qed.

Lemma codes_after_delete k tbl : k ∉ map col_code (fst (sql_delete k tbl)).
Proof. intros Hin. by apply codes_deleted in Hin as [_ ?]. Qed.
End AdminHandlers.

(** X12. An administrator replies to a video with [/upload code words...];
    afterwards a verified user whose text, stripped, has the upper-case
    form of the code gets that video back, under the title made of the
    words joined by single spaces and the code in upper case. *)
Theorem upload_then_lookup
    (cfg : Config) (u : Update) (m : Message) (v : Video)
    (code word : string) (words : list string)
    (u' : Update) (user' : User) (m' : Message) (w : World) :
  user_is_admin cfg u = true ->
  message u = Some m ->
  reply_to_message m ≫= video = Some v ->
  effective_user u' = Some user' ->
  verified w (id user') = true ->
  message u' = Some m' ->
  Str.upper (Str.strip (text m')) = Str.upper code ->
  let w1 := snd (upload cfg u (code :: word :: words) w) in
  fst (upload cfg u (code :: word :: words) w) = Return tt
  /\ replies w1
     = (replies w ++ [ReplyText (chat_id m)
                        (saved_text code (Str.join " " (word :: words))) None])%list
  /\ replies (snd (handle_code u' w1))
     = (replies w1 ++
        [ReplyVideo (chat_id m') (file_id v)
           (caption_of (Str.join " " (word :: words)) (Str.upper code)) HTML])%list.
Proof.
  intros Ha Hm Hv Hu' Hver Hm' Hsame w1. subst w1.
  rewrite (upload_run cfg u m v code word words w Ha Hm Hv). cbn [fst snd].
  split; [done|]. split; [by rewrite replies_mk|].
  erewrite handle_code_lookup; [|exact Hu'|exact Hver|exact Hm']. cbn [snd].
  rewrite replies_mk, table_mk, Hsame, select_replace.
  reflexivity.
Qed.

Lemma upload_then_lookup_witness :
  let w1 := snd (upload source_config (reply_to_video_from_admin "/upload x42 Demo Clip")
                   ["x42"; "Demo"; "Clip"] verified_5) in
  fst (upload source_config (reply_to_video_from_admin "/upload x42 Demo Clip")
         ["x42"; "Demo"; "Clip"] verified_5) = Return tt
  /\ replies w1 = [ReplyText 1350513135 (saved_text "x42" "Demo Clip") None]
  /\ replies (snd (handle_code (text_from_5 " X42 ") w1))
     = (replies w1 ++ [ReplyVideo 5 "FILE1" (caption_of "Demo Clip" "X42") HTML])%list.
Proof.
  assert (Hsame : Str.upper (Str.strip " X42 ") = Str.upper "x42")
    by (vm_compute; reflexivity).
  destruct (upload_then_lookup source_config
              (reply_to_video_from_admin "/upload x42 Demo Clip")
              {| chat_id := 1350513135; text := "/upload x42 Demo Clip";
                 reply_to_message := Some {| video := Some {| file_id := "FILE1" |} |} |}
              {| file_id := "FILE1" |} "x42" "Demo" ["Clip"]
              (text_from_5 " X42 ") {| id := 5 |}
              {| chat_id := 5; text := " X42 "; reply_to_message := None |}
              verified_5 eq_refl eq_refl eq_refl eq_refl eq_refl eq_refl Hsame)
    as (Hrun & Hsaved & Hvideo).
  split; [exact Hrun|]. split; [exact Hsaved|].
  rewrite Hvideo. vm_compute. reflexivity.
Defined.

(** X13. An [/upload] from an administrator that is no reply to a video
    is answered by the text that asks for such a reply; one that replies
    to a video with fewer than two arguments, by the usage text.  Nothing
    else happens: no statement reaches the table. *)
Theorem upload_usage
    (cfg : Config) (u : Update) (m : Message) (args : list string) (w : World) :
  user_is_admin cfg u = true ->
  message u = Some m ->
  reply_to_message m ≫= video = None \/ (List.length args < 2)%nat ->
  upload cfg u args w
  = (Return tt,
     after w [ReplyText (chat_id m)
                (match reply_to_message m ≫= video with
                 | None => reply_to_video_text
                 | Some _ => upload_usage_text
                 end)
                None]).
Proof.
  intros Ha Hm Hbad. unfold upload. rewrite Ha. cbn [negb].
  assert (Hstep : forall k : Message -> Py unit,
             (the_message u "reply_to_message" ≫= k) w = k m w).
  { intros k. run. by rewrite Hm. }
  rewrite Hstep.
  destruct (reply_to_message m ≫= video) as [v|]; [|by apply say].
  destruct Hbad as [?|Hshort]; [done|].
  destruct args as [|code [|word words]]; [by apply say|by apply say|].
  simpl in Hshort. lia.
Qed.

Lemma upload_usage_witness :
  upload source_config (reply_to_video_from_admin "/upload x42") ["x42"] one_video
  = (Return tt, after one_video [ReplyText 1350513135 upload_usage_text None]).
Proof.
  apply (upload_usage source_config (reply_to_video_from_admin "/upload x42")
           {| chat_id := 1350513135; text := "/upload x42";
              reply_to_message := Some {| video := Some {| file_id := "FILE1" |} |} |}
           ["x42"] one_video eq_refl eq_refl).
  right. simpl. lia.
Defined.

(** X14. A [/delete code] from an administrator tells the truth: the
    reply says deleted exactly when a row carried the normalized code, not
    found otherwise; afterwards no row carries the code, and every other
    code is found as before. *)
Theorem delete_command_truthful
    (cfg : Config) (u : Update) (m : Message) (code : string) (w : World) :
  user_is_admin cfg u = true ->
  message u = Some m ->
  let w' := snd (delete cfg u [code] w) in
  fst (delete cfg u [code] w) = Return tt
  /\ replies w'
     = (replies w ++
        [ReplyText (chat_id m)
           (if bool_decide (Str.upper code ∈ map col_code (table w))
            then deleted_text code else not_found_text)
           None])%list
  /\ (Str.upper code ∉ map col_code (table w'))
  /\ (forall k, k <> Str.upper code ->
        sql_select k (table w') = sql_select k (table w)).
Proof.
  intros Ha Hm w'. subst w'. rewrite (delete_run cfg u m code w Ha Hm).
  cbn [fst snd]. rewrite replies_after, replies_delete_video, table_after.
  rewrite delete_video_run. cbn [snd]. rewrite table_mk.
  split; [done|]. split; [done|]. split; [apply codes_after_delete|].
  intros k Hne. by apply select_delete_other.
Qed.

Lemma delete_command_truthful_witness :
  let w' := snd (delete source_config (reply_to_video_from_admin "/delete x42")
                   ["x42"] two_videos) in
  fst (delete source_config (reply_to_video_from_admin "/delete x42")
         ["x42"] two_videos) = Return tt
  /\ replies w' = [ReplyText 1350513135 (deleted_text "x42") None]
  /\ (Str.upper "x42" ∉ map col_code (table w'))
  /\ (forall k, k <> Str.upper "x42" ->
        sql_select k (table w') = sql_select k (table two_videos)).
Proof.
  exact (delete_command_truthful source_config
           (reply_to_video_from_admin "/delete x42")
           {| chat_id := 1350513135; text := "/delete x42";
              reply_to_message := Some {| video := Some {| file_id := "FILE1" |} |} |}
           "x42" two_videos eq_refl eq_refl).
Defined.

(** X15. A [/delete] from an administrator with no argument, or more than
    one, is answered by the usage text and nothing else: no statement
    reaches the table. *)
Theorem delete_usage
    (cfg : Config) (u : Update) (m : Message) (args : list string) (w : World) :
  user_is_admin cfg u = true ->
  message u = Some m ->
  List.length args <> 1%nat ->
  delete cfg u args w
  = (Return tt, after w [ReplyText (chat_id m) delete_usage_text None]).
Proof.
  intros Ha Hm Hlen. unfold delete. rewrite Ha. cbn [negb].
  destruct args as [|code [|word words]]; [by apply say| |by apply say].
  by destruct Hlen.
Qed.

Lemma delete_usage_witness :
  delete source_config (reply_to_video_from_admin "/delete") [] one_video
  = (Return tt, after one_video [ReplyText 1350513135 delete_usage_text None]).
Proof.
  apply (delete_usage source_config (reply_to_video_from_admin "/delete")
           {| chat_id := 1350513135; text := "/delete";
              reply_to_message := Some {| video := Some {| file_id := "FILE1" |} |} |}
           [] one_video eq_refl eq_refl).
  discriminate.
Defined.

(** ** Whatever is sent to the bot *)

Section Sequences.
Variable cfg : Config.

Lemma run_polling_cons ev evs w :
  run_polling cfg (ev :: evs) w = run_polling cfg evs (process_update cfg w ev).
Proof. reflexivity. Qed.

Lemma run_polling_table evs w :
  Forall (fun ev => admin_command cfg ev = false) evs ->
  table (run_polling cfg evs w) = table w.
Proof.
  revert w. induction evs as [|ev evs IH]; intros w Hevs; [done|].
  apply Forall_cons in Hevs as [Hev Hevs].
  rewrite run_polling_cons, (IH _ Hevs).
  destruct (process_update_table cfg ev w) as [?|Hadmin]; congruence.
Qed.

Lemma run_polling_normalized evs w :
  normalized (table w) -> normalized (table (run_polling cfg evs w)).
Proof.
  revert w. induction evs as [|ev evs IH]; intros w Hn; [done|].
  rewrite run_polling_cons. by apply IH, process_update_normalized.
Qed.

Lemma run_polling_verified evs w uid :
  verified (run_polling cfg evs w) uid = true ->
  verified w uid = true \/ Exists (passing_start cfg uid) evs.
Proof.
  revert w. induction evs as [|ev evs IH]; intros w Hv; [by left|].
  rewrite run_polling_cons in Hv. destruct (IH _ Hv) as [Hv'|Hlater].
  - destruct (process_update_verified cfg ev w uid Hv') as [?|Hnow];
      [by left|right; by left].
  - right. by right.
Qed.
End Sequences.

(** X16. Handling one update sends at most one reply, and it goes to the
    chat the update was written in; an update without a message gets no
    reply. *)
Theorem one_reply_in_the_same_chat (cfg : Config) (ev : Event) (w : World) :
  replies (process_update cfg w ev) = replies w
  \/ exists r m,
       message (ev_update ev) = Some m
       /\ chat_of r = Some (chat_id m)
       /\ replies (process_update cfg w ev) = (replies w ++ [r])%list.
Proof. apply process_update_replies. Qed.

(** X17. The platform is asked for a membership status only while a
    [/start] is handled, and only about the sender of that command and a
    channel of [MANDATORY_CHANNELS]. *)
Theorem queries_only_from_start (cfg : Config) (ev : Event) (w : World) :
  exists new : list Effect,
    trace (process_update cfg w ev) = (trace w ++ new)%list
    /\ forall ch uid,
         GetChatMember ch uid ∈ new ->
         ev_handler ev = OnStart
         /\ ch ∈ MANDATORY_CHANNELS cfg
         /\ sender ev = Some uid.
Proof.
  destruct (process_update_allowed cfg ev w) as (new & Htr & Hall).
  exists new. split; [done|]. intros ch uid Hin.
  rewrite Forall_forall in Hall. exact (Hall _ Hin).
Qed.

(** X18. The statements a handler runs on the table are licensed by the
    update: a [SELECT] only for the text of a sender whose session is
    verified, a [REPLACE] only for the [/upload] of an administrator and
    under a code in upper case, a [DELETE] only for the [/delete] of an
    administrator. *)
Theorem statements_are_licensed (cfg : Config) (ev : Event) (w : World) :
  exists new : list Effect,
    trace (process_update cfg w ev) = (trace w ++ new)%list
    /\ (forall k,
          Execute (SelectFrom k) ∈ new ->
          ev_handler ev = OnText
          /\ exists uid, sender ev = Some uid /\ verified w uid = true)
    /\ (forall k t f,
          Execute (ReplaceInto k t f) ∈ new ->
          ev_handler ev = OnUpload
          /\ user_is_admin cfg (ev_update ev) = true
          /\ normal_code k)
    /\ (forall k,
          Execute (DeleteFrom k) ∈ new ->
          ev_handler ev = OnDelete /\ user_is_admin cfg (ev_update ev) = true).
Proof.
  destruct (process_update_allowed cfg ev w) as (new & Htr & Hall).
  rewrite Forall_forall in Hall.
  exists new. split; [done|]. split; [|split].
  - intros k Hin. exact (Hall _ Hin).
  - intros k t f Hin. exact (Hall _ Hin).
  - intros k Hin. exact (Hall _ Hin).
Qed.

(** X19. The rows of the table change only through the commands of
    administrators: whatever else is sent, and in whatever order, the
    table is afterwards what it was. *)
Theorem table_changes_only_by_admin_commands
    (cfg : Config) (evs : list Event) (w : World) :
  Forall (fun ev => admin_command cfg ev = false) evs ->
  table (run_polling cfg evs w) = table w.
Proof. apply run_polling_table. Qed.

Lemma table_changes_only_by_admin_commands_witness :
  table (run_polling source_config visitor one_video) = table one_video.
Proof.
  apply (table_changes_only_by_admin_commands source_config visitor one_video).
  repeat constructor.
Defined.

(** X20. The handlers keep the table in normal form: if every code is in
    upper case and carried by one row only, this is still so after any
    sequence of updates; starting without a table, it always is. *)
Theorem table_stays_normalized (cfg : Config) (evs : list Event) :
  (forall w, normalized (table w) -> normalized (table (run_polling cfg evs w)))
  /\ normalized (table (run_polling cfg evs fresh)).
Proof.
  split; [intros w; apply run_polling_normalized|].
  apply run_polling_normalized. split; constructor.
Qed.

Lemma table_stays_normalized_witness :
  normalized (table (run_polling source_config afternoon one_video)).
Proof.
  destruct (table_stays_normalized source_config afternoon) as [Hkeep _].
  apply Hkeep. split.
  - repeat constructor. by intros ?%elem_of_nil.
  - repeat constructor.
Defined.

(** X21. A session is verified only by a [/start] of that user that was
    handled while the platform reported a passing status in every mandatory
    channel: after any sequence of updates, a verified user either was
    verified before or sent such a [/start] among them. *)
Theorem verified_only_by_passing_start
    (cfg : Config) (evs : list Event) (w : World) (uid : Z) :
  verified (run_polling cfg evs w) uid = true ->
  verified w uid = true \/ Exists (passing_start cfg uid) evs.
Proof. apply run_polling_verified. Qed.

Lemma verified_only_by_passing_start_witness :
  verified (run_polling no_channels afternoon fresh) 5 = true
  /\ (verified fresh 5 = true \/ Exists (passing_start no_channels 5) afternoon).
Proof.
  assert (H : verified (run_polling no_channels afternoon fresh) 5 = true)
    by (vm_compute; reflexivity).
  split; [exact H|].
  exact (verified_only_by_passing_start no_channels afternoon fresh 5 H).
Defined.

(** X22. [handle_code], [upload] and [delete] do not fail on an update
    that has a sender and a message: each returns normally, whatever the
    text, the arguments, the table and the sessions. *)
Theorem text_and_commands_complete (cfg : Config) (ev : Event) (w : World) :
  ev_handler ev <> OnStart ->
  effective_user (ev_update ev) <> None ->
  message (ev_update ev) <> None ->
  fst (run_handler cfg ev w) = Return tt.
Proof. apply process_update_completes. Qed.

Lemma text_and_commands_complete_witness :
  fst (run_handler source_config
         {| ev_bot := bot_all LEFT; ev_handler := OnDelete;
            ev_update := reply_to_video_from_admin "/delete x42";
            ev_args := ["x42"] |} no_table) = Return tt.
Proof.
  apply (text_and_commands_complete source_config
           {| ev_bot := bot_all LEFT; ev_handler := OnDelete;
              ev_update := reply_to_video_from_admin "/delete x42";
              ev_args := ["x42"] |} no_table); discriminate.
Defined.
